(** * Budget pipeline: a shallow embedding of [budget.py]

    The development follows the source file function by function:
    [read_transactions], [categorize_transaction], [format_amount],
    [process_multiple_files], [display_results] and [export_to_csv].

    Modelling conventions.
    - A Python [str] is a [string] whose characters are code points below
      256, one [ascii] per character.
    - A Python [float] is an IEEE-754 binary64 value, [spec_float] with
      precision 53 and maximal exponent 1024; every operation rounds to
      nearest, ties to even, as the hardware does.
    - A [dict] with string keys whose order is never observed (a CSV row, a
      transaction) is a [gmap string pyval]; the nested [defaultdict] built
      by [process_multiple_files], whose insertion order is observed by the
      report, is an association list kept in insertion order.
    - Exceptions are explicit: a computation that can raise returns a
      [result].
    - [print] calls produce no value the claims depend on; [display_results]
      returns the lines it prints as structured records. *)

From Stdlib Require Import ZArith QArith Qabs Qpower Lia List String Ascii Bool.
From Stdlib Require Import Floats.SpecFloat Numbers.DecimalString Numbers.DecimalN.
From Stdlib Require Import Sorting.Sorted Sorting.Permutation.
From stdpp Require Import gmap strings list.

Local Open Scope string_scope.
Local Open Scope Z_scope.

(** ** Exceptions and results *)

Inductive exn : Type :=
| ValueError
| TypeError
| KeyError (key : string)
| AttributeError
| IndexError
| APIConnectionError
| APITimeoutError
| RateLimitError
| KeyboardInterrupt.

(** [except Exception] catches every class above but [KeyboardInterrupt],
    which derives from [BaseException] only. *)
Definition is_Exception (e : exn) : bool :=
  match e with
  | KeyboardInterrupt => false
  | _ => true
  end.

Inductive result (A : Type) : Type :=
| Ok (a : A)
| Raise (e : exn).

Arguments Ok {A} a.
Arguments Raise {A} e.

#[global] Instance result_ret : MRet result := fun A a => Ok a.

#[global] Instance result_bind : MBind result := fun A B k r =>
  match r with
  | Ok a => k a
  | Raise e => Raise e
  end.

#[global] Instance result_fmap : FMap result := fun A B f r =>
  match r with
  | Ok a => Ok (f a)
  | Raise e => Raise e
  end.

Fixpoint mapM_result {A B} (f : A -> result B) (l : list A) : result (list B) :=
  match l with
  | [] => Ok []
  | a :: l' => b ← f a; bs ← mapM_result f l'; Ok (b :: bs)
  end.

Definition is_Ok {A} (r : result A) : bool :=
  match r with Ok _ => true | Raise _ => false end.

(** ** Python strings *)

Module PyStr.

(** [str.isspace] on code points below 256. *)
Definition is_space (c : ascii) : bool :=
  let n := nat_of_ascii c in
  ((9 <=? n)%nat && (n <=? 13)%nat) || ((28 <=? n)%nat && (n <=? 32)%nat)
  || (n =? 133)%nat || (n =? 160)%nat.

Definition is_digit (c : ascii) : bool :=
  let n := nat_of_ascii c in (48 <=? n)%nat && (n <=? 57)%nat.

Definition digit_val (c : ascii) : Z := Z.of_nat (nat_of_ascii c) - 48.

Fixpoint lstrip (s : string) : string :=
  match s with
  | EmptyString => EmptyString
  | String c r => if is_space c then lstrip r else s
  end.

Fixpoint rstrip (s : string) : string :=
  match s with
  | EmptyString => EmptyString
  | String c r =>
      match rstrip r with
      | EmptyString => if is_space c then EmptyString else String c EmptyString
      | r' => String c r'
      end
  end.

(** [s.strip()] *)
Definition strip (s : string) : string := rstrip (lstrip s).

(** [s.replace(c, '')] for a one-character [c]. *)
Fixpoint remove_char (c : ascii) (s : string) : string :=
  match s with
  | EmptyString => EmptyString
  | String d r => if Ascii.eqb c d then remove_char c r
                  else String d (remove_char c r)
  end.

(** [s.split(c, 1)]: the text before the first [c] and, when there is
    one, the text after it. *)
Fixpoint split_first (c : ascii) (s : string) : string * option string :=
  match s with
  | EmptyString => (EmptyString, None)
  | String d r =>
      if Ascii.eqb c d then (EmptyString, Some r)
      else let '(a, b) := split_first c r in (String d a, b)
  end.

(** [s.split(c)]: all the fields. *)
Fixpoint split (c : ascii) (s : string) : list string :=
  match s with
  | EmptyString => [EmptyString]
  | String d r =>
      if Ascii.eqb c d then EmptyString :: split c r
      else match split c r with
           | [] => [String d EmptyString]
           | f :: fs => String d f :: fs
           end
  end.

(** [needle in s] *)
Fixpoint contains (needle s : string) : bool :=
  String.prefix needle s ||
  match s with
  | EmptyString => false
  | String _ r => contains needle r
  end.

Definition has_char (c : ascii) (s : string) : bool :=
  existsb (Ascii.eqb c) (list_ascii_of_string s).

(** [sep.join(l)] *)
Fixpoint join (sep : string) (l : list string) : string :=
  match l with
  | [] => EmptyString
  | [s] => s
  | s :: l' => s +:+ sep +:+ join sep l'
  end.

(** ASCII lower case, enough for the words [inf] and [nan]. *)
Definition lower (c : ascii) : ascii :=
  let n := nat_of_ascii c in
  if (65 <=? n)%nat && (n <=? 90)%nat then ascii_of_nat (n + 32) else c.

Fixpoint lower_str (s : string) : string :=
  match s with
  | EmptyString => EmptyString
  | String c r => String (lower c) (lower_str r)
  end.

(** [os.path.basename] on a POSIX path: the text after the last slash. *)
Definition basename (p : string) : string :=
  List.last (split "/" p) EmptyString.

End PyStr.

(** ** Python floats *)

Module PyFloat.

Definition float : Type := spec_float.

Definition prec : Z := 53.
Definition emax : Z := 1024.

Definition zero : float := S754_zero false.

(** [x + y] *)
Definition add (x y : float) : float := SFadd prec emax x y.

(** [abs(x)] *)
Definition abs (x : float) : float := SFabs x.

(** [x > 0] *)
Definition gt0 (x : float) : bool := SFltb zero x.

(** [x == 0] *)
Definition is_zero (x : float) : bool :=
  match x with S754_zero _ => true | _ => false end.

Definition is_finite (x : float) : bool :=
  match x with
  | S754_zero _ | S754_finite _ _ _ => true
  | _ => false
  end.

(** The real number a finite float stands for. *)
Definition to_Q (x : float) : Q :=
  match x with
  | S754_finite s m e =>
      (inject_Z (if s then Z.neg m else Z.pos m) * Qpower (2 # 1) e)%Q
  | _ => 0%Q
  end.

(** *** [float(s)] for a string [s]

    The text is stripped of surrounding white space; single underscores
    are allowed between digits; what is left is an optional sign followed
    by [inf], [infinity] or [nan] in any case, or by a decimal number with
    an optional exponent.  The decimal is converted with correct
    rounding. *)

Inductive literal : Type :=
| LInf (neg : bool)
| LNan
| LDec (neg : bool) (mant : Z) (exp10 : Z).

Fixpoint drop_underscores (prev : ascii) (s : string) : option string :=
  match s with
  | EmptyString => if Ascii.eqb prev "_" then None else Some EmptyString
  | String c r =>
      if Ascii.eqb c "_" then
        if PyStr.is_digit prev then drop_underscores c r else None
      else if Ascii.eqb prev "_" && negb (PyStr.is_digit c) then None
      else String c <$> drop_underscores c r
  end.

Definition take_sign (s : string) : bool * string :=
  match s with
  | String "-" r => (true, r)
  | String "+" r => (false, r)
  | _ => (false, s)
  end.

(** The leading digits of [s], as a number and a count, and the rest. *)
Fixpoint take_digits (acc : Z) (n : Z) (s : string) : Z * Z * string :=
  match s with
  | String c r =>
      if PyStr.is_digit c
      then take_digits (10 * acc + PyStr.digit_val c) (n + 1) r
      else (acc, n, s)
  | EmptyString => (acc, n, s)
  end.

Definition take_exponent (s : string) : Z * string :=
  match s with
  | String c r =>
      if Ascii.eqb (PyStr.lower c) "e" then
        let '(neg, r1) := take_sign r in
        let '(v, n, r2) := take_digits 0 0 r1 in
        if (n =? 0)%Z then (0, s) else ((if neg then - v else v), r2)
      else (0, s)
  | EmptyString => (0, s)
  end.

Definition parse_literal (s : string) : option literal :=
  let '(neg, r) := take_sign s in
  let w := PyStr.lower_str r in
  if String.eqb w "inf" || String.eqb w "infinity" then Some (LInf neg)
  else if String.eqb w "nan" then Some LNan
  else
    let '(ip, n1, r1) := take_digits 0 0 r in
    let '(m, n2, r2) :=
      match r1 with
      | String "." r' => take_digits ip 0 r'
      | _ => (ip, 0, r1)
      end in
    if (n1 + n2 =? 0)%Z then None
    else
      let '(e, r3) := take_exponent r2 in
      match r3 with
      | EmptyString => Some (LDec neg m (e - n2))
      | _ => None
      end.

(** The binary64 value nearest to [m * 10^e], ties to even. *)
Definition of_decimal (neg : bool) (m e : Z) : float :=
  match m with
  | Z0 => S754_zero neg
  | Zpos p =>
      if 0 <=? e then binary_round prec emax neg (p * Z.to_pos (10 ^ e)) 0
      else
        let '(q, e', l) := SFdiv_core_binary prec emax (Zpos p) 0 (10 ^ (- e)) 0 in
        binary_round_aux prec emax neg q e' l
  | Zneg _ => S754_nan
  end.

Definition of_literal (l : literal) : float :=
  match l with
  | LInf neg => S754_infinity neg
  | LNan => S754_nan
  | LDec neg m e => of_decimal neg m e
  end.

(** The white space [float] and [int] skip around a number: the ASCII
    white space and, of the code points from 128 to 255, the two spaces,
    which are read as a blank.  The separators 28 to 31, which [str.strip]
    removes, are not skipped. *)
Definition is_blank (c : ascii) : bool :=
  let n := nat_of_ascii c in
  ((9 <=? n)%nat && (n <=? 13)%nat) || (n =? 32)%nat
  || (n =? 133)%nat || (n =? 160)%nat.

Fixpoint lstrip_blank (s : string) : string :=
  match s with
  | EmptyString => EmptyString
  | String c r => if is_blank c then lstrip_blank r else s
  end.

Fixpoint rstrip_blank (s : string) : string :=
  match s with
  | EmptyString => EmptyString
  | String c r =>
      match rstrip_blank r with
      | EmptyString => if is_blank c then EmptyString else String c EmptyString
      | r' => String c r'
      end
  end.

Definition strip_blank (s : string) : string := rstrip_blank (lstrip_blank s).

Definition literal_of_string (s : string) : option literal :=
  s1 ← drop_underscores "000" (strip_blank s); parse_literal s1.

Definition of_string (s : string) : result float :=
  match literal_of_string s with
  | Some l => Ok (of_literal l)
  | None => Raise ValueError
  end.

(** The decimal number the text denotes, before any rounding. *)
Definition decimal_value (s : string) : option Q :=
  match literal_of_string s with
  | Some (LDec neg m e) =>
      Some (inject_Z (if neg then - m else m) * Qpower (10 # 1) e)%Q
  | _ => None
  end.

(** *** [f"{x:.2f}"] *)

Definition Z_to_str (n : Z) : string :=
  NilZero.string_of_uint (N.to_uint (Z.to_N n)).

Definition digit_char (d : Z) : ascii := ascii_of_nat (Z.to_nat (48 + d)).

Definition two_digits (n : Z) : string :=
  String (digit_char (n / 10)) (String (digit_char (n mod 10)) EmptyString).

Definition round_half_even (num den : Z) : Z :=
  let q := num / den in
  match 2 * (num mod den) ?= den with
  | Lt => q
  | Gt => q + 1
  | Eq => if Z.even q then q else q + 1
  end.

(** [m * 2^e] in hundredths, rounded to nearest, ties to even. *)
Definition hundredths (m : positive) (e : Z) : Z :=
  if 0 <=? e then 100 * Zpos m * 2 ^ e
  else round_half_even (100 * Zpos m) (2 ^ (- e)).

Definition fixed2 (c : Z) : string :=
  Z_to_str (c / 100) +:+ "." +:+ two_digits (c mod 100).

Definition format_2f (x : float) : string :=
  match x with
  | S754_zero s => (if s then "-" else "") +:+ "0.00"
  | S754_infinity s => if s then "-inf" else "inf"
  | S754_nan => "nan"
  | S754_finite s m e =>
      (if s then "-" else "") +:+ fixed2 (hundredths m e)
  end.

(** [sum(l)] and the [total += x] loops: the additions are done from
    left to right, starting from the integer [0], which a float
    addition turns into [0.0].  (From CPython 3.12 on, [sum] also carries
    a compensation term; it is zero when no addition rounds, and on the
    samples of this file both ways give the same floats.) *)
Definition sum (l : list float) : float := fold_left add l zero.

End PyFloat.

(** ** [datetime.strptime(s, '%m/%d/%Y')] *)

Module PyDate.

Record date : Type := Date { year : Z; month : Z; day : Z }.

Definition digit_in (lo hi : Z) (c : ascii) : bool :=
  PyStr.is_digit c && (lo <=? PyStr.digit_val c) && (PyStr.digit_val c <=? hi).

(** [%m] is the pattern [1[0-2]|0[1-9]|[1-9]]. *)
Definition parse_month (s : string) : option Z :=
  match s with
  | String a (String b EmptyString) =>
      if Ascii.eqb a "1" && digit_in 0 2 b then Some (10 + PyStr.digit_val b)
      else if Ascii.eqb a "0" && digit_in 1 9 b then Some (PyStr.digit_val b)
      else None
  | String a EmptyString =>
      if digit_in 1 9 a then Some (PyStr.digit_val a) else None
  | _ => None
  end.

(** [%d] is the pattern [3[0-1]|[1-2]\d|0[1-9]|[1-9]| [1-9]]. *)
Definition parse_day (s : string) : option Z :=
  match s with
  | String a (String b EmptyString) =>
      if Ascii.eqb a "3" && digit_in 0 1 b then Some (30 + PyStr.digit_val b)
      else if digit_in 1 2 a && PyStr.is_digit b
           then Some (10 * PyStr.digit_val a + PyStr.digit_val b)
      else if (Ascii.eqb a "0" || Ascii.eqb a " ") && digit_in 1 9 b
           then Some (PyStr.digit_val b)
      else None
  | String a EmptyString =>
      if digit_in 1 9 a then Some (PyStr.digit_val a) else None
  | _ => None
  end.

(** [%Y] is the pattern [\d\d\d\d]. *)
Definition parse_year (s : string) : option Z :=
  match s with
  | String a (String b (String c (String d EmptyString))) =>
      if PyStr.is_digit a && PyStr.is_digit b && PyStr.is_digit c && PyStr.is_digit d
      then Some (1000 * PyStr.digit_val a + 100 * PyStr.digit_val b
                 + 10 * PyStr.digit_val c + PyStr.digit_val d)
      else None
  | _ => None
  end.

Definition is_leap (y : Z) : bool :=
  (y mod 4 =? 0) && (negb (y mod 100 =? 0) || (y mod 400 =? 0)).

Definition days_in_month (y m : Z) : Z :=
  if m =? 2 then (if is_leap y then 29 else 28)
  else if (m =? 4) || (m =? 6) || (m =? 9) || (m =? 11) then 30
  else 31.

(** The [datetime] constructor refuses year 0 and days the month lacks. *)
Definition valid (d : date) : bool :=
  (1 <=? year d) && (1 <=? month d) && (month d <=? 12)
  && (1 <=? day d) && (day d <=? days_in_month (year d) (month d)).

(** No field pattern matches a slash, and the whole text has to be
    consumed, so the text is exactly three fields between slashes. *)
Definition strptime (s : string) : result date :=
  match PyStr.split "/" s with
  | [ms; ds; ys] =>
      match parse_month ms, parse_day ds, parse_year ys with
      | Some m, Some d, Some y =>
          let r := Date y m d in
          if valid r then Ok r else Raise ValueError
      | _, _, _ => Raise ValueError
      end
  | _ => Raise ValueError
  end.

(** [a <= b] on [datetime] values at midnight. *)
Definition leb (a b : date) : bool :=
  if year a =? year b then
    if month a =? month b then day a <=? day b
    else month a <? month b
  else year a <? year b.

End PyDate.

(** ** [list.sort(key=...)]

    The keys of all the elements are computed first; an exception raised by
    the key function leaves the list as it was.  The sort is stable.  It is
    modelled by a stable insertion sort of the (key, element) pairs. *)

Section StableSort.

Context {A K : Type}.
Variable leb : K -> K -> bool.

Fixpoint insert_by (x : K * A) (l : list (K * A)) : list (K * A) :=
  match l with
  | [] => [x]
  | y :: l' =>
      if leb (fst x) (fst y) then x :: l
      else y :: insert_by x l'
  end.

Fixpoint sort_pairs (l : list (K * A)) : list (K * A) :=
  match l with
  | [] => []
  | x :: l' => insert_by x (sort_pairs l')
  end.

Definition list_sort (key : A -> result K) (l : list A) : result (list A) :=
  keys ← mapM_result key l;
  Ok (map snd (sort_pairs (combine keys l))).

End StableSort.

(** ** Values, rows and the classification service *)

Inductive pyval : Type :=
| VNone
| VStr (s : string)
| VFloat (f : PyFloat.float).

(** [d[k]] *)
Definition getitem (d : gmap string pyval) (k : string) : result pyval :=
  match d !! k with
  | Some v => Ok v
  | None => Raise (KeyError k)
  end.

(** [d.get(k, dflt)] *)
Definition get (d : gmap string pyval) (k : string) (dflt : string) : pyval :=
  default (VStr dflt) (d !! k).

(** [float(v)] *)
Definition float_of (v : pyval) : result PyFloat.float :=
  match v with
  | VNone => Raise TypeError
  | VStr s => PyFloat.of_string s
  | VFloat f => Ok f
  end.

(** A source file as [read_transactions] sees it: its path, the line
    [file.readline()] returns, and the rows [csv.DictReader] yields.  A cell
    the row lacks is [VNone]; surplus cells, which no code reads, are left
    out. *)
Record csv_file : Type := CsvFile {
  file_path : string;
  header_line : string;
  reader_rows : list (gmap string pyval)
}.

(** What the request to the service is made of. *)
Record prompt : Type := Prompt {
  p_description : pyval;
  p_amount : PyFloat.float;
  p_category : pyval;
  p_type : pyval
}.

(** What [client.chat.completions.create] does: it raises, or it returns
    a response whose [choices[i].message.content] is a string or [None]. *)
Inductive response : Type :=
| Completion (choices : list (option string))
| Failure (e : exn).

(** The service answers the [n]-th request of the run as it pleases. *)
Definition service : Type := nat -> prompt -> response.

(** [try: r except Exception: h] *)
Definition try_except_Exception {A} (r : result A) (h : exn -> result A) : result A :=
  match r with
  | Ok a => Ok a
  | Raise e => if is_Exception e then h e else Raise e
  end.

(** [try: r except ValueError: h] *)
Definition try_except_ValueError {A} (r : result A) (h : result A) : result A :=
  match r with
  | Raise ValueError => h
  | _ => r
  end.

(** ** [read_transactions] *)

Definition debit_signature : string :=
  "Details,Posting Date,Description,Amount,Type,Balance".

Definition is_debit_format (first_line : string) : bool :=
  PyStr.contains debit_signature first_line.

Definition account_name (path : string) : string :=
  hd EmptyString (PyStr.split "_" (PyStr.basename path)).

Definition debit_transaction (account : string) (row : gmap string pyval)
  : gmap string pyval :=
  <["Transaction Date" := get row "Posting Date" ""]>
  (<["Description" := get row "Description" ""]>
  (<["Amount" := get row "Amount" "0.0"]>
  (<["Category" := VStr ""]>
  (<["Type" := get row "Type" ""]>
  (<["Balance" := get row "Balance" "0.0"]>
  (<["Account" := VStr account]> ∅)))))).

Definition credit_transaction (account : string) (row : gmap string pyval)
  : gmap string pyval :=
  <["Account" := VStr account]> row.

Definition read_transactions (f : csv_file) : list (gmap string pyval) :=
  let account := account_name (file_path f) in
  let first_line := PyStr.strip (header_line f) in
  map (fun row =>
         if is_debit_format first_line then debit_transaction account row
         else credit_transaction account row)
      (reader_rows f).

(** ** [categorize_transaction] *)

(** Lines 84 to 91: [float(amount_str)], and on [ValueError] a second
    attempt without [$] and [,]. *)
Definition parse_amount (amount_str : pyval) : result PyFloat.float :=
  try_except_ValueError (float_of amount_str)
    match amount_str with
    | VStr s => float_of (VStr (PyStr.remove_char "," (PyStr.remove_char "$" s)))
    | _ => Raise AttributeError
    end.

(** Lines 135 to 140. *)
Definition parse_categorization (content : string) : string * string :=
  let categorization := PyStr.strip content in
  let '(p0, p1) := PyStr.split_first ":" categorization in
  let main_category := PyStr.strip p0 in
  let subcategory :=
    match p1 with
    | Some p => PyStr.strip p
    | None => "general"
    end in
  (main_category, subcategory).

Definition read_response (r : response) : result (string * string) :=
  match r with
  | Failure e => Raise e
  | Completion [] => Raise IndexError
  | Completion (None :: _) => Raise AttributeError
  | Completion (Some content :: _) => Ok (parse_categorization content)
  end.

Definition categorize_transaction (client : service) (n : nat)
    (transaction : gmap string pyval) : result (string * string) :=
  description ← getitem transaction "Description";
  amount_str ← getitem transaction "Amount";
  amount ← parse_amount amount_str;
  let transaction_type := get transaction "Type" "" in
  let category := get transaction "Category" "" in
  let request := Prompt description amount category transaction_type in
  try_except_Exception (read_response (client n request))
    (fun _ => Ok ("Unknown", "error")).

(** ** [format_amount] *)

Definition signed_dollars (x : PyFloat.float) : string :=
  (if PyFloat.gt0 x then "+$" else "-$") +:+ PyFloat.format_2f (PyFloat.abs x).

Definition format_amount (amount : pyval) : pyval :=
  match float_of amount with
  | Ok amount_float => VStr (signed_dollars amount_float)
  | Raise _ => amount
  end.

(** ** [process_multiple_files] *)

(** What is stored for a transaction under its category and subcategory. *)
Record entry : Type := Entry {
  e_date : pyval;
  e_description : pyval;
  e_amount : pyval;
  e_account : pyval;
  e_original_category : pyval
}.

(** [defaultdict(lambda: defaultdict(list))]: a key that is looked up and
    missing is added at the end with the default value. *)
Definition bucket : Type := list (string * list entry).
Definition categorized : Type := list (string * bucket).

Fixpoint upsert {V} (k : string) (dflt : V) (f : V -> V) (l : list (string * V))
  : list (string * V) :=
  match l with
  | [] => [(k, f dflt)]
  | (k', v) :: r =>
      if String.eqb k k' then (k', f v) :: r
      else (k', v) :: upsert k dflt f r
  end.

(** [categorized[main_category][subcategory].append(e)] *)
Definition store (main_category subcategory : string) (e : entry)
    (c : categorized) : categorized :=
  upsert main_category [] (upsert subcategory [] (fun es => (es ++ [e])%list)) c.

Definition all_transactions (files : list csv_file) : list (gmap string pyval) :=
  flat_map read_transactions files.

Definition date_key (x : gmap string pyval) : result PyDate.date :=
  v ← getitem x "Transaction Date";
  match v with
  | VStr s => PyDate.strptime s
  | _ => Raise TypeError
  end.

(** Lines 168 to 171: the sort under a bare [except]. *)
Definition sort_step (l : list (gmap string pyval)) : list (gmap string pyval) :=
  match list_sort PyDate.leb date_key l with
  | Ok l' => l'
  | Raise _ => l
  end.

(** One turn of the loop of lines 177 to 197, for the [i]-th transaction. *)
Definition process_transaction (client : service) (i : nat)
    (transaction : gmap string pyval) (c : categorized) : result categorized :=
  _ ← getitem transaction "Description";
  _ ← getitem transaction "Account";
  amount ← getitem transaction "Amount";
  date ← getitem transaction "Transaction Date";
  description ← getitem transaction "Description";
  account ← getitem transaction "Account";
  let original_category := get transaction "Category" "" in
  '(main_category, subcategory) ← categorize_transaction client i transaction;
  Ok (store main_category subcategory
        (Entry date description amount account original_category) c).

Fixpoint process_loop (client : service) (i : nat)
    (l : list (gmap string pyval)) (c : categorized) : result categorized :=
  match l with
  | [] => Ok c
  | transaction :: l' =>
      c' ← process_transaction client i transaction c;
      process_loop client (S i) l' c'
  end.

Definition process_multiple_files (client : service) (files : list csv_file)
  : result categorized :=
  process_loop client 0 (sort_step (all_transactions files)) [].

(** ** Totals *)

(** [sum(float(t['amount']) for t in transactions)] *)
Definition subcategory_sum (transactions : list entry) : result PyFloat.float :=
  xs ← mapM_result (fun t => float_of (e_amount t)) transactions;
  Ok (PyFloat.sum xs).

(** Lines 222 to 226 and 334 to 338: the sum, over every subcategory of
    every category in turn, of the subcategory's sum. *)
Definition overall_total (c : categorized) : result PyFloat.float :=
  xs ← mapM_result subcategory_sum (flat_map (fun mc => map snd (snd mc)) c);
  Ok (PyFloat.sum xs).

Definition dollars (x : PyFloat.float) : string :=
  "$" +:+ PyFloat.format_2f (PyFloat.abs x).

(** ** [display_results] *)

(** The lines printed, without the fixed text around the values.  The
    subcategory is printed in upper case, which is not modelled. *)
Inductive display_line : Type :=
| DBanner
| DCategory (main_category : string)
| DSubcategory (subcategory : string) (total : string)
| DTransaction (date account description formatted_amount : pyval)
| DCategoryTotal (main_category : string) (total : string)
| DOverall (total : pyval).

Fixpoint display_subcategories (subcategories : bucket)
    (main_category_total : PyFloat.float)
  : result (list display_line * PyFloat.float) :=
  match subcategories with
  | [] => Ok ([], main_category_total)
  | (subcategory, transactions) :: rest =>
      subcategory_total ← subcategory_sum transactions;
      let main_category_total := PyFloat.add main_category_total subcategory_total in
      let lines :=
        DSubcategory subcategory (dollars subcategory_total)
        :: map (fun t => DTransaction (e_date t) (e_account t) (e_description t)
                           (format_amount (e_amount t))) transactions in
      '(more, total) ← display_subcategories rest main_category_total;
      Ok ((lines ++ more)%list, total)
  end.

Definition display_category (mc : string * bucket) : result (list display_line) :=
  let '(main_category, subcategories) := mc in
  '(lines, main_category_total) ← display_subcategories subcategories PyFloat.zero;
  Ok (DCategory main_category :: lines
      ++ [DCategoryTotal main_category (dollars main_category_total)])%list.

Definition display_results (c : categorized) : result (list display_line) :=
  per_category ← mapM_result display_category c;
  total ← overall_total c;
  Ok (DBanner :: concat per_category
      ++ [DOverall (format_amount (VFloat total))])%list.

(** ** [export_to_csv] *)

(** A row of [csv_data], with the seven columns of [fieldnames]. *)
Record csv_row : Type := CsvRow {
  c_date : pyval;
  c_description : pyval;
  c_amount : pyval;
  c_account : pyval;
  c_given_category : pyval;
  c_main_category : pyval;
  c_subcategory : pyval
}.

Definition blank_row : csv_row :=
  CsvRow (VStr "") (VStr "") (VStr "") (VStr "") (VStr "") (VStr "") (VStr "").

Definition files_row (file_paths : list string) : csv_row :=
  CsvRow (VStr "Files Processed:")
         (VStr (PyStr.join ", " (map PyStr.basename file_paths)))
         (VStr "") (VStr "") (VStr "") (VStr "") (VStr "").

Definition subcategory_row (main_category subcategory : string)
    (subcategory_total : PyFloat.float) : csv_row :=
  CsvRow (VStr "")
         (VStr ("== " +:+ main_category +:+ ": " +:+ subcategory +:+ " =="))
         (VStr (dollars subcategory_total))
         (VStr "") (VStr "") (VStr main_category) (VStr subcategory).

Definition transaction_row (main_category subcategory : string) (t : entry)
  : csv_row :=
  CsvRow (e_date t) (e_description t) (e_amount t) (e_account t)
         (e_original_category t) (VStr main_category) (VStr subcategory).

Definition category_total_row (main_category : string)
    (main_category_total : PyFloat.float) : csv_row :=
  CsvRow (VStr "")
         (VStr ("=== TOTAL " +:+ main_category +:+ " ==="))
         (VStr (dollars main_category_total))
         (VStr "") (VStr "") (VStr main_category) (VStr "TOTAL").

Definition overall_row (total : PyFloat.float) : csv_row :=
  CsvRow (VStr "") (VStr "=== OVERALL TOTAL ===")
         (format_amount (VFloat total))
         (VStr "") (VStr "") (VStr "TOTAL") (VStr "TOTAL").

Fixpoint export_subcategories (main_category : string) (subcategories : bucket)
    (main_category_total : PyFloat.float)
  : result (list csv_row * PyFloat.float) :=
  match subcategories with
  | [] => Ok ([], main_category_total)
  | (subcategory, transactions) :: rest =>
      subcategory_total ← subcategory_sum transactions;
      let main_category_total := PyFloat.add main_category_total subcategory_total in
      let rows :=
        (subcategory_row main_category subcategory subcategory_total
         :: map (transaction_row main_category subcategory) transactions
         ++ [blank_row])%list in
      '(more, total) ← export_subcategories main_category rest main_category_total;
      Ok ((rows ++ more)%list, total)
  end.

Definition export_category (mc : string * bucket) : result (list csv_row) :=
  let '(main_category, subcategories) := mc in
  '(rows, main_category_total) ←
    export_subcategories main_category subcategories PyFloat.zero;
  Ok (rows ++ [category_total_row main_category main_category_total; blank_row])%list.

(** The rows handed to the CSV writer, in order. *)
Definition export_to_csv (c : categorized) (file_paths : list string)
  : result (list csv_row) :=
  per_category ← mapM_result export_category c;
  total ← overall_total c;
  Ok (files_row file_paths :: blank_row :: concat per_category
      ++ [overall_row total])%list.

(** [main], once the files are chosen: the summary is printed before the
    report is written. *)
Definition run (client : service) (files : list csv_file) : result (list csv_row) :=
  c ← process_multiple_files client files;
  _ ← display_results c;
  export_to_csv c (map file_path files).

(** ** Notions used by the statements *)

(** The keys of [l] in the order of their first occurrence. *)
Fixpoint first_seen (l : list string) : list string :=
  match l with
  | [] => []
  | x :: r => x :: filter (fun y => negb (String.eqb x y)) (first_seen r)
  end.

(** A transaction once classified: category, subcategory, stored entry. *)
Definition classified : Type := (string * string * entry)%type.

Definition cl_main (x : classified) : string := fst (fst x).
Definition cl_sub (x : classified) : string := snd (fst x).
Definition cl_entry (x : classified) : entry := snd x.

(** What one turn of the loop classifies and stores, without the store. *)
Definition classify (client : service) (i : nat)
    (transaction : gmap string pyval) : result classified :=
  _ ← getitem transaction "Description";
  account ← getitem transaction "Account";
  amount ← getitem transaction "Amount";
  date ← getitem transaction "Transaction Date";
  description ← getitem transaction "Description";
  let original_category := get transaction "Category" "" in
  '(main_category, subcategory) ← categorize_transaction client i transaction;
  Ok (main_category, subcategory,
      Entry date description amount account original_category).

Fixpoint classify_all (client : service) (i : nat)
    (l : list (gmap string pyval)) : result (list classified) :=
  match l with
  | [] => Ok []
  | t :: l' =>
      x ← classify client i t;
      xs ← classify_all client (S i) l';
      Ok (x :: xs)
  end.

(** [xs] grouped by key: the keys in the order first seen, and with each
    key what [val] makes of the elements that have it, in their order. *)
Definition group_by {X V} (key : X -> string) (val : list X -> V) (xs : list X)
  : list (string * V) :=
  map (fun k => (k, val (filter (fun x => String.eqb k (key x)) xs)))
      (first_seen (map key xs)).

(** The grouping the report is meant to show: categories in the order
    first seen, subcategories likewise within a category, transactions in
    the order of arrival. *)
Definition group_subcategories (xs : list classified) : bucket :=
  group_by cl_sub (map cl_entry) xs.

Definition group_first_seen (xs : list classified) : categorized :=
  group_by cl_main group_subcategories xs.

Definition store_classified (c : categorized) (x : classified) : categorized :=
  store (cl_main x) (cl_sub x) (cl_entry x) c.

(** The service call failed: it raised an exception, or the response has
    no choice or no content. *)
Definition service_failed (r : response) : bool :=
  match r with
  | Failure e => is_Exception e
  | Completion [] => true
  | Completion (None :: _) => true
  | Completion (Some _ :: _) => false
  end.

(** The request [categorize_transaction] sends for a transaction whose
    amount is [a]. *)
Definition request_of (t : gmap string pyval) (description : pyval)
    (a : PyFloat.float) : prompt :=
  Prompt description a (get t "Category" "") (get t "Type" "").

(** The amount of a transaction is unparseable: lines 84 to 91 raise. *)
Definition amount_unparseable (t : gmap string pyval) : bool :=
  match t !! "Amount" with
  | Some v => negb (is_Ok (parse_amount v))
  | None => true
  end.

(** *** A batch with failed requests *)

(** The transaction has the cells the loop reads and an amount that lines
    84 to 91 read: for it nothing but the call to the service can fail. *)
Definition ready (t : gmap string pyval) : bool :=
  match t !! "Description", t !! "Account", t !! "Transaction Date" with
  | Some _, Some _, Some _ => negb (amount_unparseable t)
  | _, _, _ => false
  end.

(** The entry the loop stores for a transaction. *)
Definition entry_of (t : gmap string pyval) : option entry :=
  match t !! "Transaction Date", t !! "Description", t !! "Amount",
        t !! "Account" with
  | Some date, Some description, Some amount, Some account =>
      Some (Entry date description amount account (get t "Category" ""))
  | _, _, _, _ => None
  end.

(** What the service returns to the request made for the [i]-th
    transaction of the batch. *)
Definition response_to (client : service) (i : nat) (t : gmap string pyval)
  : option response :=
  match t !! "Description", t !! "Amount" with
  | Some d, Some v =>
      match parse_amount v with
      | Ok a => Some (client i (request_of t d a))
      | Raise _ => None
      end
  | _, _ => None
  end.

(** The entry [e] is among the transactions that the buckets hold under
    the main category [m] and the subcategory [s]. *)
Definition stored_under (m s : string) (e : entry) (c : categorized) : Prop :=
  exists subs ts, (m, subs) ∈ c /\ (s, ts) ∈ subs /\ e ∈ ts.

(** *** Exact sums *)

Definition Qsum (l : list Q) : Q := fold_right Qplus 0%Q l.

(** The decimal number written in the [Amount] cell of a transaction. *)
Definition decimal_amount (t : gmap string pyval) : option Q :=
  match t !! "Amount" with
  | Some (VStr s) => PyFloat.decimal_value s
  | _ => None
  end.

(** The sum, in exact arithmetic, of the amounts as they are written. *)
Definition decimal_total (l : list (gmap string pyval)) : option Q :=
  Qsum <$> mapM decimal_amount l.

(** The addition [x + y] is done without rounding. *)
Definition exact_add (x y : PyFloat.float) : bool :=
  PyFloat.is_finite x && PyFloat.is_finite y
  && PyFloat.is_finite (PyFloat.add x y)
  && Qeq_bool (PyFloat.to_Q (PyFloat.add x y)) (PyFloat.to_Q x + PyFloat.to_Q y).

(** Every addition of the accumulation of [l] onto [acc] is exact. *)
Fixpoint exact_from (acc : PyFloat.float) (l : list PyFloat.float) : bool :=
  match l with
  | [] => true
  | x :: l' => exact_add acc x && exact_from (PyFloat.add acc x) l'
  end.

Definition exact_sum (l : list PyFloat.float) : bool := exact_from PyFloat.zero l.

(** The amounts of a bucketed batch as floats, subcategory by subcategory,
    category by category. *)
Definition bucket_amounts (b : bucket) : result (list (list PyFloat.float)) :=
  mapM_result (fun sub => mapM_result (fun t => float_of (e_amount t)) (snd sub)) b.

Definition amounts (c : categorized) : result (list (list (list PyFloat.float))) :=
  mapM_result (fun mc => bucket_amounts (snd mc)) c.

(** No addition made by the totals of the report rounds: not within a
    subcategory, not when a category accumulates its subcategories, and not
    when the grand total accumulates all the subcategories. *)
Definition no_rounding (ass : list (list (list PyFloat.float))) : bool :=
  forallb (forallb exact_sum) ass
  && forallb (fun sub_lists => exact_sum (map PyFloat.sum sub_lists)) ass
  && exact_sum (map PyFloat.sum (concat ass)).

(** [main_category_total] once the loop over the subcategories ends. *)
Definition category_total (sub_lists : list (list PyFloat.float)) : PyFloat.float :=
  PyFloat.sum (map PyFloat.sum sub_lists).

(** *** The signed format *)

(** The cell holds a text in the signed format: it begins with [+$] or
    with [-$]. *)
Definition signed_format (v : pyval) : bool :=
  match v with
  | VStr s => String.prefix "+$" s || String.prefix "-$" s
  | _ => false
  end.

(** *** The layout of the report *)

Definition amount_value (t : entry) : PyFloat.float :=
  match float_of (e_amount t) with
  | Ok x => x
  | Raise _ => PyFloat.zero
  end.

Definition subcategory_value (transactions : list entry) : PyFloat.float :=
  PyFloat.sum (map amount_value transactions).

Definition subcategory_section (m : string) (sub : string * list entry)
  : list csv_row :=
  (subcategory_row m (fst sub) (subcategory_value (snd sub))
   :: map (transaction_row m (fst sub)) (snd sub) ++ [blank_row])%list.

Definition category_section (mc : string * bucket) : list csv_row :=
  (flat_map (subcategory_section (fst mc)) (snd mc)
   ++ [category_total_row (fst mc)
         (PyFloat.sum (map (fun sub => subcategory_value (snd sub)) (snd mc)));
       blank_row])%list.

Definition grand_total_value (c : categorized) : PyFloat.float :=
  PyFloat.sum (map (fun sub => subcategory_value (snd sub))
                   (flat_map snd c)).

Definition layout (c : categorized) (file_paths : list string) : list csv_row :=
  (files_row file_paths :: blank_row :: flat_map category_section c
   ++ [overall_row (grand_total_value c)])%list.

(** *** The order of the sorted batch *)

Definition date_eqb (a b : PyDate.date) : bool :=
  (PyDate.year a =? PyDate.year b) && (PyDate.month a =? PyDate.month b)
  && (PyDate.day a =? PyDate.day b).

Definition has_date (d : PyDate.date) (t : gmap string pyval) : bool :=
  match date_key t with
  | Ok d' => date_eqb d d'
  | Raise _ => false
  end.

(** [t1] is dated no later than [t2]. *)
Definition not_later (t1 t2 : gmap string pyval) : Prop :=
  exists d1 d2, date_key t1 = Ok d1 /\ date_key t2 = Ok d2
                /\ PyDate.leb d1 d2 = true.

(** *** Auxiliary notions of the proofs *)

(** The order of the (key, element) pairs that [list_sort] sorts. *)
Definition le_pair {A K : Type} (leb : K -> K -> bool) (x y : K * A) : Prop :=
  leb (fst x) (fst y) = true.

(** The key of the pair is the date of its transaction. *)
Definition dated (p : PyDate.date * gmap string pyval) : Prop :=
  date_key (snd p) = Ok (fst p).

(** The value of the floating-point sum of [l]. *)
Definition sum_value (l : list PyFloat.float) : Q := PyFloat.to_Q (PyFloat.sum l).

(** The text ends with a character that is not white space. *)
Fixpoint ends_nonspace (n : string) : bool :=
  match n with
  | EmptyString => false
  | String d EmptyString => negb (PyStr.is_space d)
  | String _ n' => ends_nonspace n'
  end.

(** ** Sample inputs

    Small files and stand-ins for the service, on which the statements
    below are exercised. *)

Module Sample.

(** A row of a credit-card export. *)
Definition credit_row (date description amount category : string)
  : gmap string pyval :=
  <["Transaction Date" := VStr date]>
  (<["Description" := VStr description]>
  (<["Amount" := VStr amount]>
  (<["Category" := VStr category]> ∅))).

(** A row of a checking-account export. *)
Definition debit_row (date description amount type balance : string)
  : gmap string pyval :=
  <["Details" := VStr "DEBIT"]>
  (<["Posting Date" := VStr date]>
  (<["Description" := VStr description]>
  (<["Amount" := VStr amount]>
  (<["Type" := VStr type]>
  (<["Balance" := VStr balance]> ∅))))).

Definition credit_header : string :=
  "Transaction Date,Post Date,Description,Category,Type,Amount,Memo".

Definition debit_header : string :=
  "Details,Posting Date,Description,Amount,Type,Balance,Check or Slip #".

(** The header as the specification spells the checking signature. *)
Definition spelled_header : string :=
  "Detail, Posting Date, Description, Amount, Type, Balance".

Fixpoint answer (table : list (string * string)) (d : string) : string :=
  match table with
  | [] => "Unknown: general"
  | (k, v) :: table' => if String.eqb k d then v else answer table' d
  end.

(** A service that answers from a table, by description. *)
Definition by_description (table : list (string * string)) : service :=
  fun _ p =>
    match p_description p with
    | VStr d => Completion [Some (answer table d)]
    | _ => Completion [Some "Unknown: general"]
    end.

(** A service that is down for the request numbered [k]. *)
Definition down_at (k : nat) (table : list (string * string)) : service :=
  fun n p => if Nat.eqb n k then Failure APITimeoutError
             else by_description table n p.

Definition rules : list (string * string) :=
  [("SAMSCLUB #1234", "Spending: groceries");
   ("PAYROLL", "Incoming: eastman");
   ("NETFLIX", "Spending: subscriptions");
   ("VANGUARD", "Investments: vanguard")].

Definition checking : csv_file :=
  CsvFile "accounts/Chase1234_Activity.CSV" debit_header
    [debit_row "01/09/2024" "PAYROLL" "1200.00" "ACH_CREDIT" "1500.00";
     debit_row "01/05/2024" "SAMSCLUB #1234" "-54.12" "DEBIT_CARD" "300.00"].

Definition card : csv_file :=
  CsvFile "accounts/Visa_2024.csv" credit_header
    [credit_row "01/07/2024" "NETFLIX" "-15.49" "Entertainment";
     credit_row "01/05/2024" "VANGUARD" "-100.00" "";
     credit_row "01/02/2024" "SAMSCLUB #1234" "-20.00" "Shopping"].

(** One date is written in another format. *)
Definition card_iso_date : csv_file :=
  CsvFile "accounts/Visa_2024.csv" credit_header
    [credit_row "01/07/2024" "NETFLIX" "-15.49" "Entertainment";
     credit_row "2024-01-05" "VANGUARD" "-100.00" "";
     credit_row "01/02/2024" "SAMSCLUB #1234" "-20.00" "Shopping"].

(** One amount is not a number. *)
Definition card_bad_amount : csv_file :=
  CsvFile "accounts/Visa_2024.csv" credit_header
    [credit_row "01/02/2024" "SAMSCLUB #1234" "-20.00" "Shopping";
     credit_row "01/05/2024" "VANGUARD" "N/A" "";
     credit_row "01/07/2024" "NETFLIX" "-15.49" "Entertainment"].

(** One amount carries a currency symbol and a thousands separator. *)
Definition card_dollar_amount : csv_file :=
  CsvFile "accounts/Visa_2024.csv" credit_header
    [credit_row "01/09/2024" "PAYROLL" "$1,200.00" ""].

(** The row [csv.DictReader] makes of the cells of a line under a first
    line without quotes: the field names are the pieces of the first line
    between its commas, the space after a comma included. *)
Definition row_under (first_line : string) (cells : list string)
  : gmap string pyval :=
  list_to_map (zip (PyStr.split "," first_line) (VStr <$> cells)).

(** A checking export whose first line is the header the specification
    spells, followed by the line
    [DEBIT,01/05/2024,SAMSCLUB #1234,-54.12,DEBIT_CARD,300.00]. *)
Definition checking_spelled : csv_file :=
  CsvFile "accounts/Chase1234_Activity.CSV" spelled_header
    [row_under spelled_header
       ["DEBIT"; "01/05/2024"; "SAMSCLUB #1234"; "-54.12"; "DEBIT_CARD";
        "300.00"]].

Definition dimes : csv_file :=
  CsvFile "accounts/Cash_2024.csv" credit_header
    [credit_row "01/02/2024" "A" "0.1" "";
     credit_row "01/03/2024" "B" "0.2" "";
     credit_row "01/04/2024" "C" "0.3" ""].

Definition dimes_split_late : service :=
  by_description [("A", "Incoming: cash"); ("B", "Incoming: cash");
                  ("C", "Incoming: venmo")].

Definition dimes_split_early : service :=
  by_description [("A", "Incoming: cash"); ("B", "Incoming: venmo");
                  ("C", "Incoming: venmo")].

(** Thirty cents in, thirty cents out. *)
Definition evens_out : csv_file :=
  CsvFile "accounts/Cash_2024.csv" credit_header
    [credit_row "01/02/2024" "A" "0.10" "";
     credit_row "01/03/2024" "B" "0.20" "";
     credit_row "01/04/2024" "C" "-0.30" ""].

(** Amounts that binary floating point holds and adds exactly. *)
Definition quarters : csv_file :=
  CsvFile "accounts/Cash_2024.csv" credit_header
    [credit_row "01/02/2024" "A" "1.5" "";
     credit_row "01/03/2024" "B" "2.25" "";
     credit_row "01/04/2024" "C" "-0.75" ""].

Definition cancels : csv_file :=
  CsvFile "accounts/Cash_2024.csv" credit_header
    [credit_row "01/02/2024" "A" "2.50" "";
     credit_row "01/03/2024" "B" "-2.50" ""].

(** What [process_multiple_files] makes of a sample, or nothing. *)
Definition categorized_of (client : service) (files : list csv_file)
  : categorized :=
  match process_multiple_files client files with
  | Ok c => c
  | Raise _ => []
  end.

End Sample.

(** * The rest of the program *)

(** ** [main]: the choice of the files *)

(** [s.lower()] on code points below 256: the letters A to Z and the
    accented capitals, the multiplication sign apart. *)
Definition lower_char (c : ascii) : ascii :=
  let n := nat_of_ascii c in
  if ((65 <=? n)%nat && (n <=? 90)%nat)
     || ((192 <=? n)%nat && (n <=? 222)%nat && negb (n =? 215)%nat)
  then ascii_of_nat (n + 32) else c.

Fixpoint str_lower (s : string) : string :=
  match s with
  | EmptyString => EmptyString
  | String c r => String (lower_char c) (str_lower r)
  end.

(** [s.endswith(suffix)] *)
Fixpoint endswith (s suffix : string) : bool :=
  String.eqb s suffix ||
  match s with
  | EmptyString => false
  | String _ r => endswith r suffix
  end.

(** [os.path.join(a, b)] on POSIX paths. *)
Definition path_join (a b : string) : string :=
  match b with
  | String "/" _ => b
  | _ => if String.eqb a "" || endswith a "/" then a +:+ b
         else a +:+ "/" +:+ b
  end.

(** [int(s)] for a string, in base ten: white space around, a sign, digits
    with single underscores between them.  A text of more than 4300 digits
    is refused (the default limit of CPython 3.11). *)
Definition int_max_str_digits : Z := 4300.

Definition int_of_string (s : string) : result Z :=
  match PyFloat.drop_underscores "000" (PyFloat.strip_blank s) with
  | None => Raise ValueError
  | Some s1 =>
      let '(neg, r) := PyFloat.take_sign s1 in
      let '(v, n, rest) := PyFloat.take_digits 0 0 r in
      match rest with
      | EmptyString =>
          if (n =? 0) || (int_max_str_digits <? n) then Raise ValueError
          else Ok (if neg then - v else v)
      | _ => Raise ValueError
      end
  end.

(** The number a row of decimal digits stands for, after [acc]. *)
Fixpoint uint_value (u : Decimal.uint) (acc : Z) : Z :=
  match u with
  | Decimal.Nil => acc
  | Decimal.D0 l => uint_value l (10 * acc + 0)
  | Decimal.D1 l => uint_value l (10 * acc + 1)
  | Decimal.D2 l => uint_value l (10 * acc + 2)
  | Decimal.D3 l => uint_value l (10 * acc + 3)
  | Decimal.D4 l => uint_value l (10 * acc + 4)
  | Decimal.D5 l => uint_value l (10 * acc + 5)
  | Decimal.D6 l => uint_value l (10 * acc + 6)
  | Decimal.D7 l => uint_value l (10 * acc + 7)
  | Decimal.D8 l => uint_value l (10 * acc + 8)
  | Decimal.D9 l => uint_value l (10 * acc + 9)
  end.

(** What [main] finds around it: the directory of the script, the names
    [os.listdir] gives for its [accounts] directory, the line typed at the
    prompt, and for a path the first line and the rows of the file there. *)
Record environment : Type := Environment {
  script_dir : string;
  listing : list string;
  typed : string;
  contents : string -> string * list (gmap string pyval)
}.

Definition accounts_dir (env : environment) : string :=
  path_join (script_dir env) "accounts".

Definition csv_files (env : environment) : list string :=
  List.filter (fun f => endswith f ".CSV" || endswith f ".csv") (listing env).

(** Lines 394 to 399: the numbers typed, one less each, and the files at
    those places; a number out of range is skipped. *)
Definition parse_indices (selection : string) : result (list Z) :=
  mapM_result (fun idx => n ← int_of_string (PyStr.strip idx); Ok (n - 1))
    (PyStr.split "," selection).

Fixpoint files_at (dir : string) (files : list string) (indices : list Z)
  : list string :=
  match indices with
  | [] => []
  | idx :: rest =>
      if (idx <? 0) || (Z.of_nat (length files) <=? idx) then files_at dir files rest
      else match files !! Z.to_nat idx with
           | Some f => path_join dir f :: files_at dir files rest
           | None => files_at dir files rest
           end
  end.

(** The paths chosen, or nothing when the selection is not understood. *)
Definition selected_paths (dir : string) (files : list string)
    (selection : string) : option (list string) :=
  if String.eqb (str_lower selection) "all" then
    Some (map (path_join dir) files)
  else
    match parse_indices selection with
    | Ok indices => Some (files_at dir files indices)
    | Raise _ => None
    end.

Definition open_file (env : environment) (path : string) : csv_file :=
  CsvFile path (fst (contents env path)) (snd (contents env path)).

Inductive main_outcome : Type :=
| NoCsvFiles
| InvalidSelection
| NoValidFiles
| Exported (rows : list csv_row).

Definition main (client : service) (env : environment) : result main_outcome :=
  match csv_files env with
  | [] => Ok NoCsvFiles
  | files =>
      match selected_paths (accounts_dir env) files (typed env) with
      | None => Ok InvalidSelection
      | Some [] => Ok NoValidFiles
      | Some file_paths =>
          categorized ← process_multiple_files client
                          (map (open_file env) file_paths);
          _ ← display_results categorized;
          rows ← export_to_csv categorized file_paths;
          Ok (Exported rows)
      end
  end.

(** ** Notions used by the further statements *)

(** All the entries of the buckets, in the order of the report. *)
Definition all_entries (c : categorized) : list entry :=
  flat_map (fun mc => flat_map snd (snd mc)) c.

(** The four cells the loop copies from a transaction to its entry. *)
Definition cells_of_transaction (t : gmap string pyval)
  : option pyval * option pyval * option pyval * option pyval :=
  (t !! "Transaction Date", t !! "Description", t !! "Amount", t !! "Account").

Definition cells_of_entry (e : entry)
  : option pyval * option pyval * option pyval * option pyval :=
  (Some (e_date e), Some (e_description e), Some (e_amount e),
   Some (e_account e)).

(** A character that no numeric text holds. *)
Definition foreign (c : ascii) : bool :=
  negb (PyFloat.is_blank c) && negb (PyStr.is_digit c)
  && negb (Ascii.eqb c "_") && negb (Ascii.eqb c "-") && negb (Ascii.eqb c "+")
  && negb (Ascii.eqb c ".")
  && negb (PyStr.has_char (PyStr.lower c) "infinityae").

(** [float] reads the amount of the entry as it is stored. *)
Definition readable (e : entry) : bool := is_Ok (float_of (e_amount e)).

(** The amount text holds a currency symbol or a thousands separator. *)
Definition has_symbols (e : entry) : Prop :=
  exists s, e_amount e = VStr s
            /\ PyStr.has_char "$" s || PyStr.has_char "," s = true.

(** *** The layout of the printed summary *)

Definition display_subcategory_lines (sub : string * list entry)
  : list display_line :=
  DSubcategory (fst sub) (dollars (subcategory_value (snd sub)))
  :: map (fun t => DTransaction (e_date t) (e_account t) (e_description t)
                     (format_amount (e_amount t))) (snd sub).

Definition display_category_lines (mc : string * bucket) : list display_line :=
  (DCategory (fst mc) :: flat_map display_subcategory_lines (snd mc)
   ++ [DCategoryTotal (fst mc)
         (dollars (PyFloat.sum
                     (map (fun sub => subcategory_value (snd sub)) (snd mc))))])%list.

Definition display_layout (c : categorized) : list display_line :=
  (DBanner :: flat_map display_category_lines c
   ++ [DOverall (format_amount (VFloat (grand_total_value c)))])%list.

(** ** A sample run *)

Module SampleRun.

Definition checking_path : string :=
  "/home/user/budget/accounts/Chase1234_Activity.CSV".

(** The [accounts] directory holds the checking export, a note and the
    card export. *)
Definition at_prompt (line : string) : environment :=
  Environment "/home/user/budget"
    ["Chase1234_Activity.CSV"; "notes.txt"; "Visa_2024.csv"]
    line
    (fun path =>
       if String.eqb path checking_path
       then (Sample.debit_header, reader_rows Sample.checking)
       else (Sample.credit_header, reader_rows Sample.card)).

End SampleRun.

(** ** [format_numbers.py] *)

Module FormatNumbers.

(** What the keyboard sends while [main] waits in [input()]: a line, or
    Ctrl-C. *)
Inductive keyboard : Type :=
| Typed (line : string)
| CtrlC.

(** How the entry loop of [main] ends: with the numbers entered, by
    [sys.exit(0)], by the [EOFError] of an exhausted input, which no
    handler catches, or by another exception that is not handled. *)
Inductive entered : Type :=
| Numbers (numbers : list string)
| Exit0
| EndOfInput
| Uncaught (e : exn).

(** The [while True] loop of [main]. *)
Fixpoint input_loop (keys : list keyboard) (numbers : list string) : entered :=
  match keys with
  | [] => EndOfInput
  | CtrlC :: _ => Exit0
  | Typed raw :: rest =>
      let line := PyStr.strip raw in
      if String.eqb line "" then Numbers numbers
      else match PyFloat.of_string line with
           | Ok _ => input_loop rest (numbers ++ [line])
           | Raise ValueError => input_loop rest numbers
           | Raise KeyboardInterrupt => Exit0
           | Raise e => Uncaught e
           end
  end.

(** The list [abs_numbers] of [format_numbers_to_excel]. *)
Definition abs_numbers (numbers : list string) : result (list PyFloat.float) :=
  mapM_result (fun num => x ← PyFloat.of_string num; Ok (PyFloat.abs x))
    (List.filter (fun num => negb (String.eqb (PyStr.strip num) "")) numbers).

(** A line the entry loop keeps. *)
Definition accepted (line : string) : Prop :=
  PyStr.strip line = line /\ line <> "" /\ is_Ok (PyFloat.of_string line) = true.

End FormatNumbers.

(** * Proofs *)

Local Open Scope list_scope.

(** * Facts about results *)

Lemma bind_Ok {A B} (r : result A) (k : A -> result B) (b : B) :
  (r ≫= k) = Ok b -> exists a, r = Ok a /\ k a = Ok b.
Proof. destruct r as [a|e]; simpl; [eauto | discriminate]. Qed.

Lemma mapM_result_Forall2 {A B} (f : A -> result B) (l : list A) (bs : list B) :
  mapM_result f l = Ok bs -> Forall2 (fun a b => f a = Ok b) l bs.
Proof.
  revert bs. induction l as [|a l IH]; intros bs H; simpl in H.
  - injection H as <-. constructor.
  - apply bind_Ok in H as (b & Hb & H).
    apply bind_Ok in H as (bs' & Hbs & H).
    injection H as <-. constructor; auto.
Qed.

Lemma mapM_result_Ok {A B} (f : A -> result B) (l : list A) :
  Forall (fun a => is_Ok (f a) = true) l -> exists bs, mapM_result f l = Ok bs.
Proof.
  induction 1 as [|a l Ha _ [bs IH]]; simpl.
  - eauto.
  - destruct (f a) as [b|e]; [|discriminate]. rewrite IH. simpl. eauto.
Qed.

Lemma mapM_result_Raise {A B} (f : A -> result B) (l : list A) :
  Exists (fun a => is_Ok (f a) = false) l -> exists e, mapM_result f l = Raise e.
Proof.
  induction 1 as [a l Ha | a l _ [e IH]]; simpl.
  - destruct (f a) as [b|e]; [discriminate|]. simpl. eauto.
  - destruct (f a) as [b|e']; simpl; [|eauto]. rewrite IH. simpl. eauto.
Qed.

(** * The stable sort *)

Section StableSortFacts.

Context {A K : Type}.
Variable leb : K -> K -> bool.
Hypothesis leb_total : forall a b, leb a b = true \/ leb b a = true.

Lemma insert_by_Permutation (x : K * A) l :
  Permutation (x :: l) (insert_by leb x l).
Proof.
  induction l as [|y l IH]; simpl; [reflexivity|].
  destruct (leb (fst x) (fst y)); [reflexivity|].
  rewrite perm_swap. apply perm_skip, IH.
Qed.

Lemma sort_pairs_Permutation (l : list (K * A)) :
  Permutation l (sort_pairs leb l).
Proof.
  induction l as [|x l IH]; simpl; [constructor|].
  rewrite <- insert_by_Permutation. apply perm_skip, IH.
Qed.

Lemma insert_by_HdRel (a x : K * A) l :
  le_pair leb a x -> HdRel (le_pair leb) a l -> HdRel (le_pair leb) a (insert_by leb x l).
Proof.
  intros Hax Hal. destruct l as [|y l]; simpl; [constructor; exact Hax|].
  destruct (leb (fst x) (fst y)); constructor; [exact Hax|].
  inversion Hal; assumption.
Qed.

Lemma insert_by_Sorted (x : K * A) l :
  Sorted (le_pair leb) l -> Sorted (le_pair leb) (insert_by leb x l).
Proof.
  induction 1 as [|y l Hl IH Hy]; simpl.
  - repeat constructor.
  - destruct (leb (fst x) (fst y)) eqn:E.
    + constructor; [constructor; assumption|]. constructor. exact E.
    + constructor; [exact IH|].
      apply insert_by_HdRel; [|exact Hy].
      destruct (leb_total (fst x) (fst y)) as [H|H]; [congruence|exact H].
Qed.

Lemma sort_pairs_Sorted (l : list (K * A)) : Sorted (le_pair leb) (sort_pairs leb l).
Proof.
  induction l as [|x l IH]; simpl; [constructor|].
  apply insert_by_Sorted, IH.
Qed.

(** Elements whose keys are pairwise in order keep their places. *)
Lemma filter_insert_by (p : K -> bool) (x : K * A) l :
  (forall a b, p a = true -> p b = true -> leb a b = true) ->
  filter (fun y => p (fst y)) (insert_by leb x l)
  = filter (fun y => p (fst y)) (x :: l).
Proof.
  intros Hp. induction l as [|y l IH]; [reflexivity|].
  cbn [insert_by]. destruct (leb (fst x) (fst y)) eqn:E; [reflexivity|].
  rewrite filter_cons, IH, !filter_cons.
  destruct (decide (p y.1)) as [Hy|Hy], (decide (p x.1)) as [Hx|Hx];
    try reflexivity.
  apply Is_true_true in Hy, Hx. rewrite (Hp _ _ Hx Hy) in E. discriminate.
Qed.

Lemma filter_sort_pairs (p : K -> bool) (l : list (K * A)) :
  (forall a b, p a = true -> p b = true -> leb a b = true) ->
  filter (fun y => p (fst y)) (sort_pairs leb l)
  = filter (fun y => p (fst y)) l.
Proof.
  intros Hp. induction l as [|x l IH]; [reflexivity|].
  cbn [sort_pairs]. rewrite filter_insert_by by exact Hp.
  rewrite !filter_cons, IH. reflexivity.
Qed.

End StableSortFacts.


(** * Dates *)

Lemma date_leb_total (a b : PyDate.date) :
  PyDate.leb a b = true \/ PyDate.leb b a = true.
Proof.
  unfold PyDate.leb.
  destruct (Z.eqb_spec (PyDate.year a) (PyDate.year b)) as [Hy|Hy].
  - rewrite Hy, Z.eqb_refl.
    destruct (Z.eqb_spec (PyDate.month a) (PyDate.month b)) as [Hm|Hm].
    + rewrite Hm, Z.eqb_refl. lia.
    + destruct (Z.eqb_spec (PyDate.month b) (PyDate.month a)); lia.
  - destruct (Z.eqb_spec (PyDate.year b) (PyDate.year a)); lia.
Qed.

Lemma date_leb_trans (a b c : PyDate.date) :
  PyDate.leb a b = true -> PyDate.leb b c = true -> PyDate.leb a c = true.
Proof.
  unfold PyDate.leb.
  repeat match goal with
         | |- context [Z.eqb ?x ?y] => destruct (Z.eqb_spec x y)
         end; lia.
Qed.

Lemma date_eqb_leb (d a b : PyDate.date) :
  date_eqb d a = true -> date_eqb d b = true -> PyDate.leb a b = true.
Proof.
  unfold date_eqb, PyDate.leb. intros Ha Hb.
  apply andb_prop in Ha as [Ha Ha3]. apply andb_prop in Ha as [Ha1 Ha2].
  apply andb_prop in Hb as [Hb Hb3]. apply andb_prop in Hb as [Hb1 Hb2].
  repeat match goal with
         | |- context [Z.eqb ?x ?y] => destruct (Z.eqb_spec x y)
         end; lia.
Qed.

(** * The sort step *)

Lemma combine_dated keys (l : list (gmap string pyval)) :
  Forall2 (fun t d => date_key t = Ok d) l keys ->
  Forall dated (combine keys l) /\ map snd (combine keys l) = l.
Proof.
  induction 1 as [|t d l keys Ht _ [IH1 IH2]]; simpl.
  - split; [constructor | reflexivity].
  - split; [constructor; assumption | f_equal; assumption].
Qed.

Lemma dated_StronglySorted (ps : list (PyDate.date * gmap string pyval)) :
  Forall dated ps ->
  StronglySorted (fun x y => PyDate.leb (fst x) (fst y) = true) ps ->
  StronglySorted not_later (map snd ps).
Proof.
  intros Hd Hs. induction Hs as [|p ps Hs IH Hp]; simpl; [constructor|].
  apply Forall_cons in Hd as [Hp0 Hd].
  constructor; [apply IH, Hd|].
  apply Forall_map. rewrite Forall_forall in Hp, Hd |- *.
  intros q Hq. exists (fst p), (fst q).
  repeat split; [exact Hp0 | apply Hd, Hq | apply Hp, Hq].
Qed.

Lemma dated_filter (d : PyDate.date) (ps : list (PyDate.date * gmap string pyval)) :
  Forall dated ps ->
  filter (has_date d) (map snd ps)
  = map snd (filter (fun p => date_eqb d (fst p)) ps).
Proof.
  induction 1 as [|p ps Hp _ IH]; [reflexivity|].
  assert (E : has_date d p.2 = date_eqb d p.1)
    by (unfold has_date; rewrite Hp; reflexivity).
  cbn [map]. rewrite !filter_cons, IH, E.
  destruct (decide (date_eqb d p.1)); reflexivity.
Qed.

Lemma sort_step_sorted (batch : list (gmap string pyval)) keys :
  mapM_result date_key batch = Ok keys ->
  sort_step batch = map snd (sort_pairs PyDate.leb (combine keys batch))
  /\ StronglySorted not_later (sort_step batch)
  /\ Permutation batch (sort_step batch)
  /\ forall d, filter (has_date d) (sort_step batch) = filter (has_date d) batch.
Proof.
  intros Hk. unfold sort_step, list_sort. rewrite Hk. cbn.
  apply mapM_result_Forall2 in Hk. apply combine_dated in Hk as [Hd Hm].
  set (ps := combine keys batch) in *.
  assert (Hperm : Permutation ps (sort_pairs PyDate.leb ps))
    by apply sort_pairs_Permutation.
  assert (Hd' : Forall dated (sort_pairs PyDate.leb ps)).
  { rewrite Forall_forall in Hd |- *. intros p Hp. apply Hd.
    apply list_elem_of_In. apply list_elem_of_In in Hp.
    eapply Permutation_in; [symmetry; exact Hperm | exact Hp]. }
  split; [reflexivity|]. split; [|split].
  - apply dated_StronglySorted; [exact Hd'|].
    apply Sorted_StronglySorted.
    + intros x y z. apply date_leb_trans.
    + apply sort_pairs_Sorted. apply date_leb_total.
  - rewrite <- Hm at 1. apply Permutation_map, Hperm.
  - intros d. rewrite dated_filter by exact Hd'.
    rewrite (filter_sort_pairs PyDate.leb (date_eqb d)).
    + rewrite <- dated_filter by exact Hd. rewrite Hm. reflexivity.
    + intros a b. apply date_eqb_leb.
Qed.

(** C3. The sort before classification is all or nothing.  When the date of
    every transaction of the batch parses, the batch is put in ascending
    order of date: the result is sorted, it is a rearrangement of the batch,
    and transactions of one date keep their order.  When the date of some
    transaction does not parse, the batch is left exactly as it was read:
    file after file, and row after row within a file. *)
Theorem sort_step_all_or_nothing (files : list csv_file) :
  let batch := all_transactions files in
  (Forall (fun t => is_Ok (date_key t) = true) batch ->
     StronglySorted not_later (sort_step batch)
     /\ Permutation batch (sort_step batch)
     /\ forall d, filter (has_date d) (sort_step batch) = filter (has_date d) batch)
  /\ (Exists (fun t => is_Ok (date_key t) = false) batch ->
      sort_step batch = batch).
Proof.
  intros batch. split.
  - intros Hall. apply mapM_result_Ok in Hall as [keys Hk].
    apply (sort_step_sorted batch keys Hk).
  - intros Hex. apply mapM_result_Raise in Hex as [e He].
    unfold sort_step, list_sort. rewrite He. reflexivity.
Qed.


(** * First-seen order and the nested dictionary *)

Lemma elem_of_first_seen (k : string) (l : list string) :
  k ∈ first_seen l <-> k ∈ l.
Proof.
  induction l as [|a l IH]; simpl; [reflexivity|].
  rewrite !elem_of_cons, list_elem_of_filter, IH.
  destruct (String.eqb_spec a k) as [->|Hne]; simpl.
  - split; intros _; left; reflexivity.
  - tauto.
Qed.

Lemma NoDup_first_seen (l : list string) : NoDup (first_seen l).
Proof.
  induction l as [|a l IH]; simpl; constructor.
  - rewrite list_elem_of_filter. intros [H _].
    rewrite String.eqb_refl in H. exact H.
  - apply NoDup_filter, IH.
Qed.

Lemma first_seen_snoc (k : string) (l : list string) :
  first_seen (l ++ [k])
  = if decide (k ∈ l) then first_seen l else first_seen l ++ [k].
Proof.
  induction l as [|a l IH]; simpl; [reflexivity|].
  rewrite IH. destruct (decide (k ∈ l)) as [Hin|Hin].
  - rewrite decide_True by (right; exact Hin). reflexivity.
  - rewrite filter_app, filter_cons, filter_nil.
    destruct (String.eqb_spec a k) as [->|Hne]; simpl.
    + rewrite decide_True by left. rewrite app_nil_r. reflexivity.
    + rewrite decide_False; [reflexivity|].
      rewrite elem_of_cons. intros [->|H]; [apply Hne; reflexivity | auto].
Qed.

Lemma upsert_map_elem {V} (g : string -> V) (k : string) (d : V) (f : V -> V)
    (ks : list string) :
  NoDup ks -> k ∈ ks ->
  upsert k d f (map (fun k' => (k', g k')) ks)
  = map (fun k' => (k', if String.eqb k k' then f (g k') else g k')) ks.
Proof.
  induction 1 as [|a ks Ha Hks IH]; intros Hin; [inversion Hin|].
  simpl. destruct (String.eqb_spec k a) as [->|Hne].
  - f_equal. apply map_ext_in. intros k' Hk'.
    destruct (String.eqb_spec a k') as [->|]; [|reflexivity].
    exfalso. apply Ha, list_elem_of_In, Hk'.
  - f_equal. apply IH. apply elem_of_cons in Hin as [H|H]; [contradiction|exact H].
Qed.

Lemma upsert_map_fresh {V} (g h : string -> V) (k : string) (d : V) (f : V -> V)
    (ks : list string) :
  k ∉ ks ->
  upsert k d f (map (fun k' => (k', g k')) ks)
  = map (fun k' => (k', g k')) ks ++ [(k, f d)].
Proof.
  induction ks as [|a ks IH]; intros Hin; [reflexivity|].
  simpl. destruct (String.eqb_spec k a) as [->|Hne].
  - exfalso. apply Hin. left.
  - f_equal. apply IH. intros H. apply Hin. right. exact H.
Qed.

Section GroupBy.

Context {X V : Type}.
Variable key : X -> string.
Variable val : list X -> V.
Variable step : X -> V -> V.
Hypothesis val_snoc : forall ys x, val (ys ++ [x]) = step x (val ys).

Lemma filter_key_nil (k : string) (xs : list X) :
  k ∉ map key xs -> filter (fun x => String.eqb k (key x)) xs = [].
Proof.
  induction xs as [|y xs IH]; intros Hk; [reflexivity|].
  rewrite filter_cons. destruct (String.eqb_spec k (key y)) as [E|E]; simpl.
  - exfalso. apply Hk. rewrite E. left.
  - apply IH. intros H. apply Hk. right. exact H.
Qed.

Lemma group_by_snoc (xs : list X) (x : X) :
  group_by key val (xs ++ [x])
  = upsert (key x) (val []) (step x) (group_by key val xs).
Proof.
  unfold group_by. rewrite map_app. cbn [map]. rewrite first_seen_snoc.
  destruct (decide (key x ∈ map key xs)) as [Hin|Hin].
  - rewrite upsert_map_elem;
      [| apply NoDup_first_seen | apply elem_of_first_seen, Hin].
    apply map_ext_in. intros k _. f_equal.
    rewrite filter_app, filter_cons, filter_nil.
    rewrite (String.eqb_sym k (key x)).
    destruct (String.eqb (key x) k); simpl.
    + apply val_snoc.
    + rewrite app_nil_r. reflexivity.
  - rewrite upsert_map_fresh;
      [| exact (fun _ => val []) | rewrite elem_of_first_seen; exact Hin].
    rewrite map_app. cbn [map]. f_equal.
    + apply map_ext_in. intros k Hk. f_equal.
      rewrite filter_app, filter_cons, filter_nil.
      destruct (String.eqb_spec k (key x)) as [E|E]; simpl.
      * exfalso. apply Hin. rewrite <- E.
        apply elem_of_first_seen, list_elem_of_In, Hk.
      * rewrite app_nil_r. reflexivity.
    + f_equal. f_equal.
      rewrite filter_app, filter_cons, filter_nil, String.eqb_refl. simpl.
      rewrite filter_key_nil by exact Hin. rewrite <- val_snoc. reflexivity.
Qed.

End GroupBy.

Lemma group_subcategories_snoc (xs : list classified) (x : classified) :
  group_subcategories (xs ++ [x])
  = upsert (cl_sub x) [] (fun es => es ++ [cl_entry x]) (group_subcategories xs).
Proof.
  unfold group_subcategories.
  apply (group_by_snoc cl_sub (map cl_entry) (fun x es => es ++ [cl_entry x])).
  intros ys y. apply map_app.
Qed.

Lemma group_first_seen_snoc (xs : list classified) (x : classified) :
  group_first_seen (xs ++ [x]) = store_classified (group_first_seen xs) x.
Proof.
  unfold group_first_seen, store_classified, store.
  apply (group_by_snoc cl_main group_subcategories
           (fun x => upsert (cl_sub x) [] (fun es => es ++ [cl_entry x]))).
  apply group_subcategories_snoc.
Qed.

Lemma fold_store_group (xs : list classified) :
  fold_left store_classified xs [] = group_first_seen xs.
Proof.
  induction xs as [|x xs IH] using rev_ind; [reflexivity|].
  rewrite fold_left_app. cbn [fold_left]. rewrite IH.
  symmetry. apply group_first_seen_snoc.
Qed.

(** * The loop of [process_multiple_files] *)

Lemma process_transaction_classify (client : service) (i : nat)
    (t : gmap string pyval) (c : categorized) :
  process_transaction client i t c
  = x ← classify client i t; Ok (store_classified c x).
Proof.
  unfold process_transaction, classify, getitem.
  destruct (t !! "Description") as [d|]; [|reflexivity].
  destruct (t !! "Account") as [a|]; [|reflexivity].
  destruct (t !! "Amount") as [m|]; [|reflexivity].
  destruct (t !! "Transaction Date") as [dt|]; [|reflexivity].
  cbn. destruct (categorize_transaction client i t) as [[mc sc]|e]; reflexivity.
Qed.

Lemma process_loop_classify_all (client : service) (l : list (gmap string pyval)) :
  forall i c,
    process_loop client i l c
    = xs ← classify_all client i l; Ok (fold_left store_classified xs c).
Proof.
  induction l as [|t l IH]; intros i c; [reflexivity|].
  cbn [process_loop classify_all]. rewrite process_transaction_classify.
  destruct (classify client i t) as [x|e]; [|reflexivity].
  cbn. rewrite IH.
  destruct (classify_all client (S i) l) as [xs|e]; reflexivity.
Qed.

Lemma process_multiple_files_grouped (client : service) (files : list csv_file)
    (c : categorized) :
  process_multiple_files client files = Ok c ->
  exists xs, classify_all client 0 (sort_step (all_transactions files)) = Ok xs
             /\ c = group_first_seen xs.
Proof.
  unfold process_multiple_files. rewrite process_loop_classify_all.
  intros H. apply bind_Ok in H as (xs & Hxs & H).
  exists xs. split; [exact Hxs|].
  injection H as <-. apply fold_store_group.
Qed.


(** * The layout of the exported report *)

Lemma mapM_float_of_value (ts : list entry) (xs : list PyFloat.float) :
  mapM_result (fun t => float_of (e_amount t)) ts = Ok xs ->
  xs = map amount_value ts.
Proof.
  intros H. apply mapM_result_Forall2 in H.
  induction H as [|t x ts xs Ht _ IH]; [reflexivity|].
  cbn [map]. unfold amount_value at 1. rewrite Ht, IH. reflexivity.
Qed.

Lemma subcategory_sum_value (ts : list entry) (x : PyFloat.float) :
  subcategory_sum ts = Ok x -> x = subcategory_value ts.
Proof.
  unfold subcategory_sum, subcategory_value. intros H.
  apply bind_Ok in H as (xs & Hxs & H). injection H as <-.
  rewrite (mapM_float_of_value _ _ Hxs). reflexivity.
Qed.

Lemma export_subcategories_layout (m : string) (subs : bucket) :
  forall acc rows total,
    export_subcategories m subs acc = Ok (rows, total) ->
    rows = flat_map (subcategory_section m) subs
    /\ total = fold_left PyFloat.add
                 (map (fun sub => subcategory_value (snd sub)) subs) acc.
Proof.
  induction subs as [|[s ts] subs IH]; intros acc rows total H.
  - injection H as <- <-. split; reflexivity.
  - cbn [export_subcategories] in H.
    apply bind_Ok in H as (x & Hx & H).
    apply bind_Ok in H as ([more t'] & Hmore & H).
    injection H as <- <-.
    apply subcategory_sum_value in Hx. subst x.
    apply IH in Hmore as [-> ->]. split; reflexivity.
Qed.

Lemma export_category_layout (mc : string * bucket) (rows : list csv_row) :
  export_category mc = Ok rows -> rows = category_section mc.
Proof.
  destruct mc as [m subs]. unfold export_category. intros H.
  apply bind_Ok in H as ([rs total] & Hrs & H). injection H as <-.
  apply export_subcategories_layout in Hrs as [-> ->]. reflexivity.
Qed.

Lemma export_categories_layout (c : categorized) (per : list (list csv_row)) :
  mapM_result export_category c = Ok per ->
  concat per = flat_map category_section c.
Proof.
  intros H. apply mapM_result_Forall2 in H.
  induction H as [|mc rows c per Hmc _ IH]; [reflexivity|].
  cbn [concat flat_map]. rewrite IH.
  rewrite (export_category_layout _ _ Hmc). reflexivity.
Qed.

Lemma mapM_subcategory_sum_value (bs : list (list entry)) (xs : list PyFloat.float) :
  mapM_result subcategory_sum bs = Ok xs -> xs = map subcategory_value bs.
Proof.
  intros H. apply mapM_result_Forall2 in H.
  induction H as [|b x bs xs Hb _ IH]; [reflexivity|].
  cbn [map]. rewrite (subcategory_sum_value _ _ Hb), IH. reflexivity.
Qed.

Lemma flat_map_snd_snd (c : categorized) :
  flat_map (fun mc => map snd (snd mc)) c = map snd (flat_map snd c).
Proof.
  induction c as [|mc c IH]; [reflexivity|].
  cbn [flat_map]. rewrite map_app, IH. reflexivity.
Qed.

Lemma overall_total_value (c : categorized) (x : PyFloat.float) :
  overall_total c = Ok x -> x = grand_total_value c.
Proof.
  unfold overall_total, grand_total_value. intros H.
  apply bind_Ok in H as (xs & Hxs & H). injection H as <-.
  apply mapM_subcategory_sum_value in Hxs. subst xs.
  rewrite flat_map_snd_snd, map_map. reflexivity.
Qed.

Lemma export_to_csv_layout (c : categorized) (paths : list string)
    (rows : list csv_row) :
  export_to_csv c paths = Ok rows -> rows = layout c paths.
Proof.
  unfold export_to_csv, layout. intros H.
  apply bind_Ok in H as (per & Hper & H).
  apply bind_Ok in H as (x & Hx & H). injection H as <-.
  rewrite (export_categories_layout _ _ Hper), (overall_total_value _ _ Hx).
  reflexivity.
Qed.


Lemma Qpower_2_nonneg (e : Z) :
  0 <= e -> (Qpower (2 # 1) e == inject_Z (2 ^ e))%Q.
Proof.
  intros He. symmetry. apply (Zpower_Qpower 2 e He).
Qed.

Lemma Qpower_2_neg (e : Z) :
  e < 0 -> (Qpower (2 # 1) e == / inject_Z (2 ^ (- e)))%Q.
Proof.
  intros He. replace e with (- (- e)) at 1 by lia.
  rewrite Qpower_opp. rewrite Qpower_2_nonneg by lia. reflexivity.
Qed.

Lemma round_half_even_near (num den : Z) :
  0 < den ->
  Z.abs (2 * num - 2 * PyFloat.round_half_even num den * den) <= den.
Proof.
  intros Hden. unfold PyFloat.round_half_even.
  pose proof (Z.div_mod num den ltac:(lia)) as Hdm.
  pose proof (Z.mod_pos_bound num den Hden) as Hr.
  set (q := num / den) in *. set (r := num mod den) in *.
  destruct (Z.compare_spec (2 * r) den) as [E|E|E];
    [destruct (Z.even q)| |]; nia.
Qed.

Lemma hundredths_nonneg (m : positive) (e : Z) : 0 <= PyFloat.hundredths m e.
Proof.
  unfold PyFloat.hundredths. destruct (Z.leb_spec 0 e) as [He|He].
  - pose proof (Z.pow_nonneg 2 e ltac:(lia)). nia.
  - unfold PyFloat.round_half_even.
    assert (Hden : 0 < 2 ^ (- e)) by (apply Z.pow_pos_nonneg; lia).
    pose proof (Z.div_pos (100 * Z.pos m) (2 ^ (- e)) ltac:(lia) Hden).
    destruct (2 * ((100 * Z.pos m) mod 2 ^ (- e)) ?= 2 ^ (- e));
      [destruct (Z.even _)| |]; lia.
Qed.

(** [hundredths m e] is an integer nearest to a hundred times [m * 2^e]. *)
Lemma hundredths_near (m : positive) (e : Z) :
  (Qabs (100 * (inject_Z (Z.pos m) * Qpower (2 # 1) e)
         - inject_Z (PyFloat.hundredths m e)) <= 1 # 2)%Q.
Proof.
  unfold PyFloat.hundredths. destruct (Z.leb_spec 0 e) as [He|He].
  - rewrite Qpower_2_nonneg by exact He.
    assert (E : (100 * (inject_Z (Z.pos m) * inject_Z (2 ^ e))
                 - inject_Z (100 * Z.pos m * 2 ^ e) == 0)%Q).
    { rewrite !inject_Z_mult. change (inject_Z 100) with 100%Q. ring. }
    rewrite E. discriminate.
  - rewrite Qpower_2_neg by exact He.
    assert (Hden : 0 < 2 ^ (- e)) by (apply Z.pow_pos_nonneg; lia).
    pose proof (round_half_even_near (100 * Z.pos m) _ Hden) as Hn.
    set (den := 2 ^ (- e)) in *.
    set (c := PyFloat.round_half_even (100 * Z.pos m) den) in *.
    assert (E : (100 * (inject_Z (Z.pos m) * / inject_Z den) - inject_Z c
                 == inject_Z (100 * Z.pos m - c * den) / inject_Z den)%Q).
    { unfold Z.sub. rewrite inject_Z_plus, inject_Z_opp, !inject_Z_mult.
      change (inject_Z 100) with 100%Q.
      field. intros H. apply (Qeq_bool_neq (inject_Z den) 0); [|exact H].
      unfold Qeq_bool, inject_Z; simpl. apply Z.eqb_neq. lia. }
    rewrite E. clear E.
    destruct den as [|d|d]; try lia.
    unfold Qle, Qabs, Qdiv, Qmult, Qinv, inject_Z; simpl.
    rewrite Z.mul_1_r. lia.
Qed.


(** * Sums without rounding *)

Lemma Qsum_app (a b : list Q) : (Qsum (a ++ b) == Qsum a + Qsum b)%Q.
Proof.
  induction a as [|x a IH]; simpl.
  - ring.
  - rewrite IH. ring.
Qed.

Lemma exact_add_sound (x y : PyFloat.float) :
  exact_add x y = true ->
  (PyFloat.to_Q (PyFloat.add x y) == PyFloat.to_Q x + PyFloat.to_Q y)%Q.
Proof.
  unfold exact_add. intros H. apply andb_prop in H as [_ H].
  apply Qeq_bool_iff, H.
Qed.

Lemma exact_from_sound (l : list PyFloat.float) :
  forall acc,
    exact_from acc l = true ->
    (PyFloat.to_Q (fold_left PyFloat.add l acc)
     == PyFloat.to_Q acc + Qsum (map PyFloat.to_Q l))%Q.
Proof.
  induction l as [|x l IH]; intros acc H; simpl.
  - ring.
  - simpl in H. apply andb_prop in H as [Hx Hl].
    rewrite (IH _ Hl), (exact_add_sound _ _ Hx). ring.
Qed.

Lemma exact_sum_sound (l : list PyFloat.float) :
  exact_sum l = true ->
  (PyFloat.to_Q (PyFloat.sum l) == Qsum (map PyFloat.to_Q l))%Q.
Proof.
  intros H. unfold PyFloat.sum. rewrite (exact_from_sound _ _ H). simpl. ring.
Qed.

Lemma Qsum_sums (ls : list (list PyFloat.float)) :
  forallb exact_sum ls = true ->
  (Qsum (map sum_value ls) == Qsum (map PyFloat.to_Q (concat ls)))%Q.
Proof.
  induction ls as [|l ls IH]; intros H; simpl.
  - reflexivity.
  - simpl in H. apply andb_prop in H as [Hl Hls].
    rewrite map_app, Qsum_app, (IH Hls). unfold sum_value at 1.
    rewrite (exact_sum_sound _ Hl). reflexivity.
Qed.

Lemma forallb_concat {A} (p : A -> bool) (ls : list (list A)) :
  forallb (forallb p) ls = true -> forallb p (concat ls) = true.
Proof.
  induction ls as [|l ls IH]; intros H; simpl; [reflexivity|].
  simpl in H. apply andb_prop in H as [Hl Hls].
  rewrite forallb_app, Hl, (IH Hls). reflexivity.
Qed.

(** * The grand total in terms of the amounts *)

Lemma mapM_result_app {A B} (f : A -> result B) (l1 l2 : list A) bs1 bs2 :
  mapM_result f l1 = Ok bs1 -> mapM_result f l2 = Ok bs2 ->
  mapM_result f (l1 ++ l2) = Ok (bs1 ++ bs2).
Proof.
  revert bs1. induction l1 as [|a l1 IH]; intros bs1 H1 H2; simpl in *.
  - injection H1 as <-. exact H2.
  - apply bind_Ok in H1 as (b & Hb & H1).
    apply bind_Ok in H1 as (bs & Hbs & H1). injection H1 as <-.
    rewrite Hb. cbn. rewrite (IH _ Hbs H2). reflexivity.
Qed.

Lemma bucket_sums (b : bucket) (ls : list (list PyFloat.float)) :
  bucket_amounts b = Ok ls ->
  mapM_result subcategory_sum (map snd b) = Ok (map PyFloat.sum ls).
Proof.
  unfold bucket_amounts. revert ls.
  induction b as [|[s ts] b IH]; intros ls H; simpl in *.
  - injection H as <-. reflexivity.
  - apply bind_Ok in H as (l & Hl & H).
    apply bind_Ok in H as (ls' & Hls & H). injection H as <-.
    assert (E : subcategory_sum ts = Ok (PyFloat.sum l))
      by (unfold subcategory_sum; rewrite Hl; reflexivity).
    rewrite E. cbn. rewrite (IH _ Hls). reflexivity.
Qed.

Lemma overall_total_amounts (c : categorized) ass :
  amounts c = Ok ass ->
  overall_total c = Ok (PyFloat.sum (map PyFloat.sum (concat ass))).
Proof.
  unfold overall_total, amounts. intros H.
  assert (E : mapM_result subcategory_sum
                (flat_map (fun mc => map snd (snd mc)) c)
              = Ok (map PyFloat.sum (concat ass))).
  { revert ass H. induction c as [|[m b] c IH]; intros ass H; simpl in *.
    - injection H as <-. reflexivity.
    - apply bind_Ok in H as (ls & Hls & H).
      apply bind_Ok in H as (ass' & Hass & H). injection H as <-.
      simpl. rewrite map_app.
      apply mapM_result_app; [apply bucket_sums, Hls | apply IH, Hass]. }
  rewrite E. reflexivity.
Qed.

Lemma category_totals_sum (ass : list (list (list PyFloat.float))) :
  forallb (fun ls => exact_sum (map PyFloat.sum ls)) ass = true ->
  (Qsum (map (fun ls => PyFloat.to_Q (category_total ls)) ass)
   == Qsum (map sum_value (concat ass)))%Q.
Proof.
  induction ass as [|ls ass IH]; intros H; simpl.
  - reflexivity.
  - simpl in H. apply andb_prop in H as [Hls Hass].
    rewrite map_app, Qsum_app, (IH Hass). unfold category_total.
    rewrite (exact_sum_sound _ Hls), map_map. reflexivity.
Qed.

(** C2, as amended.  The grand total of the report is the floating-point
    sum, taken in the order of the report, of the floating-point sums of the
    subcategories, and a category total is accumulated from the sums of its
    subcategories in the same way.  When none of these additions rounds,
    the grand total is the exact sum of the signed amounts of all the
    transactions, whatever their grouping; each category total is then the
    exact sum of its subcategory totals, and the category totals add up
    to the grand total. *)
Theorem grand_total_exact_without_rounding (c : categorized)
    (ass : list (list (list PyFloat.float))) :
  amounts c = Ok ass ->
  no_rounding ass = true ->
  exists x,
    overall_total c = Ok x
    /\ (PyFloat.to_Q x == Qsum (map PyFloat.to_Q (concat (concat ass))))%Q
    /\ Forall (fun ls =>
                 (PyFloat.to_Q (category_total ls)
                  == Qsum (map (fun l => PyFloat.to_Q (PyFloat.sum l)) ls))%Q) ass
    /\ (PyFloat.to_Q x
        == Qsum (map (fun ls => PyFloat.to_Q (category_total ls)) ass))%Q.
Proof.
  intros Hc Hn. unfold no_rounding in Hn.
  apply andb_prop in Hn as [Hn Hall]. apply andb_prop in Hn as [Hsub Hcat].
  exists (PyFloat.sum (map PyFloat.sum (concat ass))).
  assert (Hx : (PyFloat.to_Q (PyFloat.sum (map PyFloat.sum (concat ass)))
                == Qsum (map sum_value (concat ass)))%Q).
  { rewrite (exact_sum_sound _ Hall), map_map. reflexivity. }
  split; [apply overall_total_amounts, Hc|]. split; [|split].
  - rewrite Hx. apply Qsum_sums, forallb_concat, Hsub.
  - apply Forall_forall. intros ls Hls.
    apply list_elem_of_In in Hls.
    rewrite forallb_forall in Hcat. specialize (Hcat ls Hls).
    unfold category_total. rewrite (exact_sum_sound _ Hcat), map_map.
    reflexivity.
  - rewrite Hx. symmetry. apply category_totals_sum, Hcat.
Qed.


(** * Strings *)

Lemma lstrip_head (s : string) :
  PyStr.lstrip s = EmptyString
  \/ exists c r, PyStr.lstrip s = String c r /\ PyStr.is_space c = false.
Proof.
  induction s as [|c s IH]; simpl; [left; reflexivity|].
  destruct (PyStr.is_space c) eqn:E; [exact IH|].
  right. exists c, s. split; [reflexivity | exact E].
Qed.

Lemma rstrip_idem (s : string) : PyStr.rstrip (PyStr.rstrip s) = PyStr.rstrip s.
Proof.
  induction s as [|c s IH]; simpl; [reflexivity|].
  destruct (PyStr.rstrip s) as [|d r] eqn:E.
  - destruct (PyStr.is_space c) eqn:Ec; simpl; [reflexivity|].
    rewrite Ec. reflexivity.
  - simpl in IH |- *. rewrite IH. reflexivity.
Qed.

Lemma rstrip_head (c : ascii) (r : string) :
  PyStr.is_space c = false ->
  exists r', PyStr.rstrip (String c r) = String c r'.
Proof.
  intros Hc. simpl. destruct (PyStr.rstrip r); rewrite ?Hc; eauto.
Qed.

Lemma lstrip_rstrip_lstrip (s : string) :
  PyStr.lstrip (PyStr.rstrip (PyStr.lstrip s)) = PyStr.rstrip (PyStr.lstrip s).
Proof.
  destruct (lstrip_head s) as [E | (c & r & E & Hc)]; rewrite E.
  - reflexivity.
  - destruct (rstrip_head c r Hc) as [r' E']. rewrite E'. simpl.
    rewrite Hc. reflexivity.
Qed.

Lemma strip_idem (s : string) : PyStr.strip (PyStr.strip s) = PyStr.strip s.
Proof.
  unfold PyStr.strip. rewrite lstrip_rstrip_lstrip. apply rstrip_idem.
Qed.

Lemma has_char_cons (c d : ascii) (s : string) :
  PyStr.has_char c (String d s) = Ascii.eqb c d || PyStr.has_char c s.
Proof. reflexivity. Qed.

Lemma split_first_none (c : ascii) (s : string) :
  PyStr.has_char c s = false -> PyStr.split_first c s = (s, None).
Proof.
  induction s as [|d s IH]; [reflexivity|].
  rewrite has_char_cons. intros H. apply orb_false_elim in H as [Hd Hs].
  simpl. rewrite Hd, (IH Hs). reflexivity.
Qed.

Lemma split_first_some (c : ascii) (a b : string) :
  PyStr.has_char c a = false ->
  PyStr.split_first c (a +:+ String c b) = (a, Some b).
Proof.
  induction a as [|d a IH]; simpl.
  - intros _. rewrite Ascii.eqb_refl. reflexivity.
  - rewrite has_char_cons. intros H. apply orb_false_elim in H as [Hd Ha].
    rewrite Hd, (IH Ha). reflexivity.
Qed.

Lemma has_char_split (c : ascii) (s : string) :
  PyStr.has_char c s = true ->
  exists a b, s = a +:+ String c b /\ PyStr.has_char c a = false.
Proof.
  induction s as [|d s IH]; [discriminate|].
  rewrite has_char_cons. destruct (Ascii.eqb_spec c d) as [->|Hne]; simpl.
  - intros _. exists EmptyString, s. split; reflexivity.
  - intros H. destruct (IH H) as (a & b & -> & Ha).
    exists (String d a), b. split; [reflexivity|].
    rewrite has_char_cons, Ha.
    destruct (Ascii.eqb_spec c d); [contradiction | reflexivity].
Qed.

Lemma parse_categorization_plain (content : string) :
  PyStr.has_char ":" (PyStr.strip content) = false ->
  parse_categorization content = (PyStr.strip content, "general").
Proof.
  intros H. unfold parse_categorization.
  rewrite (split_first_none _ _ H), strip_idem. reflexivity.
Qed.

Lemma parse_categorization_colon (content a b : string) :
  PyStr.strip content = a +:+ String ":" b ->
  PyStr.has_char ":" a = false ->
  parse_categorization content = (PyStr.strip a, PyStr.strip b).
Proof.
  intros E H. unfold parse_categorization.
  rewrite E, (split_first_some _ _ _ H). reflexivity.
Qed.

(** * The signature of the checking format *)

Lemma prefix_empty_l (s : string) : String.prefix EmptyString s = true.
Proof. destruct s; reflexivity. Qed.

Lemma prefix_rstrip (s : string) :
  forall n, ends_nonspace n = true ->
            String.prefix n (PyStr.rstrip s) = String.prefix n s.
Proof.
  induction s as [|c s IH]; intros n Hn; [reflexivity|].
  destruct n as [|d n]; [discriminate|].
  cbn [PyStr.rstrip]. destruct n as [|d' n].
  - simpl in Hn. apply negb_true_iff in Hn.
    destruct (PyStr.rstrip s) eqn:E;
      [|cbn [String.prefix]; destruct (Ascii.ascii_dec d c);
        rewrite ?prefix_empty_l; reflexivity].
    destruct (PyStr.is_space c) eqn:Ec;
      [|cbn [String.prefix]; destruct (Ascii.ascii_dec d c);
        rewrite ?prefix_empty_l; reflexivity].
    simpl. destruct (Ascii.ascii_dec d c) as [->|]; [congruence | reflexivity].
  - assert (Hn' : ends_nonspace (String d' n) = true) by exact Hn.
    specialize (IH _ Hn').
    destruct (PyStr.rstrip s) eqn:E.
    + assert (Hp : String.prefix (String d' n) s = false)
        by (rewrite <- IH; reflexivity).
      cbn [String.prefix]. rewrite Hp.
      destruct (PyStr.is_space c); cbn [String.prefix];
        destruct (Ascii.ascii_dec d c); reflexivity.
    + cbn [String.prefix]. destruct (Ascii.ascii_dec d c); [|reflexivity].
      exact IH.
Qed.

Lemma contains_rstrip (n s : string) :
  ends_nonspace n = true ->
  PyStr.contains n (PyStr.rstrip s) = PyStr.contains n s.
Proof.
  intros Hn. induction s as [|c s IH]; [reflexivity|].
  pose proof (prefix_rstrip (String c s) n Hn) as Hp.
  cbn [PyStr.contains]. rewrite <- Hp, <- IH.
  cbn [PyStr.rstrip]. destruct (PyStr.rstrip s) eqn:E.
  - destruct (PyStr.is_space c); cbn [PyStr.contains].
    + rewrite orb_false_r. destruct n; [discriminate | reflexivity].
    + reflexivity.
  - reflexivity.
Qed.

Lemma contains_lstrip (d : ascii) (n s : string) :
  PyStr.is_space d = false ->
  PyStr.contains (String d n) (PyStr.lstrip s) = PyStr.contains (String d n) s.
Proof.
  intros Hd. induction s as [|c s IH]; [reflexivity|].
  cbn [PyStr.lstrip]. destruct (PyStr.is_space c) eqn:Ec; [|reflexivity].
  rewrite IH. cbn [PyStr.contains String.prefix].
  destruct (Ascii.ascii_dec d c) as [->|]; [congruence | reflexivity].
Qed.

Lemma is_debit_format_strip (h : string) :
  is_debit_format (PyStr.strip h) = is_debit_format h.
Proof.
  unfold is_debit_format, PyStr.strip.
  rewrite contains_rstrip by reflexivity.
  apply contains_lstrip. reflexivity.
Qed.


(** * The classification of one transaction *)

Lemma categorize_transaction_request (client : service) (i : nat)
    (t : gmap string pyval) (d v : pyval) (a : PyFloat.float) :
  t !! "Description" = Some d ->
  t !! "Amount" = Some v ->
  parse_amount v = Ok a ->
  categorize_transaction client i t
  = try_except_Exception (read_response (client i (request_of t d a)))
      (fun _ => Ok ("Unknown", "error")).
Proof.
  intros Hd Hv Ha. unfold categorize_transaction, getitem.
  rewrite Hd, Hv. cbn. rewrite Ha. reflexivity.
Qed.

Lemma service_failed_caught (r : response) :
  service_failed r = true ->
  try_except_Exception (read_response r) (fun _ => Ok ("Unknown", "error"))
  = Ok ("Unknown", "error").
Proof.
  destruct r as [[|[content|] choices]|e]; simpl; try discriminate;
    try reflexivity.
  intros ->. reflexivity.
Qed.

Lemma categorize_transaction_failed (client : service) (i : nat)
    (t : gmap string pyval) (d v : pyval) (a : PyFloat.float) :
  t !! "Description" = Some d ->
  t !! "Amount" = Some v ->
  parse_amount v = Ok a ->
  service_failed (client i (request_of t d a)) = true ->
  categorize_transaction client i t = Ok ("Unknown", "error").
Proof.
  intros Hd Hv Ha Hf.
  rewrite (categorize_transaction_request client i t d v a Hd Hv Ha).
  apply service_failed_caught, Hf.
Qed.

(** * A batch with failed requests *)

Lemma group_by_intro {X V} (key : X -> string) (val : list X -> V) (xs : list X)
    (x : X) :
  x ∈ xs ->
  (key x, val (filter (fun y => String.eqb (key x) (key y)) xs))
  ∈ group_by key val xs.
Proof.
  intros Hx. unfold group_by. apply list_elem_of_fmap.
  exists (key x). split; [reflexivity|].
  apply elem_of_first_seen, list_elem_of_fmap. exists x. split; [reflexivity | exact Hx].
Qed.

Lemma stored_under_group (xs : list classified) (x : classified) :
  x ∈ xs ->
  stored_under (cl_main x) (cl_sub x) (cl_entry x) (group_first_seen xs).
Proof.
  intros Hx. unfold stored_under, group_first_seen, group_subcategories.
  set (of_m := filter (fun y => String.eqb (cl_main x) (cl_main y)) xs).
  assert (Hm : x ∈ of_m).
  { apply list_elem_of_filter. split; [|exact Hx].
    rewrite String.eqb_refl. exact I. }
  eexists _, _. split; [apply (group_by_intro cl_main _ xs x Hx)|].
  fold of_m. split; [apply (group_by_intro cl_sub _ of_m x Hm)|].
  apply list_elem_of_fmap. exists x. split; [reflexivity|].
  apply list_elem_of_filter. split; [|exact Hm].
  rewrite String.eqb_refl. exact I.
Qed.

Lemma classify_all_lookup (client : service) (l : list (gmap string pyval)) :
  forall i xs k t,
    classify_all client i l = Ok xs -> l !! k = Some t ->
    exists x, x ∈ xs /\ classify client (i + k) t = Ok x.
Proof.
  induction l as [|t' l IH]; intros i xs k t H Hk; [discriminate|].
  cbn [classify_all] in H.
  apply bind_Ok in H as (x & Hx & H).
  apply bind_Ok in H as (xs' & Hxs & H). injection H as <-.
  destruct k as [|k]; cbn in Hk.
  - injection Hk as ->. exists x. split; [left|]. rewrite Nat.add_0_r. exact Hx.
  - destruct (IH (S i) xs' k t Hxs Hk) as (y & Hy & Hc).
    exists y. split; [right; exact Hy|].
    rewrite Nat.add_succ_r. exact Hc.
Qed.

(** What one turn makes of a transaction that is ready, when the service
    raises nothing but an [Exception]. *)
Lemma classify_ready (client : service) (i : nat) (t : gmap string pyval) :
  ready t = true ->
  (forall p e, client i p = Failure e -> is_Exception e = true) ->
  exists e r m s,
    entry_of t = Some e /\ response_to client i t = Some r
    /\ categorize_transaction client i t = Ok (m, s)
    /\ classify client i t = Ok (m, s, e)
    /\ (service_failed r = true -> (m, s) = ("Unknown", "error"))
    /\ (forall content more, r = Completion (Some content :: more) ->
          (m, s) = parse_categorization content).
Proof.
  unfold ready, entry_of, response_to, amount_unparseable.
  intros Hr Hc.
  destruct (t !! "Description") as [d|] eqn:Hd; [|discriminate].
  destruct (t !! "Account") as [acct|] eqn:Hacct; [|discriminate].
  destruct (t !! "Transaction Date") as [dt|] eqn:Hdt; [|discriminate].
  destruct (t !! "Amount") as [v|] eqn:Hv; [|discriminate].
  destruct (parse_amount v) as [a|] eqn:Ha; [|discriminate].
  assert (Hcl : forall m s,
             categorize_transaction client i t = Ok (m, s) ->
             classify client i t
             = Ok (m, s, Entry dt d v acct (get t "Category" ""))).
  { intros m s H. unfold classify, getitem. rewrite Hd, Hacct, Hv, Hdt. cbn.
    rewrite H. reflexivity. }
  pose proof (categorize_transaction_request client i t d v a Hd Hv Ha) as Hcat.
  destruct (client i (request_of t d a)) as [[|[content|] more]|e] eqn:E;
    cbn in Hcat.
  - exists (Entry dt d v acct (get t "Category" "")), (Completion []),
      "Unknown", "error".
    split; [reflexivity|]. split; [reflexivity|]. split; [exact Hcat|].
    split; [apply Hcl, Hcat|]. split; [reflexivity|].
    intros content more H. discriminate H.
  - destruct (parse_categorization content) as [m s] eqn:Ep.
    exists (Entry dt d v acct (get t "Category" "")),
      (Completion (Some content :: more)), m, s.
    split; [reflexivity|]. split; [reflexivity|]. split; [exact Hcat|].
    split; [apply Hcl, Hcat|]. split; [intros H; discriminate H|].
    intros c' m' H. injection H as -> ->. symmetry. exact Ep.
  - exists (Entry dt d v acct (get t "Category" "")),
      (Completion (None :: more)), "Unknown", "error".
    split; [reflexivity|]. split; [reflexivity|]. split; [exact Hcat|].
    split; [apply Hcl, Hcat|]. split; [reflexivity|].
    intros content m' H. discriminate H.
  - rewrite (Hc _ _ E) in Hcat.
    exists (Entry dt d v acct (get t "Category" "")), (Failure e),
      "Unknown", "error".
    split; [reflexivity|]. split; [reflexivity|]. split; [exact Hcat|].
    split; [apply Hcl, Hcat|]. split; [reflexivity|].
    intros content m' H. discriminate H.
Qed.

Lemma classify_all_ready (client : service) (l : list (gmap string pyval)) :
  Forall (fun t => ready t = true) l ->
  (forall i p e, client i p = Failure e -> is_Exception e = true) ->
  forall i, exists xs, classify_all client i l = Ok xs.
Proof.
  intros Hl Hc. induction Hl as [|t l Ht _ IH]; intros i; [exists []; reflexivity|].
  destruct (classify_ready client i t Ht (Hc i)) as (e & r & m & s & _ & _ & _ & Hx & _).
  destruct (IH (S i)) as [xs Hxs].
  exists ((m, s, e) :: xs). cbn [classify_all]. rewrite Hx. cbn. rewrite Hxs.
  reflexivity.
Qed.

(** C5. Failures of the call to the classification service, be they
    exceptions raised by the client (connection, timeout, quota) or
    responses without a choice or without content, do not end the batch.
    When every transaction of the batch has the cells the loop reads and an
    amount that can be read, [process_multiple_files] returns, however many
    calls fail; each transaction whose call failed is classified
    ("Unknown", "error") and stored under that category and subcategory,
    and each one whose call was answered is stored under the category and
    the subcategory of its own answer. *)
Theorem classification_failure_is_isolated (client : service)
    (files : list csv_file) :
  Forall (fun t => ready t = true) (sort_step (all_transactions files)) ->
  (forall i p e, client i p = Failure e -> is_Exception e = true) ->
  exists c,
    process_multiple_files client files = Ok c
    /\ forall i t, sort_step (all_transactions files) !! i = Some t ->
         exists e r,
           entry_of t = Some e /\ response_to client i t = Some r
           /\ (service_failed r = true ->
                 categorize_transaction client i t = Ok ("Unknown", "error")
                 /\ stored_under "Unknown" "error" e c)
           /\ (forall content more, r = Completion (Some content :: more) ->
                 categorize_transaction client i t
                 = Ok (parse_categorization content)
                 /\ stored_under (fst (parse_categorization content))
                      (snd (parse_categorization content)) e c).
Proof.
  intros Hl Hc.
  destruct (classify_all_ready client _ Hl Hc 0%nat) as [xs Hxs].
  exists (group_first_seen xs). split.
  { unfold process_multiple_files. rewrite process_loop_classify_all, Hxs.
    cbn. f_equal. apply fold_store_group. }
  intros i t Hi.
  destruct (classify_all_lookup client _ 0%nat xs i t Hxs Hi) as (x & Hx & Hcl).
  cbn [Nat.add] in Hcl.
  pose proof (proj1 (Forall_forall _ _) Hl t) as Ht.
  assert (Hin : t ∈ sort_step (all_transactions files))
    by (eapply list_elem_of_lookup_2; exact Hi).
  destruct (classify_ready client i t (proj1 (Forall_forall _ _) Hl t Hin) (Hc i))
    as (e & r & m & s & He & Hr & Hcat & Hcl' & Hfail & Hans).
  rewrite Hcl' in Hcl. injection Hcl as <-.
  pose proof (stored_under_group xs _ Hx) as Hst.
  unfold cl_main, cl_sub, cl_entry in Hst. cbn [fst snd] in Hst.
  exists e, r. split; [exact He|]. split; [exact Hr|]. split.
  - intros Hf. specialize (Hfail Hf). injection Hfail as -> ->.
    split; [exact Hcat | exact Hst].
  - intros content more E. specialize (Hans content more E).
    rewrite <- Hans. cbn [fst snd]. split; [exact Hcat | exact Hst].
Qed.

Lemma classification_failure_is_isolated_witness :
  exists c,
    process_multiple_files (Sample.down_at 1 Sample.rules)
      [Sample.checking; Sample.card] = Ok c
    /\ stored_under "Unknown" "error"
         (Entry (VStr "01/05/2024") (VStr "SAMSCLUB #1234") (VStr "-54.12")
            (VStr "Chase1234") (VStr "")) c
    /\ stored_under "Spending" "subscriptions"
         (Entry (VStr "01/07/2024") (VStr "NETFLIX") (VStr "-15.49")
            (VStr "Visa") (VStr "Entertainment")) c.
Proof.
  destruct (classification_failure_is_isolated
              (Sample.down_at 1 Sample.rules) [Sample.checking; Sample.card])
    as (c & Hc & Hall).
  - apply List.Forall_forall, forallb_forall. vm_compute. reflexivity.
  - intros i p e. unfold Sample.down_at, Sample.by_description.
    destruct (Nat.eqb i 1).
    + intros H. injection H as <-. reflexivity.
    + destruct (p_description p); discriminate.
  - exists c. split; [exact Hc|]. split.
    + destruct (Hall 1%nat
                  (debit_transaction "Chase1234"
                     (Sample.debit_row "01/05/2024" "SAMSCLUB #1234" "-54.12"
                        "DEBIT_CARD" "300.00")))
        as (e & r & He & Hr & Hfail & _); [vm_compute; reflexivity|].
      vm_compute in He. injection He as <-.
      vm_compute in Hr. injection Hr as <-.
      apply Hfail. reflexivity.
    + destruct (Hall 3%nat
                  (credit_transaction "Visa"
                     (Sample.credit_row "01/07/2024" "NETFLIX" "-15.49"
                        "Entertainment")))
        as (e & r & He & Hr & _ & Hans); [vm_compute; reflexivity|].
      vm_compute in He. injection He as <-.
      vm_compute in Hr. injection Hr as <-.
      apply (Hans "Spending: subscriptions" []). reflexivity.
Defined.

(** The batch of the two sample files when the service is down for the
    second request: the transaction of that request is stored under
    Unknown/error, between the others, which are classified as the service
    answers. *)
Lemma failed_request_among_others :
  process_multiple_files (Sample.down_at 1 Sample.rules)
    [Sample.checking; Sample.card]
  = Ok [("Spending",
         [("groceries",
           [Entry (VStr "01/02/2024") (VStr "SAMSCLUB #1234") (VStr "-20.00")
              (VStr "Visa") (VStr "Shopping")]);
          ("subscriptions",
           [Entry (VStr "01/07/2024") (VStr "NETFLIX") (VStr "-15.49")
              (VStr "Visa") (VStr "Entertainment")])]);
        ("Unknown",
         [("error",
           [Entry (VStr "01/05/2024") (VStr "SAMSCLUB #1234") (VStr "-54.12")
              (VStr "Chase1234") (VStr "")])]);
        ("Investments",
         [("vanguard",
           [Entry (VStr "01/05/2024") (VStr "VANGUARD") (VStr "-100.00")
              (VStr "Visa") (VStr "")])]);
        ("Incoming",
         [("eastman",
           [Entry (VStr "01/09/2024") (VStr "PAYROLL") (VStr "1200.00")
              (VStr "Chase1234") (VStr "")])])].
Proof. vm_compute. reflexivity. Qed.

(** * Amounts that do not parse *)

Lemma unparseable_raises (client : service) (i : nat) (t : gmap string pyval)
    (c : categorized) :
  amount_unparseable t = true ->
  exists e, process_transaction client i t c = Raise e.
Proof.
  unfold amount_unparseable, process_transaction, getitem. intros H.
  destruct (t !! "Description") as [d|] eqn:Hd; [|cbn; eauto].
  destruct (t !! "Account") as [acct|]; [|cbn; eauto].
  destruct (t !! "Amount") as [v|] eqn:Hv; [|cbn; eauto].
  destruct (t !! "Transaction Date") as [dt|]; [|cbn; eauto].
  cbn. unfold categorize_transaction, getitem. rewrite Hd, Hv. cbn.
  destruct (parse_amount v) as [a|e]; [discriminate|]. cbn. eauto.
Qed.

Lemma process_loop_raises (client : service) (t : gmap string pyval)
    (l : list (gmap string pyval)) :
  t ∈ l -> amount_unparseable t = true ->
  forall i c, exists e, process_loop client i l c = Raise e.
Proof.
  intros Hin Ht. induction l as [|t' l IH]; intros i c; [inversion Hin|].
  cbn [process_loop].
  apply elem_of_cons in Hin as [<-|Hin].
  - destruct (unparseable_raises client i t c Ht) as [e He].
    rewrite He. cbn. eauto.
  - destruct (process_transaction client i t' c) as [c'|e]; cbn; [|eauto].
    apply IH, Hin.
Qed.

Lemma sort_step_Permutation (l : list (gmap string pyval)) :
  Permutation l (sort_step l).
Proof.
  destruct (mapM_result date_key l) as [keys|e] eqn:E.
  - apply (sort_step_sorted l keys E).
  - unfold sort_step, list_sort. rewrite E. reflexivity.
Qed.

Lemma read_transactions_length (f : csv_file) :
  length (read_transactions f) = length (reader_rows f).
Proof. unfold read_transactions. apply length_map. Qed.

(** C1, as amended.  [read_transactions] does not parse amounts: every row
    of a file gives one transaction, so a row whose amount cannot be parsed,
    even without [$] and [,], stays in the sequence of transactions.  When
    the batch holds such a transaction, [process_multiple_files] ends with
    an exception and gives no categorized result. *)
Theorem unparseable_amount_aborts_batch (client : service)
    (files : list csv_file) (t : gmap string pyval) :
  t ∈ all_transactions files ->
  amount_unparseable t = true ->
  Forall (fun f => length (read_transactions f) = length (reader_rows f)) files
  /\ exists e, process_multiple_files client files = Raise e.
Proof.
  intros Hin Ht. split.
  - apply Forall_forall. intros f _. apply read_transactions_length.
  - unfold process_multiple_files.
    apply (process_loop_raises client t); [|exact Ht].
    rewrite <- (sort_step_Permutation (all_transactions files)). exact Hin.
Qed.

Lemma unparseable_amount_aborts_batch_witness :
  exists e, process_multiple_files (Sample.by_description Sample.rules)
              [Sample.card_bad_amount] = Raise e.
Proof.
  refine (proj2 (unparseable_amount_aborts_batch
                   (Sample.by_description Sample.rules) [Sample.card_bad_amount]
                   (credit_transaction "Visa"
                      (Sample.credit_row "01/05/2024" "VANGUARD" "N/A" ""))
                   _ _)).
  - right. left.
  - vm_compute. reflexivity.
Defined.

(** C1 as stated fails: the row with amount "N/A" is not left out of the
    transactions, and the batch it belongs to is aborted. *)
Lemma unparseable_row_is_kept_and_aborts :
  let t := credit_transaction "Visa"
             (Sample.credit_row "01/05/2024" "VANGUARD" "N/A" "") in
  t ∈ read_transactions Sample.card_bad_amount
  /\ t !! "Amount" = Some (VStr "N/A")
  /\ parse_amount (VStr "N/A") = Raise ValueError
  /\ process_multiple_files (Sample.by_description Sample.rules)
       [Sample.card_bad_amount] = Raise ValueError.
Proof.
  intros t. split; [right; left|].
  split; [vm_compute; reflexivity|].
  split; vm_compute; reflexivity.
Qed.


(** * Two decimals *)

Lemma format_2f_abs (x : PyFloat.float) :
  PyFloat.is_finite x = true ->
  exists n, 0 <= n
            /\ PyFloat.format_2f (PyFloat.abs x) = PyFloat.fixed2 n
            /\ (Qabs (100 * Qabs (PyFloat.to_Q x) - inject_Z n) <= 1 # 2)%Q.
Proof.
  destruct x as [s|s| |s m e]; try discriminate; intros _.
  - exists 0. split; [lia|]. split; [reflexivity | discriminate].
  - exists (PyFloat.hundredths m e).
    split; [apply hundredths_nonneg|]. split; [reflexivity|].
    assert (E : (Qabs (PyFloat.to_Q (S754_finite s m e))
                 == inject_Z (Z.pos m) * Qpower (2 # 1) e)%Q).
    { unfold PyFloat.to_Q. rewrite Qabs_Qmult.
      rewrite (Qabs_pos (Qpower (2 # 1) e)) by (apply Qpower_0_le; discriminate).
      destruct s; reflexivity. }
    rewrite E. apply hundredths_near.
Qed.

(** * Where the rows of the report are *)

Lemma Forall2_elem_of_l {A B} (P : A -> B -> Prop) (l : list A) (k : list B) x :
  Forall2 P l k -> x ∈ l -> exists y, y ∈ k /\ P x y.
Proof.
  induction 1 as [|a b l k Hab _ IH]; intros Hx; [inversion Hx|].
  apply elem_of_cons in Hx as [->|Hx].
  - exists b. split; [left | exact Hab].
  - destruct (IH Hx) as (y & Hy & HP). exists y. split; [right|]; assumption.
Qed.

Lemma layout_transaction_row (c : categorized) (paths : list string)
    m subs s ts t :
  (m, subs) ∈ c -> (s, ts) ∈ subs -> t ∈ ts ->
  transaction_row m s t ∈ layout c paths.
Proof.
  intros Hm Hs Ht. unfold layout. do 2 apply list_elem_of_further.
  apply elem_of_app. left. apply list_elem_of_In, in_flat_map.
  exists (m, subs). split; [apply list_elem_of_In, Hm|].
  apply list_elem_of_In. unfold category_section. apply elem_of_app. left.
  apply list_elem_of_In, in_flat_map.
  exists (s, ts). split; [apply list_elem_of_In, Hs|].
  apply list_elem_of_In. unfold subcategory_section.
  apply list_elem_of_further, elem_of_app. left.
  apply list_elem_of_fmap. exists t. split; [reflexivity | exact Ht].
Qed.

Lemma layout_subcategory_row (c : categorized) (paths : list string)
    m subs s ts :
  (m, subs) ∈ c -> (s, ts) ∈ subs ->
  subcategory_row m s (subcategory_value ts) ∈ layout c paths.
Proof.
  intros Hm Hs. unfold layout. do 2 apply list_elem_of_further.
  apply elem_of_app. left. apply list_elem_of_In, in_flat_map.
  exists (m, subs). split; [apply list_elem_of_In, Hm|].
  apply list_elem_of_In. unfold category_section. apply elem_of_app. left.
  apply list_elem_of_In, in_flat_map.
  exists (s, ts). split; [apply list_elem_of_In, Hs|].
  left. reflexivity.
Qed.

Lemma layout_category_total_row (c : categorized) (paths : list string) m subs :
  (m, subs) ∈ c ->
  category_total_row m
    (PyFloat.sum (map (fun sub => subcategory_value (snd sub)) subs))
  ∈ layout c paths.
Proof.
  intros Hm. unfold layout. do 2 apply list_elem_of_further.
  apply elem_of_app. left. apply list_elem_of_In, in_flat_map.
  exists (m, subs). split; [apply list_elem_of_In, Hm|].
  apply list_elem_of_In. unfold category_section. apply elem_of_app. right.
  left.
Qed.

Lemma layout_last (c : categorized) (paths : list string) :
  last (layout c paths) = Some (overall_row (grand_total_value c)).
Proof.
  unfold layout. rewrite !app_comm_cons. apply last_snoc.
Qed.

(** * Characters that survive stripping and parsing *)

Lemma has_char_lstrip (c : ascii) (s : string) :
  PyStr.is_space c = false ->
  PyStr.has_char c (PyStr.lstrip s) = PyStr.has_char c s.
Proof.
  intros Hc. induction s as [|d s IH]; [reflexivity|].
  cbn [PyStr.lstrip]. destruct (PyStr.is_space d) eqn:Ed; [|reflexivity].
  rewrite IH, has_char_cons.
  destruct (Ascii.eqb_spec c d) as [->|]; [congruence | reflexivity].
Qed.

Lemma has_char_rstrip (c : ascii) (s : string) :
  PyStr.is_space c = false ->
  PyStr.has_char c (PyStr.rstrip s) = PyStr.has_char c s.
Proof.
  intros Hc. induction s as [|d s IH]; [reflexivity|].
  cbn [PyStr.rstrip]. rewrite has_char_cons, <- IH.
  destruct (PyStr.rstrip s) as [|d' r'].
  - destruct (PyStr.is_space d) eqn:Ed; [|reflexivity].
    destruct (Ascii.eqb_spec c d) as [->|]; [congruence | reflexivity].
  - apply has_char_cons.
Qed.

Lemma has_char_strip (c : ascii) (s : string) :
  PyStr.is_space c = false ->
  PyStr.has_char c (PyStr.strip s) = PyStr.has_char c s.
Proof.
  intros Hc. unfold PyStr.strip.
  rewrite has_char_rstrip, has_char_lstrip by exact Hc. reflexivity.
Qed.

Lemma has_char_lstrip_blank (c : ascii) (s : string) :
  PyFloat.is_blank c = false ->
  PyStr.has_char c (PyFloat.lstrip_blank s) = PyStr.has_char c s.
Proof.
  intros Hc. induction s as [|d s IH]; [reflexivity|].
  cbn [PyFloat.lstrip_blank]. destruct (PyFloat.is_blank d) eqn:Ed; [|reflexivity].
  rewrite IH, has_char_cons.
  destruct (Ascii.eqb_spec c d) as [->|]; [congruence | reflexivity].
Qed.

Lemma has_char_rstrip_blank (c : ascii) (s : string) :
  PyFloat.is_blank c = false ->
  PyStr.has_char c (PyFloat.rstrip_blank s) = PyStr.has_char c s.
Proof.
  intros Hc. induction s as [|d s IH]; [reflexivity|].
  cbn [PyFloat.rstrip_blank]. rewrite has_char_cons, <- IH.
  destruct (PyFloat.rstrip_blank s) as [|d' r'].
  - destruct (PyFloat.is_blank d) eqn:Ed; [|reflexivity].
    destruct (Ascii.eqb_spec c d) as [->|]; [congruence | reflexivity].
  - apply has_char_cons.
Qed.

Lemma has_char_strip_blank (c : ascii) (s : string) :
  PyFloat.is_blank c = false ->
  PyStr.has_char c (PyFloat.strip_blank s) = PyStr.has_char c s.
Proof.
  intros Hc. unfold PyFloat.strip_blank.
  rewrite has_char_rstrip_blank, has_char_lstrip_blank by exact Hc. reflexivity.
Qed.

Lemma remove_char_absent (c : ascii) (s : string) :
  PyStr.has_char c s = false -> PyStr.remove_char c s = s.
Proof.
  induction s as [|d s IH]; [reflexivity|].
  rewrite has_char_cons. intros H. apply orb_false_elim in H as [Hd Hs].
  simpl. rewrite Hd, (IH Hs). reflexivity.
Qed.

Lemma has_char_drop_underscores (c : ascii) (s : string) :
  Ascii.eqb c "_" = false ->
  forall prev s1, PyFloat.drop_underscores prev s = Some s1 ->
                  PyStr.has_char c s1 = PyStr.has_char c s.
Proof.
  intros Hc. induction s as [|d s IH]; intros prev s1 H; cbn in H.
  - destruct (Ascii.eqb prev "_"); [discriminate|]. injection H as <-.
    reflexivity.
  - rewrite has_char_cons. destruct (Ascii.eqb_spec d "_") as [->|Hd].
    + rewrite Hc. destruct (PyStr.is_digit prev); [|discriminate].
      apply (IH _ _ H).
    + destruct (Ascii.eqb prev "_" && negb (PyStr.is_digit d)); [discriminate|].
      destruct (PyFloat.drop_underscores d s) as [s2|] eqn:E; [|discriminate].
      injection H as <-. rewrite has_char_cons, (IH _ _ E). reflexivity.
Qed.

Lemma has_char_take_sign (c : ascii) (s : string) :
  Ascii.eqb c "-" = false -> Ascii.eqb c "+" = false ->
  PyStr.has_char c (snd (PyFloat.take_sign s)) = PyStr.has_char c s.
Proof.
  intros Hm Hp. destruct s as [|d s]; [reflexivity|].
  destruct d as [[] [] [] [] [] [] [] []]; try reflexivity;
    cbn [PyFloat.take_sign snd]; rewrite has_char_cons, ?Hm, ?Hp; reflexivity.
Qed.

Lemma has_char_take_digits (c : ascii) (s : string) :
  PyStr.is_digit c = false ->
  forall acc n, PyStr.has_char c (snd (PyFloat.take_digits acc n s))
                = PyStr.has_char c s.
Proof.
  intros Hc. induction s as [|d s IH]; intros acc n; [reflexivity|].
  cbn [PyFloat.take_digits]. destruct (PyStr.is_digit d) eqn:Ed; [|reflexivity].
  rewrite IH, has_char_cons.
  destruct (Ascii.eqb_spec c d) as [->|]; [congruence | reflexivity].
Qed.

Lemma has_char_lower_str (c : ascii) (s : string) :
  PyStr.has_char c s = true ->
  PyStr.has_char (PyStr.lower c) (PyStr.lower_str s) = true.
Proof.
  induction s as [|d s IH]; [discriminate|].
  cbn [PyStr.lower_str]. rewrite !has_char_cons.
  destruct (Ascii.eqb_spec c d) as [->|_]; simpl.
  - intros _. rewrite Ascii.eqb_refl. reflexivity.
  - intros H. rewrite (IH H). apply orb_true_r.
Qed.

Lemma has_char_take_exponent (c : ascii) (s : string) :
  foreign c = true ->
  PyStr.has_char c (snd (PyFloat.take_exponent s)) = PyStr.has_char c s.
Proof.
  intros Hc. unfold foreign in Hc.
  repeat (apply andb_prop in Hc as [Hc ?]).
  repeat match goal with H : negb _ = true |- _ => apply negb_true_iff in H end.
  destruct s as [|d s]; [reflexivity|].
  unfold PyFloat.take_exponent.
  destruct (Ascii.eqb_spec (PyStr.lower d) "e") as [Hd|Hd]; [|reflexivity].
  destruct (PyFloat.take_sign s) as [neg r1] eqn:E1.
  destruct (PyFloat.take_digits 0 0 r1) as [[v n] r2] eqn:E2.
  destruct (n =? 0); [reflexivity|]. cbn [snd].
  change r2 with (snd (v, n, r2)). rewrite <- E2.
  rewrite has_char_take_digits by assumption.
  change r1 with (snd (neg, r1)). rewrite <- E1.
  rewrite has_char_take_sign by assumption.
  rewrite has_char_cons.
  destruct (Ascii.eqb_spec c d) as [->|]; [|reflexivity].
  exfalso. rewrite Hd in *. discriminate.
Qed.

Lemma parse_literal_foreign (c : ascii) (s : string) (l : PyFloat.literal) :
  foreign c = true -> PyFloat.parse_literal s = Some l ->
  PyStr.has_char c s = false.
Proof.
  intros Hf H. pose proof Hf as Hc. unfold foreign in Hc.
  repeat (apply andb_prop in Hc as [Hc ?]).
  repeat match goal with H : negb _ = true |- _ => apply negb_true_iff in H end.
  rewrite <- (has_char_take_sign c s) by assumption.
  unfold PyFloat.parse_literal in H.
  destruct (PyFloat.take_sign s) as [neg r]. cbn [snd].
  assert (Hword : forall w, String.eqb (PyStr.lower_str r) w = true ->
                            PyStr.has_char (PyStr.lower c) w = false ->
                            PyStr.has_char c r = false).
  { intros w Hw Hcw. apply String.eqb_eq in Hw.
    destruct (PyStr.has_char c r) eqn:E; [|reflexivity].
    apply has_char_lower_str in E. rewrite Hw in E. congruence. }
  assert (Hlow : forall x, PyStr.has_char (PyStr.lower c) x = true ->
                           PyStr.has_char (PyStr.lower c) "infinityae" = true
                           -> False) by (intros; congruence).
  destruct (String.eqb (PyStr.lower_str r) "inf") eqn:E1.
  { apply (Hword _ E1). destruct (PyStr.lower c) as [[] [] [] [] [] [] [] []];
      try reflexivity; discriminate. }
  destruct (String.eqb (PyStr.lower_str r) "infinity") eqn:E2.
  { apply (Hword _ E2). destruct (PyStr.lower c) as [[] [] [] [] [] [] [] []];
      try reflexivity; discriminate. }
  cbn [orb] in H.
  destruct (String.eqb (PyStr.lower_str r) "nan") eqn:E3.
  { apply (Hword _ E3). destruct (PyStr.lower c) as [[] [] [] [] [] [] [] []];
      try reflexivity; discriminate. }
  destruct (PyFloat.take_digits 0 0 r) as [[ip n1] r1] eqn:D1.
  rewrite <- (has_char_take_digits c r) with (acc := 0) (n := 0) by assumption.
  rewrite D1. cbn [snd].
  assert (Hfrac : forall m n2 r2,
            match r1 with
            | String "." r' => PyFloat.take_digits ip 0 r'
            | _ => (ip, 0, r1)
            end = (m, n2, r2) ->
            PyStr.has_char c r2 = PyStr.has_char c r1).
  { intros m n2 r2 E. destruct r1 as [|d r1'].
    - injection E as _ _ <-. reflexivity.
    - destruct (Ascii.eqb_spec d ".") as [->|Hd].
      + change r2 with (snd (m, n2, r2)). rewrite <- E.
        rewrite has_char_take_digits, has_char_cons by assumption.
        replace (Ascii.eqb c ".") with false by (symmetry; assumption).
        reflexivity.
      + assert (E' : (ip, 0, String d r1') = (m, n2, r2)).
        { destruct d as [[] [] [] [] [] [] [] []]; try exact E; congruence. }
        injection E' as _ _ <-. reflexivity. }
  destruct (match r1 with
            | String "." r' => PyFloat.take_digits ip 0 r'
            | _ => (ip, 0, r1)
            end) as [[m n2] r2] eqn:D2.
  rewrite <- (Hfrac _ _ _ eq_refl).
  destruct (n1 + n2 =? 0); [discriminate|].
  rewrite <- (has_char_take_exponent c r2 Hf).
  destruct (PyFloat.take_exponent r2) as [e r3]. cbn [snd].
  destruct r3; [reflexivity | discriminate].
Qed.

Lemma of_string_foreign (c : ascii) (s : string) (x : PyFloat.float) :
  foreign c = true -> PyFloat.of_string s = Ok x -> PyStr.has_char c s = false.
Proof.
  intros Hf H. pose proof Hf as Hc. unfold foreign in Hc.
  repeat (apply andb_prop in Hc as [Hc ?]).
  repeat match goal with H : negb _ = true |- _ => apply negb_true_iff in H end.
  unfold PyFloat.of_string, PyFloat.literal_of_string in H.
  destruct (PyFloat.drop_underscores "000" (PyFloat.strip_blank s)) as [s1|] eqn:E;
    [|discriminate].
  cbn in H. destruct (PyFloat.parse_literal s1) as [l|] eqn:El; [|discriminate].
  rewrite <- (has_char_strip_blank c s) by assumption.
  rewrite <- (has_char_drop_underscores c _ ltac:(assumption) _ _ E).
  apply (parse_literal_foreign c s1 l Hf El).
Qed.

Lemma of_string_raises (s : string) (e : exn) :
  PyFloat.of_string s = Raise e -> e = ValueError.
Proof.
  unfold PyFloat.of_string. destruct (PyFloat.literal_of_string s);
    [discriminate|]. intros H. injection H as <-. reflexivity.
Qed.

Lemma export_to_csv_total (c : categorized) (paths : list string) rows :
  export_to_csv c paths = Ok rows -> overall_total c = Ok (grand_total_value c).
Proof.
  unfold export_to_csv. intros H.
  apply bind_Ok in H as (per & _ & H).
  apply bind_Ok in H as (x & Hx & _).
  rewrite Hx. f_equal. apply overall_total_value, Hx.
Qed.

(** * The signed format in the report *)

Lemma signed_format_dollar (s : string) :
  signed_format (VStr s) = true -> PyStr.has_char "$" s = true.
Proof.
  cbn [signed_format]. intros H.
  assert (Hs : exists a r, s = String a (String "$" r)).
  { apply orb_prop in H as [H|H]; apply String.prefix_correct in H;
      destruct s as [|a [|b r]]; try discriminate H;
      cbn in H; injection H as -> -> _; eauto. }
  destruct Hs as (a & r & ->). rewrite !has_char_cons.
  change (Ascii.eqb "$" "$") with true. apply orb_true_r.
Qed.

Lemma signed_format_readable (v : pyval) (x : PyFloat.float) :
  float_of v = Ok x -> signed_format v = false.
Proof.
  destruct v as [|s|f]; [reflexivity | | reflexivity].
  cbn [float_of]. intros H.
  destruct (signed_format (VStr s)) eqn:E; [|reflexivity].
  apply signed_format_dollar in E.
  rewrite (of_string_foreign "$" s x eq_refl H) in E. discriminate.
Qed.

Lemma signed_format_signed (x : PyFloat.float) :
  signed_format (VStr (signed_dollars x)) = true.
Proof.
  unfold signed_dollars, signed_format.
  generalize (PyFloat.format_2f (PyFloat.abs x)). intros r.
  destruct (PyFloat.gt0 x).
  - change ("+$" +:+ r) with (String "+" (String "$" r)).
    cbn [String.prefix].
    destruct (Ascii.ascii_dec "+" "+"); [|contradiction].
    destruct (Ascii.ascii_dec "$" "$"); [|contradiction].
    rewrite prefix_empty_l. reflexivity.
  - change ("-$" +:+ r) with (String "-" (String "$" r)).
    cbn [String.prefix].
    destruct (Ascii.ascii_dec "+" "-"); [discriminate|].
    destruct (Ascii.ascii_dec "-" "-"); [|contradiction].
    destruct (Ascii.ascii_dec "$" "$"); [|contradiction].
    rewrite prefix_empty_l. reflexivity.
Qed.

Lemma signed_format_dollars (x : PyFloat.float) :
  signed_format (VStr (dollars x)) = false.
Proof. reflexivity. Qed.

Lemma subcategory_sum_readable (ts : list entry) (x : PyFloat.float) (t : entry) :
  subcategory_sum ts = Ok x -> t ∈ ts -> exists y, float_of (e_amount t) = Ok y.
Proof.
  unfold subcategory_sum. intros H Ht.
  apply bind_Ok in H as (xs & Hxs & _).
  apply mapM_result_Forall2 in Hxs.
  destruct (Forall2_elem_of_l _ _ _ _ Hxs Ht) as (y & _ & Hy). eauto.
Qed.

Lemma overall_total_subcategory (c : categorized) (x : PyFloat.float)
    m subs s ts :
  overall_total c = Ok x -> (m, subs) ∈ c -> (s, ts) ∈ subs ->
  subcategory_sum ts = Ok (subcategory_value ts).
Proof.
  unfold overall_total. intros H Hm Hs.
  apply bind_Ok in H as (xs & Hxs & _).
  apply mapM_result_Forall2 in Hxs.
  assert (Hin : ts ∈ flat_map (fun mc => map snd (snd mc)) c).
  { apply list_elem_of_In, in_flat_map. exists (m, subs).
    split; [apply list_elem_of_In, Hm|].
    apply list_elem_of_In, list_elem_of_fmap. exists (s, ts).
    split; [reflexivity | exact Hs]. }
  destruct (Forall2_elem_of_l _ _ _ _ Hxs Hin) as (y & _ & Hy).
  rewrite Hy. f_equal. apply subcategory_sum_value, Hy.
Qed.

Lemma mapM_result_map {A B} (f : A -> result B) (g : A -> B) (l : list A) :
  Forall (fun a => f a = Ok (g a)) l -> mapM_result f l = Ok (map g l).
Proof.
  induction 1 as [|a l Ha _ IH]; [reflexivity|].
  cbn [mapM_result map]. rewrite Ha. cbn. rewrite IH. reflexivity.
Qed.

Lemma category_subtotals (c : categorized) (x : PyFloat.float) m subs :
  overall_total c = Ok x -> (m, subs) ∈ c ->
  mapM_result (fun sub => subcategory_sum (snd sub)) subs
  = Ok (map (fun sub => subcategory_value (snd sub)) subs).
Proof.
  intros H Hm. apply mapM_result_map, Forall_forall. intros [s ts] Hs.
  apply (overall_total_subcategory c x m subs s ts H Hm Hs).
Qed.

Lemma category_section_unsigned (c : categorized) (x : PyFloat.float)
    (mc : string * bucket) :
  overall_total c = Ok x -> mc ∈ c ->
  Forall (fun row => signed_format (c_amount row) = false) (category_section mc).
Proof.
  intros H Hmc. destruct mc as [m subs]. unfold category_section.
  apply Forall_app. split; [|repeat constructor].
  apply Forall_flat_map, Forall_forall. intros [s ts] Hs.
  unfold subcategory_section. cbn [fst snd].
  constructor; [reflexivity|]. apply Forall_app. split; [|repeat constructor].
  apply Forall_fmap, Forall_forall. intros t Ht. cbn.
  pose proof (overall_total_subcategory c x m subs s ts H Hmc Hs) as Hsum.
  destruct (subcategory_sum_readable ts _ t Hsum Ht) as [y Hy].
  apply (signed_format_readable _ y Hy).
Qed.

(** C8, as amended.  In the exported report the amount of a transaction is
    the amount text of the source row, unchanged.  The total of a
    subcategory is written [$X.XX] for the absolute value of the sum of its
    amounts, and the total of a category [$X.XX] for the absolute value of
    the sum of the totals of its subcategories, without a sign.  The grand
    total, the last row, is alone in having the signed format: [+$X.XX]
    when it is greater than zero, [-$X.XX] otherwise, and no row before it
    has an amount that begins with [+$] or [-$].  For a finite value [X.XX]
    is the integer part, a point and two digits of the hundredths nearest
    to the absolute value. *)
Theorem exported_amounts (c : categorized) (paths : list string)
    (rows : list csv_row) :
  export_to_csv c paths = Ok rows ->
  (forall m subs s ts t, (m, subs) ∈ c -> (s, ts) ∈ subs -> t ∈ ts ->
     transaction_row m s t ∈ rows
     /\ c_amount (transaction_row m s t) = e_amount t)
  /\ (forall m subs s ts, (m, subs) ∈ c -> (s, ts) ∈ subs ->
        exists x, subcategory_sum ts = Ok x
                  /\ subcategory_row m s x ∈ rows
                  /\ c_amount (subcategory_row m s x)
                     = VStr ("$" +:+ PyFloat.format_2f (PyFloat.abs x)))
  /\ (forall m subs, (m, subs) ∈ c ->
        exists xs,
          mapM_result (fun sub => subcategory_sum (snd sub)) subs = Ok xs
          /\ category_total_row m (PyFloat.sum xs) ∈ rows
          /\ c_amount (category_total_row m (PyFloat.sum xs))
             = VStr ("$" +:+ PyFloat.format_2f (PyFloat.abs (PyFloat.sum xs))))
  /\ (exists x before,
        overall_total c = Ok x
        /\ rows = before ++ [overall_row x]
        /\ c_amount (overall_row x)
           = VStr ((if PyFloat.gt0 x then "+$" else "-$")
                   +:+ PyFloat.format_2f (PyFloat.abs x))
        /\ signed_format (c_amount (overall_row x)) = true
        /\ Forall (fun row => signed_format (c_amount row) = false) before)
  /\ (forall x, PyFloat.is_finite x = true ->
        exists n, 0 <= n
                  /\ PyFloat.format_2f (PyFloat.abs x) = PyFloat.fixed2 n
                  /\ (Qabs (100 * Qabs (PyFloat.to_Q x) - inject_Z n) <= 1 # 2)%Q).
Proof.
  intros H. pose proof (export_to_csv_total c paths rows H) as Htotal.
  pose proof (export_to_csv_layout c paths rows H) as ->.
  split; [|split; [|split; [|split]]].
  - intros m subs s ts t Hm Hs Ht. split; [|reflexivity].
    apply (layout_transaction_row c paths m subs s ts t Hm Hs Ht).
  - intros m subs s ts Hm Hs. exists (subcategory_value ts).
    split; [|split; [|reflexivity]].
    + apply (overall_total_subcategory c _ m subs s ts Htotal Hm Hs).
    + apply (layout_subcategory_row c paths m subs s ts Hm Hs).
  - intros m subs Hm.
    exists (map (fun sub => subcategory_value (snd sub)) subs).
    split; [|split; [|reflexivity]].
    + apply (category_subtotals c _ m subs Htotal Hm).
    + apply (layout_category_total_row c paths m subs Hm).
  - exists (grand_total_value c),
      (files_row paths :: blank_row :: flat_map category_section c).
    split; [exact Htotal|]. split; [reflexivity|]. split; [reflexivity|].
    split.
    + apply signed_format_signed.
    + constructor; [reflexivity|]. constructor; [reflexivity|].
      apply Forall_flat_map, Forall_forall. intros mc Hmc.
      apply (category_section_unsigned c _ mc Htotal Hmc).
  - apply format_2f_abs.
Qed.


(** C4, as amended.  The response, stripped, is split at its first colon.
    Without a colon the whole response is the main category and the
    subcategory is "general".  With a colon the main category is the
    stripped text before it and the subcategory is the stripped text after
    it; so the subcategory is empty exactly when nothing but white space
    follows the first colon.  When the call to the service fails the
    subcategory is "error". *)
Theorem subcategory_of_response (content : string) :
  let s := PyStr.strip content in
  (PyStr.has_char ":" s = false ->
     parse_categorization content = (s, "general"))
  /\ (forall a b, s = a +:+ String ":" b -> PyStr.has_char ":" a = false ->
        parse_categorization content = (PyStr.strip a, PyStr.strip b))
  /\ (snd (parse_categorization content) = ""
      <-> exists a b, s = a +:+ String ":" b /\ PyStr.has_char ":" a = false
                      /\ PyStr.strip b = "")
  /\ (forall client i t d v a,
        t !! "Description" = Some d -> t !! "Amount" = Some v ->
        parse_amount v = Ok a ->
        service_failed (client i (request_of t d a)) = true ->
        snd <$> categorize_transaction client i t = Ok "error").
Proof.
  intros s. split; [|split; [|split]].
  - apply parse_categorization_plain.
  - apply parse_categorization_colon.
  - destruct (PyStr.has_char ":" s) eqn:E.
    + destruct (has_char_split _ _ E) as (a & b & Hs & Ha).
      rewrite (parse_categorization_colon content a b Hs Ha). simpl.
      split.
      * intros Hb. exists a, b. auto.
      * intros (a' & b' & Hs' & Ha' & Hb').
        pose proof (split_first_some ":" a b Ha) as H1.
        pose proof (split_first_some ":" a' b' Ha') as H2.
        fold s in Hs. rewrite <- Hs in H1. rewrite <- Hs' in H2.
        rewrite H1 in H2. injection H2 as _ <-. exact Hb'.
    + rewrite (parse_categorization_plain content E). simpl.
      split; [discriminate|].
      intros (a & b & Hs & Ha & _).
      pose proof (split_first_some ":" a b Ha) as H1.
      fold s in E. rewrite <- Hs, (split_first_none _ _ E) in H1. discriminate.
  - intros client i t d v a Hd Hv Ha Hf.
    rewrite (categorize_transaction_failed client i t d v a Hd Hv Ha Hf).
    reflexivity.
Qed.

Lemma subcategory_of_response_witness :
  parse_categorization "Unknown" = ("Unknown", "general")
  /\ parse_categorization " Spending: eating out " = ("Spending", "eating out").
Proof.
  split.
  - apply (proj1 (subcategory_of_response "Unknown")). reflexivity.
  - apply (proj1 (proj2 (subcategory_of_response " Spending: eating out "))
             "Spending" " eating out"); reflexivity.
Defined.

(** C4 as stated fails: a response that ends with its colon gives an empty
    subcategory. *)
Lemma empty_subcategory :
  parse_categorization "Spending:" = ("Spending", "")
  /\ categorize_transaction (fun _ _ => Completion [Some "Spending:"]) 0
       (credit_transaction "Visa"
          (Sample.credit_row "01/07/2024" "NETFLIX" "-15.49" "Entertainment"))
     = Ok ("Spending", "").
Proof. split; vm_compute; reflexivity. Qed.

(** C6, as amended.  A file whose first line contains the text
    [Details,Posting Date,Description,Amount,Type,Balance] has its rows
    mapped by the checking schema: the posting date becomes the transaction
    date and the category is empty.  Any other first line gives the credit
    mapping: the row as it is, with the account added.  Either way every row
    gives a transaction; no file is refused. *)
Theorem schema_detection (f : csv_file) :
  let account := account_name (file_path f) in
  (PyStr.contains "Details,Posting Date,Description,Amount,Type,Balance"
     (header_line f) = true ->
   read_transactions f = map (debit_transaction account) (reader_rows f))
  /\ (PyStr.contains "Details,Posting Date,Description,Amount,Type,Balance"
        (header_line f) = false ->
      read_transactions f = map (credit_transaction account) (reader_rows f))
  /\ (forall row,
        debit_transaction account row !! "Transaction Date"
        = Some (get row "Posting Date" "")
        /\ debit_transaction account row !! "Category" = Some (VStr ""))
  /\ (forall row k, k <> "Account" ->
        credit_transaction account row !! k = row !! k)
  /\ length (read_transactions f) = length (reader_rows f).
Proof.
  intros account.
  change (PyStr.contains _ (header_line f)) with (is_debit_format (header_line f)).
  split; [|split; [|split; [|split]]].
  - intros H. unfold read_transactions. rewrite is_debit_format_strip, H.
    reflexivity.
  - intros H. unfold read_transactions. rewrite is_debit_format_strip, H.
    reflexivity.
  - intros row. unfold debit_transaction. split; by simplify_map_eq.
  - intros row k Hk. unfold credit_transaction. by simplify_map_eq.
  - apply read_transactions_length.
Qed.

Lemma schema_detection_witness :
  read_transactions Sample.checking
  = map (debit_transaction "Chase1234") (reader_rows Sample.checking)
  /\ read_transactions Sample.card
     = map (credit_transaction "Visa") (reader_rows Sample.card).
Proof.
  split.
  - apply (proj1 (schema_detection Sample.checking)). reflexivity.
  - apply (proj1 (proj2 (schema_detection Sample.card))). reflexivity.
Defined.

(** C6 as stated fails: under the header the claim spells, the rows get the
    credit mapping, and the posting date does not become the transaction
    date.  The row keeps the columns of its file, named as the first line
    names them, and gains the account; it has no transaction date and no
    category. *)
Lemma spelled_signature_is_not_detected :
  is_debit_format Sample.spelled_header = false
  /\ reader_rows Sample.checking_spelled
     = [<["Detail" := VStr "DEBIT"]>
        (<[" Posting Date" := VStr "01/05/2024"]>
        (<[" Description" := VStr "SAMSCLUB #1234"]>
        (<[" Amount" := VStr "-54.12"]>
        (<[" Type" := VStr "DEBIT_CARD"]>
        (<[" Balance" := VStr "300.00"]> ∅)))))]
  /\ read_transactions Sample.checking_spelled
     = map (credit_transaction "Chase1234") (reader_rows Sample.checking_spelled)
  /\ Forall (fun t => t !! "Transaction Date" = None
                      /\ t !! " Posting Date" = Some (VStr "01/05/2024")
                      /\ t !! "Category" = None
                      /\ t !! "Account" = Some (VStr "Chase1234"))
       (read_transactions Sample.checking_spelled).
Proof.
  split; [reflexivity|]. split; [vm_compute; reflexivity|].
  split; [reflexivity|].
  repeat constructor; vm_compute; reflexivity.
Qed.

(** C7.  The amount "$1,200.00" is read as 1200.0 by
    [categorize_transaction] and the transaction is classified, but the
    totals of [display_results] and of [export_to_csv] convert the raw text
    with [float] and raise [ValueError]: the run ends without a report. *)
Theorem dollar_amount_breaks_the_totals :
  parse_amount (VStr "$1,200.00") = PyFloat.of_string "1200.00"
  /\ PyFloat.format_2f <$> parse_amount (VStr "$1,200.00") = Ok "1200.00"
  /\ is_Ok (process_multiple_files (Sample.by_description Sample.rules)
              [Sample.card_dollar_amount]) = true
  /\ display_results
       (Sample.categorized_of (Sample.by_description Sample.rules)
          [Sample.card_dollar_amount]) = Raise ValueError
  /\ export_to_csv
       (Sample.categorized_of (Sample.by_description Sample.rules)
          [Sample.card_dollar_amount]) ["accounts/Visa_2024.csv"]
     = Raise ValueError
  /\ run (Sample.by_description Sample.rules) [Sample.card_dollar_amount]
     = Raise ValueError.
Proof. repeat split; vm_compute; reflexivity. Qed.


Lemma exported_amounts_witness :
  exists x,
    overall_total (Sample.categorized_of (Sample.by_description Sample.rules)
                     [Sample.checking; Sample.card]) = Ok x
    /\ c_amount (overall_row x)
       = VStr ((if PyFloat.gt0 x then "+$" else "-$")
               +:+ PyFloat.format_2f (PyFloat.abs x)).
Proof.
  destruct (exported_amounts
              (Sample.categorized_of (Sample.by_description Sample.rules)
                 [Sample.checking; Sample.card])
              ["accounts/Chase1234_Activity.CSV"; "accounts/Visa_2024.csv"]
              (layout (Sample.categorized_of (Sample.by_description Sample.rules)
                         [Sample.checking; Sample.card])
                 ["accounts/Chase1234_Activity.CSV"; "accounts/Visa_2024.csv"]))
    as (_ & _ & _ & (x & before & Hx & _ & Hr & _ & _) & _).
  - vm_compute. reflexivity.
  - exists x. split; assumption.
Defined.

(** C8 as stated fails: the row of a transaction carries the amount as the
    source has it, "-54.12", and not the signed rendering "-$54.12" that
    [format_amount] gives and that the printed summary shows. *)
Lemma exported_transaction_amount_is_raw :
  let c := Sample.categorized_of (Sample.by_description Sample.rules)
             [Sample.checking] in
  let t := Entry (VStr "01/05/2024") (VStr "SAMSCLUB #1234") (VStr "-54.12")
             (VStr "Chase1234") (VStr "") in
  exists rows,
    export_to_csv c ["accounts/Chase1234_Activity.CSV"] = Ok rows
    /\ transaction_row "Spending" "groceries" t ∈ rows
    /\ c_amount (transaction_row "Spending" "groceries" t) = VStr "-54.12"
    /\ format_amount (VStr "-54.12") = VStr "-$54.12"
    /\ Forall (fun r => c_amount r <> VStr "-$54.12") rows.
Proof.
  intros c t. eexists. split; [vm_compute; reflexivity|].
  split; [do 3 right; left|].
  split; [reflexivity|]. split; [vm_compute; reflexivity|].
  repeat constructor; discriminate.
Qed.

(** * First-seen order *)

Lemma group_by_keys {X V} (key : X -> string) (val : list X -> V) (xs : list X) :
  map fst (group_by key val xs) = first_seen (map key xs).
Proof.
  unfold group_by. rewrite map_map. simpl. apply map_id.
Qed.

Lemma group_by_elem {X V} (key : X -> string) (val : list X -> V) (xs : list X)
    (k : string) (v : V) :
  (k, v) ∈ group_by key val xs ->
  v = val (filter (fun x => String.eqb k (key x)) xs).
Proof.
  unfold group_by. intros H.
  apply list_elem_of_fmap in H as (k' & E & _). injection E as -> ->.
  reflexivity.
Qed.

(** C9. The report lists the main categories in the order in which the
    classified transactions first show them and, within a main category,
    the subcategories in the order in which its transactions first show
    them; within a subcategory the transactions are in the order of
    arrival.  The rows of the report follow that order: the sections of the
    categories one after the other and, in each, the sections of its
    subcategories. *)
Theorem report_in_first_seen_order (client : service) (files : list csv_file)
    (c : categorized) (paths : list string) (rows : list csv_row) :
  process_multiple_files client files = Ok c ->
  export_to_csv c paths = Ok rows ->
  exists xs,
    classify_all client 0 (sort_step (all_transactions files)) = Ok xs
    /\ map fst c = first_seen (map cl_main xs)
    /\ (forall m subs, (m, subs) ∈ c ->
          let of_m := filter (fun x => String.eqb m (cl_main x)) xs in
          map fst subs = first_seen (map cl_sub of_m)
          /\ forall s ts, (s, ts) ∈ subs ->
               ts = map cl_entry (filter (fun x => String.eqb s (cl_sub x)) of_m))
    /\ rows = files_row paths :: blank_row
              :: flat_map category_section c
              ++ [overall_row (grand_total_value c)].
Proof.
  intros Hp He.
  destruct (process_multiple_files_grouped client files c Hp) as (xs & Hxs & ->).
  exists xs. split; [exact Hxs|]. split; [apply group_by_keys|]. split.
  - intros m subs Hm of_m.
    apply group_by_elem in Hm. fold of_m in Hm. subst subs.
    split; [apply group_by_keys|].
    intros s ts Hs. apply group_by_elem in Hs. exact Hs.
  - apply (export_to_csv_layout _ _ _ He).
Qed.

Lemma report_in_first_seen_order_witness :
  exists xs,
    classify_all (Sample.by_description Sample.rules) 0
      (sort_step (all_transactions [Sample.checking; Sample.card])) = Ok xs
    /\ map fst (Sample.categorized_of (Sample.by_description Sample.rules)
                  [Sample.checking; Sample.card])
       = first_seen (map cl_main xs).
Proof.
  destruct (report_in_first_seen_order
              (Sample.by_description Sample.rules)
              [Sample.checking; Sample.card]
              (Sample.categorized_of (Sample.by_description Sample.rules)
                 [Sample.checking; Sample.card])
              []
              (layout (Sample.categorized_of (Sample.by_description Sample.rules)
                         [Sample.checking; Sample.card]) []))
    as (xs & Hxs & Hk & _).
  - vm_compute. reflexivity.
  - vm_compute. reflexivity.
  - exists xs. split; assumption.
Defined.

(** * A total of zero *)

Lemma signed_dollars_zero (x : PyFloat.float) :
  PyFloat.is_zero x = true -> signed_dollars x = "-$0.00".
Proof. destruct x as [[|]| | |]; try discriminate; reflexivity. Qed.

(** C10, as amended.  An amount that is exactly zero is formatted
    "-$0.00", by the branch of the negative sign, and so the grand total of a
    batch is rendered "-$0.00" when the total the export computes, in
    floating point, is exactly zero. *)
Theorem zero_total_is_rendered_negative :
  (forall v x, float_of v = Ok x -> PyFloat.is_zero x = true ->
     format_amount v = VStr "-$0.00")
  /\ (forall c paths rows x,
        export_to_csv c paths = Ok rows ->
        overall_total c = Ok x ->
        PyFloat.is_zero x = true ->
        exists r, last rows = Some r
                  /\ c_description r = VStr "=== OVERALL TOTAL ==="
                  /\ c_amount r = VStr "-$0.00").
Proof.
  split.
  - intros v x Hv Hx. unfold format_amount. rewrite Hv.
    rewrite (signed_dollars_zero x Hx). reflexivity.
  - intros c paths rows x He Ht Hx.
    pose proof (overall_total_value c x Ht) as ->.
    pose proof (export_to_csv_layout c paths rows He) as ->.
    exists (overall_row (grand_total_value c)).
    split; [apply layout_last|]. split; [reflexivity|].
    cbn. unfold format_amount. cbn.
    rewrite (signed_dollars_zero _ Hx). reflexivity.
Qed.

Lemma zero_total_is_rendered_negative_witness :
  format_amount (VStr "0") = VStr "-$0.00"
  /\ exists r, last (layout (Sample.categorized_of
                               (Sample.by_description Sample.rules)
                               [Sample.cancels]) [])
               = Some r
               /\ c_amount r = VStr "-$0.00".
Proof.
  split.
  - apply (proj1 zero_total_is_rendered_negative (VStr "0") (S754_zero false));
      reflexivity.
  - destruct (proj2 zero_total_is_rendered_negative
                (Sample.categorized_of (Sample.by_description Sample.rules)
                   [Sample.cancels])
                []
                (layout (Sample.categorized_of
                           (Sample.by_description Sample.rules)
                           [Sample.cancels]) [])
                (S754_zero false))
      as (r & Hr & _ & Ha); try (vm_compute; reflexivity).
    exists r. split; assumption.
Defined.

(** C10 as stated fails: the amounts 0.10, 0.20 and -0.30 sum to zero, yet
    the floating-point total is a small positive number and the grand total
    is rendered "+$0.00". *)
Lemma amounts_summing_to_zero_render_positive :
  let files := [Sample.evens_out] in
  (exists q, decimal_total (all_transactions files) = Some q /\ (q == 0)%Q)
  /\ exists rows r,
       run Sample.dimes_split_late files = Ok rows
       /\ last rows = Some r
       /\ c_description r = VStr "=== OVERALL TOTAL ==="
       /\ c_amount r = VStr "+$0.00".
Proof.
  intros files. split.
  - eexists. split; [vm_compute; reflexivity | reflexivity].
  - do 2 eexists. split; [vm_compute; reflexivity|].
    repeat split; reflexivity.
Qed.

(** * Sample sums *)

Lemma grand_total_exact_without_rounding_witness :
  exists x,
    overall_total (Sample.categorized_of Sample.dimes_split_early
                     [Sample.quarters]) = Ok x
    /\ (PyFloat.to_Q x == 3)%Q.
Proof.
  destruct (grand_total_exact_without_rounding
              (Sample.categorized_of Sample.dimes_split_early [Sample.quarters])
              [[[PyFloat.of_decimal false 15 (-1)];
                [PyFloat.of_decimal false 225 (-2);
                 PyFloat.of_decimal true 75 (-2)]]])
    as (x & Hx & Hq & _).
  - vm_compute. reflexivity.
  - vm_compute. reflexivity.
  - exists x. split; [exact Hx|]. rewrite Hq. reflexivity.
Defined.

(** C2 as stated fails: the same three transactions, 0.1, 0.2 and 0.3,
    grouped in two ways give two different grand totals, and the first is
    not the exact sum of the three amounts. *)
Lemma grand_total_depends_on_grouping :
  let late := Sample.categorized_of Sample.dimes_split_late [Sample.dimes] in
  let early := Sample.categorized_of Sample.dimes_split_early [Sample.dimes] in
  exists x1 x2 a b c,
    overall_total late = Ok x1
    /\ overall_total early = Ok x2
    /\ x1 <> x2
    /\ amounts late = Ok [[[a; b]; [c]]]
    /\ amounts early = Ok [[[a]; [b; c]]]
    /\ ~ (PyFloat.to_Q x1 == PyFloat.to_Q a + PyFloat.to_Q b + PyFloat.to_Q c)%Q.
Proof.
  intros late early. do 5 eexists.
  split; [vm_compute; reflexivity|]. split; [vm_compute; reflexivity|].
  split; [discriminate|]. split; [vm_compute; reflexivity|].
  split; [vm_compute; reflexivity|].
  apply Qeq_bool_neq. vm_compute. reflexivity.
Qed.

(** * Sample sorts *)

Lemma sort_step_all_or_nothing_witness :
  StronglySorted not_later
    (sort_step (all_transactions [Sample.checking; Sample.card]))
  /\ sort_step (all_transactions [Sample.checking; Sample.card_iso_date])
     = all_transactions [Sample.checking; Sample.card_iso_date].
Proof.
  split.
  - apply (proj1 (sort_step_all_or_nothing [Sample.checking; Sample.card])).
    repeat constructor.
  - apply (proj2 (sort_step_all_or_nothing
                    [Sample.checking; Sample.card_iso_date])).
    do 3 right. left. reflexivity.
Defined.

(** * Further properties *)

(** * The amount read from a text *)

Lemma parse_amount_text (s : string) :
  parse_amount (VStr s)
  = PyFloat.of_string (PyStr.remove_char "," (PyStr.remove_char "$" s)).
Proof.
  unfold parse_amount, try_except_ValueError. cbn [float_of].
  destruct (PyFloat.of_string s) as [x|e] eqn:E.
  - rewrite (remove_char_absent "$" s)
      by (apply (of_string_foreign _ _ x); [reflexivity | exact E]).
    rewrite (remove_char_absent "," s)
      by (apply (of_string_foreign _ _ x); [reflexivity | exact E]).
    symmetry. exact E.
  - rewrite (of_string_raises s e E). reflexivity.
Qed.

(** X1. The two attempts of lines 84 to 91 amount to one: the amount read
    from a text is what [float] makes of the text without its [$] and [,]
    characters, and it is an error exactly when that is one. *)
Theorem parse_amount_strips_symbols (s : string) :
  parse_amount (VStr s)
  = PyFloat.of_string (PyStr.remove_char "," (PyStr.remove_char "$" s)).
Proof.
  destruct (PyFloat.of_string s) as [x|e] eqn:E.
  - rewrite parse_amount_text. reflexivity.
  - apply parse_amount_text.
Qed.

(** * The fields of a split text *)

Lemma split_fields (c : ascii) (s : string) :
  Forall (fun f => PyStr.has_char c f = false) (PyStr.split c s).
Proof.
  induction s as [|d s IH]; [repeat constructor|].
  cbn [PyStr.split]. destruct (Ascii.eqb_spec c d) as [->|Hne].
  - constructor; [reflexivity | exact IH].
  - destruct (PyStr.split c s) as [|f fs]; [repeat constructor|].
    + rewrite has_char_cons.
      destruct (Ascii.eqb_spec c d); [contradiction | reflexivity].
    + apply Forall_cons in IH as [Hf Hfs]. constructor; [|exact Hfs].
      rewrite has_char_cons, Hf.
      destruct (Ascii.eqb_spec c d); [contradiction | reflexivity].
Qed.

Lemma split_nonempty (c : ascii) (s : string) : PyStr.split c s <> [].
Proof.
  destruct s as [|d s]; [discriminate|]. cbn [PyStr.split].
  destruct (Ascii.eqb c d); [discriminate|].
  destruct (PyStr.split c s); discriminate.
Qed.

Lemma account_name_no_underscore (path : string) :
  PyStr.has_char "_" (account_name path) = false.
Proof.
  unfold account_name.
  pose proof (split_fields "_" (PyStr.basename path)) as H.
  destruct (PyStr.split "_" (PyStr.basename path)) as [|f fs]; [reflexivity|].
  apply Forall_cons in H as [Hf _]. exact Hf.
Qed.

Lemma read_transactions_account (f : csv_file) (t : gmap string pyval) :
  t ∈ read_transactions f ->
  t !! "Account" = Some (VStr (account_name (file_path f))).
Proof.
  intros Ht. unfold read_transactions in Ht.
  apply list_elem_of_fmap in Ht as (row & -> & _).
  destruct (is_debit_format _).
  - unfold debit_transaction. by simplify_map_eq.
  - unfold credit_transaction. by simplify_map_eq.
Qed.

(** X2. Every transaction read from a file carries the key [Account],
    whatever the format of the file and whatever the row holds, an
    [Account] column of its own included; its value is the name of the
    file up to the first underscore, a text without underscore. *)
Theorem every_transaction_has_its_account (f : csv_file) (t : gmap string pyval) :
  t ∈ read_transactions f ->
  t !! "Account" = Some (VStr (account_name (file_path f)))
  /\ PyStr.has_char "_" (account_name (file_path f)) = false.
Proof.
  intros Ht. split; [|apply account_name_no_underscore].
  apply read_transactions_account, Ht.
Qed.

Lemma every_transaction_has_its_account_witness :
  let t := debit_transaction "Chase1234"
             (Sample.debit_row "01/09/2024" "PAYROLL" "1200.00" "ACH_CREDIT"
                "1500.00") in
  t !! "Account" = Some (VStr "Chase1234").
Proof.
  intros t.
  refine (proj1 (every_transaction_has_its_account Sample.checking t _)).
  left.
Defined.

(** X3. A file in the checking format gives transactions with exactly the
    seven keys of the canonical shape, so the loop finds every key it reads;
    a column the row lacks is filled in, and a row without an [Amount]
    column counts for 0.0. *)
Theorem checking_rows_are_complete (f : csv_file) (row : gmap string pyval) :
  is_debit_format (header_line f) = true ->
  row ∈ reader_rows f ->
  let t := debit_transaction (account_name (file_path f)) row in
  t ∈ read_transactions f
  /\ dom t = list_to_set ["Transaction Date"; "Description"; "Amount";
                          "Category"; "Type"; "Balance"; "Account"]
  /\ (row !! "Description" = None -> t !! "Description" = Some (VStr ""))
  /\ (row !! "Posting Date" = None -> t !! "Transaction Date" = Some (VStr ""))
  /\ (row !! "Amount" = None ->
      (getitem t "Amount" ≫= parse_amount) = Ok PyFloat.zero).
Proof.
  intros Hd Hrow t. split; [|split; [|split; [|split]]].
  - unfold read_transactions. rewrite is_debit_format_strip, Hd.
    apply list_elem_of_fmap. exists row. split; [reflexivity | exact Hrow].
  - unfold t, debit_transaction. rewrite !dom_insert_L, dom_empty_L.
    cbn [list_to_set foldr]. set_solver.
  - intros H. unfold t, debit_transaction, get. rewrite H. by simplify_map_eq.
  - intros H. unfold t, debit_transaction, get. rewrite H. by simplify_map_eq.
  - intros H. unfold getitem, t, debit_transaction, get. rewrite H.
    by simplify_map_eq.
Qed.

Lemma checking_rows_are_complete_witness :
  let row := Sample.debit_row "01/05/2024" "SAMSCLUB #1234" "-54.12"
               "DEBIT_CARD" "300.00" in
  debit_transaction "Chase1234" row ∈ read_transactions Sample.checking.
Proof.
  intros row.
  refine (proj1 (checking_rows_are_complete Sample.checking row _ _)).
  - reflexivity.
  - right. left.
Defined.

(** * Errors raised before the service is asked *)

(** X4. When a transaction has no [Description], no [Amount], or an amount
    that cannot be read, [categorize_transaction] raises, and what it raises
    does not depend on the service: no request is made.  A missing
    [Description] is reported first, as the [KeyError] of that key. *)
Theorem no_request_without_amount (t : gmap string pyval) :
  t !! "Description" = None \/ amount_unparseable t = true ->
  (exists e, forall client i, categorize_transaction client i t = Raise e)
  /\ (t !! "Description" = None ->
      forall client i,
        categorize_transaction client i t = Raise (KeyError "Description")).
Proof.
  intros H. split.
  - unfold categorize_transaction, getitem.
    destruct (t !! "Description") as [d|] eqn:Hd.
    + destruct H as [H|H]; [discriminate|]. unfold amount_unparseable in H.
      destruct (t !! "Amount") as [v|].
      * destruct (parse_amount v) as [a|e] eqn:Ea; [discriminate|].
        exists e. intros client i. cbn. rewrite Ea. reflexivity.
      * exists (KeyError "Amount"). reflexivity.
    + exists (KeyError "Description"). reflexivity.
  - intros Hd client i. unfold categorize_transaction, getitem.
    rewrite Hd. reflexivity.
Qed.

Lemma no_request_without_amount_witness :
  exists e, forall client i,
    categorize_transaction client i
      (credit_transaction "Visa"
         (Sample.credit_row "01/05/2024" "VANGUARD" "N/A" "")) = Raise e.
Proof.
  refine (proj1 (no_request_without_amount _ _)).
  right. vm_compute. reflexivity.
Defined.

(** X5. An exception of the service call that is not an [Exception], such
    as the [KeyboardInterrupt] of a user who stops the run, is not turned
    into the pair ("Unknown", "error"): it leaves [categorize_transaction]
    and ends the loop of [process_multiple_files]. *)
Theorem interrupt_is_not_caught (client : service) (i : nat)
    (t : gmap string pyval) (rest : list (gmap string pyval)) (c : categorized)
    (d v acct dt : pyval) (a : PyFloat.float) (e : exn) :
  t !! "Description" = Some d ->
  t !! "Amount" = Some v ->
  t !! "Account" = Some acct ->
  t !! "Transaction Date" = Some dt ->
  parse_amount v = Ok a ->
  client i (request_of t d a) = Failure e ->
  is_Exception e = false ->
  categorize_transaction client i t = Raise e
  /\ process_loop client i (t :: rest) c = Raise e.
Proof.
  intros Hd Hv Hacct Hdt Ha Hf He.
  assert (Hc : categorize_transaction client i t = Raise e).
  { unfold categorize_transaction, getitem. rewrite Hd, Hv. cbn.
    rewrite Ha. cbn. fold (request_of t d a). rewrite Hf. cbn.
    rewrite He. reflexivity. }
  split; [exact Hc|].
  cbn [process_loop]. unfold process_transaction, getitem.
  rewrite Hd, Hv, Hacct, Hdt. cbn. rewrite Hc. reflexivity.
Qed.

Lemma interrupt_is_not_caught_witness :
  let t := credit_transaction "Visa"
             (Sample.credit_row "01/07/2024" "NETFLIX" "-15.49" "Entertainment") in
  categorize_transaction (fun _ _ => Failure KeyboardInterrupt) 0 t
  = Raise KeyboardInterrupt.
Proof.
  intros t.
  refine (proj1 (interrupt_is_not_caught (fun _ _ => Failure KeyboardInterrupt)
                   0 t [] [] (VStr "NETFLIX") (VStr "-15.49") (VStr "Visa")
                   (VStr "01/07/2024") _ KeyboardInterrupt _ _ _ _ _ _ _));
    vm_compute; reflexivity.
Defined.

(** * The two parts of a response *)

Lemma split_first_fst (c : ascii) (s : string) :
  PyStr.has_char c (fst (PyStr.split_first c s)) = false.
Proof.
  induction s as [|d s IH]; [reflexivity|].
  cbn [PyStr.split_first]. destruct (Ascii.eqb_spec c d) as [->|Hne];
    [reflexivity|].
  destruct (PyStr.split_first c s) as [a b]. cbn [fst] in *.
  rewrite has_char_cons, IH.
  destruct (Ascii.eqb_spec c d); [contradiction | reflexivity].
Qed.

(** X6. Whatever the service answers, the main category read from the
    answer holds no colon, and neither the main category nor the
    subcategory begins or ends with white space: stripping them again
    changes nothing. *)
Theorem categories_are_clean (content : string) :
  let '(main_category, subcategory) := parse_categorization content in
  PyStr.has_char ":" main_category = false
  /\ PyStr.strip main_category = main_category
  /\ PyStr.strip subcategory = subcategory.
Proof.
  unfold parse_categorization.
  pose proof (split_first_fst ":" (PyStr.strip content)) as H.
  destruct (PyStr.split_first ":" (PyStr.strip content)) as [p0 p1].
  cbn [fst] in H. split; [|split].
  - rewrite has_char_strip by reflexivity. exact H.
  - apply strip_idem.
  - destruct p1 as [p|]; [apply strip_idem | reflexivity].
Qed.

(** * Nothing is lost between the files and the buckets *)

Lemma upsert_flat_map {V X} (w : V -> list X) (k : string) (d : V) (f : V -> V)
    (x : X) (l : list (string * V)) :
  w d = [] ->
  (forall v, Permutation (w (f v)) (w v ++ [x])) ->
  Permutation (flat_map (fun kv => w (snd kv)) (upsert k d f l))
              (flat_map (fun kv => w (snd kv)) l ++ [x]).
Proof.
  intros Hd Hf. induction l as [|[k' v] l IH]; cbn [upsert flat_map].
  - rewrite app_nil_r, (Hf d), Hd. reflexivity.
  - destruct (String.eqb k k'); cbn [flat_map snd].
    + rewrite (Hf v), <- !app_assoc.
      apply Permutation_app_head, Permutation_app_comm.
    + rewrite IH, app_assoc. reflexivity.
Qed.

Lemma all_entries_store (c : categorized) (x : classified) :
  Permutation (all_entries (store_classified c x)) (all_entries c ++ [cl_entry x]).
Proof.
  unfold all_entries, store_classified, store.
  apply (upsert_flat_map (fun b : bucket => flat_map snd b)); [reflexivity|].
  intros b.
  apply (upsert_flat_map (fun es : list entry => es)); [reflexivity|].
  reflexivity.
Qed.

Lemma all_entries_fold (xs : list classified) :
  forall c, Permutation (all_entries (fold_left store_classified xs c))
                        (all_entries c ++ map cl_entry xs).
Proof.
  induction xs as [|x xs IH]; intros c; cbn [fold_left map].
  - rewrite app_nil_r. reflexivity.
  - rewrite IH, all_entries_store, <- app_assoc. reflexivity.
Qed.

Lemma classify_cells (client : service) (i : nat) (t : gmap string pyval)
    (x : classified) :
  classify client i t = Ok x ->
  cells_of_entry (cl_entry x) = cells_of_transaction t.
Proof.
  unfold classify, getitem, cells_of_transaction.
  destruct (t !! "Description") as [d|]; [|discriminate].
  destruct (t !! "Account") as [a|]; [|discriminate].
  destruct (t !! "Amount") as [m|]; [|discriminate].
  destruct (t !! "Transaction Date") as [dt|]; [|discriminate].
  cbn. destruct (categorize_transaction client i t) as [[mc sc]|e];
    [|discriminate].
  cbn. intros H. injection H as <-. reflexivity.
Qed.

Lemma classify_all_cells (client : service) (l : list (gmap string pyval)) :
  forall i xs, classify_all client i l = Ok xs ->
               map cells_of_entry (map cl_entry xs) = map cells_of_transaction l.
Proof.
  induction l as [|t l IH]; intros i xs H; cbn in H.
  - injection H as <-. reflexivity.
  - apply bind_Ok in H as (x & Hx & H).
    apply bind_Ok in H as (xs' & Hxs & H). injection H as <-.
    cbn [map]. rewrite (classify_cells _ _ _ _ Hx), (IH _ _ Hxs). reflexivity.
Qed.

(** X7. When [process_multiple_files] succeeds, nothing is lost and
    nothing is added on the way from the files to the buckets: the dates,
    descriptions, amounts and accounts stored in the buckets are, up to
    their order, those of the transactions read from the files, one entry
    per row. *)
Theorem every_row_is_stored_once (client : service) (files : list csv_file)
    (c : categorized) :
  process_multiple_files client files = Ok c ->
  Permutation (map cells_of_entry (all_entries c))
              (map cells_of_transaction (all_transactions files))
  /\ length (all_entries c) = length (flat_map reader_rows files).
Proof.
  intros H.
  assert (Hp : Permutation (map cells_of_entry (all_entries c))
                 (map cells_of_transaction (all_transactions files))).
  { unfold process_multiple_files in H.
    rewrite process_loop_classify_all in H.
    apply bind_Ok in H as (xs & Hxs & H). injection H as <-.
    rewrite all_entries_fold. cbn [all_entries flat_map app].
    rewrite (classify_all_cells _ _ _ _ Hxs).
    apply Permutation_map. symmetry. apply sort_step_Permutation. }
  split; [exact Hp|].
  apply Permutation_length in Hp. rewrite !length_map in Hp. rewrite Hp.
  unfold all_transactions. clear.
  induction files as [|f files IH]; [reflexivity|].
  cbn [flat_map]. rewrite !length_app, IH, read_transactions_length.
  reflexivity.
Qed.

Lemma every_row_is_stored_once_witness :
  length (all_entries (Sample.categorized_of (Sample.by_description Sample.rules)
                         [Sample.checking; Sample.card]))
  = 5%nat.
Proof.
  refine (proj2 (every_row_is_stored_once (Sample.by_description Sample.rules)
                   [Sample.checking; Sample.card] _ _)).
  vm_compute. reflexivity.
Defined.

(** * The shape of the buckets *)

Lemma first_seen_nil (l : list string) : first_seen l = [] -> l = [].
Proof. destruct l; [reflexivity | discriminate]. Qed.

Lemma group_by_nonempty {X V} (key : X -> string) (val : list X -> V)
    (xs : list X) (k : string) (v : V) :
  (k, v) ∈ group_by key val xs ->
  filter (fun x => String.eqb k (key x)) xs <> [].
Proof.
  unfold group_by. intros H.
  apply list_elem_of_fmap in H as (k' & E & Hk). injection E as <- _.
  apply elem_of_first_seen, list_elem_of_fmap in Hk as (x & -> & Hx).
  intros E. assert (Hin : x ∈ filter (fun y => String.eqb (key x) (key y)) xs).
  { apply list_elem_of_filter. split; [|exact Hx].
    rewrite String.eqb_refl. exact I. }
  rewrite E in Hin. inversion Hin.
Qed.

(** X8. The buckets [process_multiple_files] returns have no repeated and
    no empty part: a main category appears once, a subcategory appears once
    within its main category, every main category has a subcategory and
    every subcategory has a transaction. *)
Theorem buckets_are_well_formed (client : service) (files : list csv_file)
    (c : categorized) :
  process_multiple_files client files = Ok c ->
  NoDup (map fst c)
  /\ forall m subs, (m, subs) ∈ c ->
       subs <> [] /\ NoDup (map fst subs)
       /\ forall s ts, (s, ts) ∈ subs -> ts <> [].
Proof.
  intros H.
  destruct (process_multiple_files_grouped client files c H) as (xs & _ & ->).
  split.
  - unfold group_first_seen. rewrite group_by_keys. apply NoDup_first_seen.
  - intros m subs Hm.
    pose proof (group_by_nonempty _ _ _ _ _ Hm) as Hne.
    apply group_by_elem in Hm. subst subs.
    set (of_m := filter (fun x => String.eqb m (cl_main x)) xs) in *.
    split; [|split].
    + unfold group_subcategories, group_by. intros E.
      apply map_eq_nil, first_seen_nil, map_eq_nil in E. contradiction.
    + unfold group_subcategories. rewrite group_by_keys.
      apply NoDup_first_seen.
    + intros s ts Hs.
      pose proof (group_by_nonempty _ _ _ _ _ Hs) as Hts.
      apply group_by_elem in Hs. subst ts. intros E.
      apply map_eq_nil in E. contradiction.
Qed.

Lemma buckets_are_well_formed_witness :
  NoDup (map fst (Sample.categorized_of (Sample.by_description Sample.rules)
                    [Sample.checking; Sample.card])).
Proof.
  refine (proj1 (buckets_are_well_formed (Sample.by_description Sample.rules)
                   [Sample.checking; Sample.card] _ _)).
  vm_compute. reflexivity.
Defined.

(** * Transactions without a date or a description *)

Lemma process_loop_raises_at (client : service) (t : gmap string pyval)
    (l : list (gmap string pyval)) :
  (forall i c, exists e, process_transaction client i t c = Raise e) ->
  t ∈ l ->
  forall i c, exists e, process_loop client i l c = Raise e.
Proof.
  intros Ht Hin. induction l as [|t' l IH]; intros i c; [inversion Hin|].
  cbn [process_loop].
  apply elem_of_cons in Hin as [<-|Hin].
  - destruct (Ht i c) as [e He]. rewrite He. cbn. eauto.
  - destruct (process_transaction client i t' c) as [c'|e]; cbn; [|eauto].
    apply IH, Hin.
Qed.

(** X9. A transaction without the key [Transaction Date] or without the
    key [Description], as a credit export with other column names gives,
    makes [process_multiple_files] end with an exception; and when it is
    the date that is missing the batch is, before that, left unsorted. *)
Theorem missing_column_aborts_batch (client : service) (files : list csv_file)
    (t : gmap string pyval) :
  t ∈ all_transactions files ->
  t !! "Transaction Date" = None \/ t !! "Description" = None ->
  (exists e, process_multiple_files client files = Raise e)
  /\ (t !! "Transaction Date" = None ->
      sort_step (all_transactions files) = all_transactions files).
Proof.
  intros Hin Hk. split.
  - unfold process_multiple_files.
    apply (process_loop_raises_at client t).
    + intros i c. unfold process_transaction, getitem.
      destruct (t !! "Description") as [d|]; [|cbn; eauto].
      destruct Hk as [Hk|Hk]; [|discriminate].
      destruct (t !! "Account") as [a|]; [|cbn; eauto].
      destruct (t !! "Amount") as [m|]; [|cbn; eauto].
      rewrite Hk. cbn. eauto.
    + rewrite <- (sort_step_Permutation (all_transactions files)). exact Hin.
  - intros Hd.
    assert (Hex : Exists (fun t => is_Ok (date_key t) = false)
                    (all_transactions files)).
    { apply Exists_exists. exists t. split; [exact Hin|].
      unfold date_key, getitem. rewrite Hd. reflexivity. }
    apply mapM_result_Raise in Hex as [e He].
    unfold sort_step, list_sort. rewrite He. reflexivity.
Qed.

Lemma missing_column_aborts_batch_witness :
  exists e, process_multiple_files (Sample.by_description Sample.rules)
              [Sample.checking_spelled] = Raise e.
Proof.
  refine (proj1 (missing_column_aborts_batch
                   (Sample.by_description Sample.rules)
                   [Sample.checking_spelled]
                   (credit_transaction "Chase1234"
                      (Sample.row_under Sample.spelled_header
                         ["DEBIT"; "01/05/2024"; "SAMSCLUB #1234"; "-54.12";
                          "DEBIT_CARD"; "300.00"])) _ _)).
  - left.
  - left. vm_compute. reflexivity.
Defined.

(** * Sorting what is sorted *)

Lemma sort_pairs_sorted {A K} (leb : K -> K -> bool) (ps : list (K * A)) :
  Sorted (le_pair leb) ps -> sort_pairs leb ps = ps.
Proof.
  induction 1 as [|p ps Hs IH Hp]; [reflexivity|].
  cbn [sort_pairs]. rewrite IH.
  destruct Hp as [|q ps Hpq]; [reflexivity|].
  cbn [insert_by]. unfold le_pair in Hpq. rewrite Hpq. reflexivity.
Qed.

Lemma not_later_pairs keys (l : list (gmap string pyval)) :
  Forall2 (fun t d => date_key t = Ok d) l keys ->
  Sorted not_later l ->
  Sorted (le_pair PyDate.leb) (combine keys l).
Proof.
  intros HF. induction HF as [|t d l keys Ht HF IH]; intros Hs; [constructor|].
  cbn [combine]. apply Sorted_inv in Hs as [Hs Hhd].
  constructor; [apply IH, Hs|].
  destruct HF as [|t' d' l keys Ht' _]; [constructor|].
  cbn [combine]. constructor. unfold le_pair. cbn [fst].
  apply HdRel_inv in Hhd. destruct Hhd as (d1 & d2 & H1 & H2 & Hle).
  rewrite Ht in H1. rewrite Ht' in H2. injection H1 as <-. injection H2 as <-.
  exact Hle.
Qed.

(** X10. Sorting is idempotent: the sort step applied to a batch it has
    already treated changes nothing. *)
Theorem sort_step_idempotent (l : list (gmap string pyval)) :
  sort_step (sort_step l) = sort_step l.
Proof.
  destruct (mapM_result date_key l) as [keys|e] eqn:E.
  - destruct (sort_step_sorted l keys E) as (_ & Hs & Hp & _).
    set (l' := sort_step l) in *.
    destruct (mapM_result date_key l') as [keys'|e'] eqn:E'.
    + destruct (sort_step_sorted l' keys' E') as (-> & _).
      pose proof (mapM_result_Forall2 _ _ _ E') as HF.
      rewrite sort_pairs_sorted.
      * apply (combine_dated keys' l' HF).
      * apply not_later_pairs; [exact HF|].
        apply StronglySorted_Sorted, Hs.
    + unfold sort_step at 1, list_sort. rewrite E'. reflexivity.
  - assert (Hl : sort_step l = l)
      by (unfold sort_step, list_sort; rewrite E; reflexivity).
    rewrite !Hl. reflexivity.
Qed.

(** * When the totals can be computed *)

Lemma is_Ok_mapM {A B} (f : A -> result B) (l : list A) :
  is_Ok (mapM_result f l) = forallb (fun a => is_Ok (f a)) l.
Proof.
  induction l as [|a l IH]; [reflexivity|].
  cbn [mapM_result forallb]. destruct (f a) as [b|e]; [|reflexivity].
  cbn. rewrite <- IH. destruct (mapM_result f l); reflexivity.
Qed.

Lemma is_Ok_subcategory_sum (ts : list entry) :
  is_Ok (subcategory_sum ts) = forallb readable ts.
Proof.
  unfold subcategory_sum. rewrite <- (is_Ok_mapM (fun t => float_of (e_amount t))).
  destruct (mapM_result _ ts); reflexivity.
Qed.

Lemma forallb_flat_map {A B} (p : B -> bool) (f : A -> list B) (l : list A) :
  forallb p (flat_map f l) = forallb (fun a => forallb p (f a)) l.
Proof.
  induction l as [|a l IH]; [reflexivity|].
  cbn [flat_map forallb]. rewrite forallb_app, IH. reflexivity.
Qed.

Lemma forallb_same {A} (p q : A -> bool) (l : list A) :
  (forall a, p a = q a) -> forallb p l = forallb q l.
Proof.
  intros H. induction l as [|a l IH]; [reflexivity|].
  cbn [forallb]. rewrite H, IH. reflexivity.
Qed.

Lemma forallb_fmap {A B} (p : B -> bool) (f : A -> B) (l : list A) :
  forallb p (map f l) = forallb (fun a => p (f a)) l.
Proof.
  induction l as [|a l IH]; [reflexivity|].
  cbn [map forallb]. rewrite IH. reflexivity.
Qed.

Lemma is_Ok_display_subcategories (subs : bucket) :
  forall acc, is_Ok (display_subcategories subs acc)
              = forallb readable (flat_map snd subs).
Proof.
  induction subs as [|[s ts] subs IH]; intros acc; [reflexivity|].
  cbn [display_subcategories flat_map snd]. rewrite forallb_app.
  rewrite <- is_Ok_subcategory_sum.
  destruct (subcategory_sum ts) as [x|e]; [|reflexivity].
  cbn. rewrite <- (IH (PyFloat.add acc x)).
  destruct (display_subcategories subs (PyFloat.add acc x)) as [[more t]|e];
    reflexivity.
Qed.

Lemma is_Ok_export_subcategories (m : string) (subs : bucket) :
  forall acc, is_Ok (export_subcategories m subs acc)
              = forallb readable (flat_map snd subs).
Proof.
  induction subs as [|[s ts] subs IH]; intros acc; [reflexivity|].
  cbn [export_subcategories flat_map snd]. rewrite forallb_app.
  rewrite <- is_Ok_subcategory_sum.
  destruct (subcategory_sum ts) as [x|e]; [|reflexivity].
  cbn. rewrite <- (IH (PyFloat.add acc x)).
  destruct (export_subcategories m subs (PyFloat.add acc x)) as [[more t]|e];
    reflexivity.
Qed.

Lemma is_Ok_overall_total (c : categorized) :
  is_Ok (overall_total c) = forallb readable (all_entries c).
Proof.
  unfold overall_total, all_entries.
  transitivity (is_Ok (mapM_result subcategory_sum
                         (flat_map (fun mc => map snd (snd mc)) c))).
  { destruct (mapM_result subcategory_sum _); reflexivity. }
  rewrite is_Ok_mapM, !forallb_flat_map.
  apply forallb_same. intros [m subs]. cbn [snd].
  rewrite forallb_flat_map, forallb_fmap.
  apply forallb_same. intros [s ts]. apply is_Ok_subcategory_sum.
Qed.

Lemma is_Ok_display_results (c : categorized) :
  is_Ok (display_results c) = forallb readable (all_entries c).
Proof.
  unfold display_results.
  assert (E : is_Ok (mapM_result display_category c)
              = forallb readable (all_entries c)).
  { rewrite is_Ok_mapM. unfold all_entries. rewrite forallb_flat_map.
    apply forallb_same. intros [m subs]. cbn [snd]. unfold display_category.
    rewrite <- (is_Ok_display_subcategories subs PyFloat.zero).
    destruct (display_subcategories subs PyFloat.zero) as [[ls t]|e];
      reflexivity. }
  rewrite <- E. pose proof (is_Ok_overall_total c) as Ht. rewrite <- E in Ht.
  destruct (mapM_result display_category c); [|reflexivity].
  cbn in *. destruct (overall_total c); [reflexivity | discriminate].
Qed.

Lemma is_Ok_export_to_csv (c : categorized) (paths : list string) :
  is_Ok (export_to_csv c paths) = forallb readable (all_entries c).
Proof.
  unfold export_to_csv.
  assert (E : is_Ok (mapM_result export_category c)
              = forallb readable (all_entries c)).
  { rewrite is_Ok_mapM. unfold all_entries. rewrite forallb_flat_map.
    apply forallb_same. intros [m subs]. cbn [snd]. unfold export_category.
    rewrite <- (is_Ok_export_subcategories m subs PyFloat.zero).
    destruct (export_subcategories m subs PyFloat.zero) as [[ls t]|e];
      reflexivity. }
  rewrite <- E. pose proof (is_Ok_overall_total c) as Ht. rewrite <- E in Ht.
  destruct (mapM_result export_category c); [|reflexivity].
  cbn in *. destruct (overall_total c); [reflexivity | discriminate].
Qed.

(** X11. The printed summary and the exported report succeed together, for
    any buckets: each of them can be made exactly when [float] reads the
    amount of every stored transaction as it is. *)
Theorem summary_and_report_succeed_together (c : categorized)
    (paths : list string) :
  is_Ok (display_results c) = is_Ok (export_to_csv c paths)
  /\ (is_Ok (export_to_csv c paths) = true
      <-> Forall (fun e => is_Ok (float_of (e_amount e)) = true) (all_entries c)).
Proof.
  rewrite is_Ok_display_results, is_Ok_export_to_csv. split; [reflexivity|].
  rewrite forallb_forall, Forall_forall. unfold readable.
  split; intros H e He; apply H; apply list_elem_of_In; exact He.
Qed.

(** * When the run fails after the classification *)

Lemma classify_amount (client : service) (i : nat) (t : gmap string pyval)
    (x : classified) :
  classify client i t = Ok x ->
  is_Ok (parse_amount (e_amount (cl_entry x))) = true.
Proof.
  unfold classify, getitem.
  destruct (t !! "Description") as [d|] eqn:Hd; [|discriminate].
  destruct (t !! "Account") as [a|]; [|discriminate].
  destruct (t !! "Amount") as [m|] eqn:Hm; [|discriminate].
  destruct (t !! "Transaction Date") as [dt|]; [|discriminate].
  cbn. destruct (categorize_transaction client i t) as [[mc sc]|e] eqn:E;
    [|discriminate].
  cbn. intros H. injection H as <-. cbn.
  unfold categorize_transaction, getitem in E. rewrite Hd, Hm in E. cbn in E.
  destruct (parse_amount m); [reflexivity | discriminate].
Qed.

Lemma classify_all_amounts (client : service) (l : list (gmap string pyval)) :
  forall i xs, classify_all client i l = Ok xs ->
    Forall (fun e => is_Ok (parse_amount (e_amount e)) = true) (map cl_entry xs).
Proof.
  induction l as [|t l IH]; intros i xs H; cbn in H.
  - injection H as <-. constructor.
  - apply bind_Ok in H as (x & Hx & H).
    apply bind_Ok in H as (xs' & Hxs & H). injection H as <-.
    cbn [map]. constructor; [apply (classify_amount _ _ _ _ Hx) | eauto].
Qed.

Lemma stored_amounts_parse (client : service) (files : list csv_file)
    (c : categorized) :
  process_multiple_files client files = Ok c ->
  Forall (fun e => is_Ok (parse_amount (e_amount e)) = true) (all_entries c).
Proof.
  unfold process_multiple_files. rewrite process_loop_classify_all.
  intros H. apply bind_Ok in H as (xs & Hxs & H). injection H as <-.
  pose proof (all_entries_fold xs []) as Hp. cbn [all_entries flat_map app] in Hp.
  rewrite Hp. apply (classify_all_amounts _ _ _ _ Hxs).
Qed.

Lemma unreadable_has_symbols (e : entry) :
  is_Ok (parse_amount (e_amount e)) = true ->
  (readable e = false <-> has_symbols e).
Proof.
  unfold readable, has_symbols. destruct (e_amount e) as [|s|x]; cbn [float_of].
  - discriminate.
  - rewrite parse_amount_text. intros Hp. split.
    + intros Hr. exists s. split; [reflexivity|].
      destruct (PyStr.has_char "$" s) eqn:E1; [reflexivity|].
      destruct (PyStr.has_char "," s) eqn:E2; [reflexivity|].
      rewrite (remove_char_absent "$" s E1), (remove_char_absent "," s E2) in Hp.
      congruence.
    + intros (s' & E & Hs). injection E as <-.
      destruct (PyFloat.of_string s) as [x|] eqn:Ex; [|reflexivity].
      rewrite (of_string_foreign "$" s x eq_refl Ex) in Hs.
      rewrite (of_string_foreign "," s x eq_refl Ex) in Hs. discriminate.
  - intros _. split; [discriminate|]. intros (s & E & _). discriminate.
Qed.

(** X12. Once the transactions are classified, the summary and the report
    fail exactly when the amount text of some transaction holds a [$] or a
    [,]: [categorize_transaction] accepted it without them, and the totals
    read it with them. *)
Theorem run_fails_exactly_on_symbols (client : service) (files : list csv_file)
    (c : categorized) :
  process_multiple_files client files = Ok c ->
  (is_Ok (run client files) = false <-> Exists has_symbols (all_entries c)).
Proof.
  intros H. pose proof (stored_amounts_parse client files c H) as Hp.
  assert (Hrun : is_Ok (run client files) = forallb readable (all_entries c)).
  { unfold run. rewrite H. cbn.
    pose proof (is_Ok_display_results c) as Hd.
    pose proof (is_Ok_export_to_csv c (map file_path files)) as He.
    destruct (display_results c); cbn in *; [|congruence].
    rewrite <- He. reflexivity. }
  rewrite Hrun. clear Hrun H.
  induction Hp as [|e es He _ IH]; cbn [forallb].
  - split; [discriminate | intros Hex; inversion Hex].
  - rewrite Exists_cons, andb_false_iff, IH, (unreadable_has_symbols e He).
    reflexivity.
Qed.

Lemma run_fails_exactly_on_symbols_witness :
  is_Ok (run (Sample.by_description Sample.rules) [Sample.card_dollar_amount])
  = false.
Proof.
  refine (proj2 (run_fails_exactly_on_symbols
                   (Sample.by_description Sample.rules)
                   [Sample.card_dollar_amount]
                   (Sample.categorized_of (Sample.by_description Sample.rules)
                      [Sample.card_dollar_amount]) _) _).
  - vm_compute. reflexivity.
  - left. exists "$1,200.00". split; reflexivity.
Defined.

(** * The size of the report *)

Lemma length_category_section (mc : string * bucket) :
  length (category_section mc)
  = (2 + 2 * length (snd mc) + length (flat_map snd (snd mc)))%nat.
Proof.
  destruct mc as [m subs]. unfold category_section. cbn [fst snd].
  rewrite length_app. cbn [length].
  induction subs as [|[s ts] subs IH]; [reflexivity|].
  cbn [flat_map snd fst] in *. unfold subcategory_section at 1. cbn [fst snd].
  rewrite !length_app. cbn [length]. rewrite length_app, length_map.
  cbn [length]. lia.
Qed.

Lemma length_category_sections (c : categorized) :
  length (flat_map category_section c)
  = (2 * length c + 2 * length (flat_map snd c) + length (all_entries c))%nat.
Proof.
  unfold all_entries. induction c as [|mc c IH]; [reflexivity|].
  cbn [flat_map length]. rewrite !length_app, length_category_section, IH.
  unfold bucket in *. lia.
Qed.

(** X13. The report has three rows of its own, two rows for each main
    category, two rows for each subcategory and one row for each
    transaction. *)
Theorem report_size (c : categorized) (paths : list string)
    (rows : list csv_row) :
  export_to_csv c paths = Ok rows ->
  length rows
  = (3 + 2 * length c + 2 * length (flat_map snd c) + length (all_entries c))%nat.
Proof.
  intros H. rewrite (export_to_csv_layout c paths rows H).
  unfold layout. cbn [length]. rewrite length_app, length_category_sections.
  cbn [length]. lia.
Qed.

Lemma report_size_witness :
  length (layout (Sample.categorized_of (Sample.by_description Sample.rules)
                    [Sample.checking; Sample.card]) [])
  = 22%nat.
Proof.
  refine (report_size (Sample.categorized_of (Sample.by_description Sample.rules)
                         [Sample.checking; Sample.card]) [] _ _).
  vm_compute. reflexivity.
Defined.

(** * A batch without rows *)

(** X14. Files without a row give a report of three rows, whatever the
    service: the row that names the files, a blank row, and a grand total
    of zero, which is written "-$0.00". *)
Theorem empty_batch_report (client : service) (files : list csv_file) :
  Forall (fun f => reader_rows f = []) files ->
  run client files
  = Ok [files_row (map file_path files); blank_row; overall_row PyFloat.zero]
  /\ c_amount (overall_row PyFloat.zero) = VStr "-$0.00".
Proof.
  intros H. split; [|reflexivity].
  assert (E : all_transactions files = []).
  { unfold all_transactions. induction H as [|f files Hf _ IH]; [reflexivity|].
    cbn [flat_map]. rewrite IH. unfold read_transactions. rewrite Hf.
    reflexivity. }
  unfold run, process_multiple_files. rewrite E. reflexivity.
Qed.

Lemma empty_batch_report_witness :
  run (Sample.by_description Sample.rules)
    [CsvFile "accounts/Visa_2024.csv" Sample.credit_header []]
  = Ok [files_row ["accounts/Visa_2024.csv"]; blank_row;
        overall_row PyFloat.zero].
Proof.
  refine (proj1 (empty_batch_report (Sample.by_description Sample.rules)
                   [CsvFile "accounts/Visa_2024.csv" Sample.credit_header []] _)).
  repeat constructor.
Defined.

(** * Totals without a sign *)

Lemma has_char_append (c : ascii) (a b : string) :
  PyStr.has_char c (a +:+ b) = PyStr.has_char c a || PyStr.has_char c b.
Proof.
  induction a as [|d a IH]; [reflexivity|].
  change (String d a +:+ b) with (String d (a +:+ b)).
  rewrite !has_char_cons, IH. apply orb_assoc.
Qed.

Lemma string_of_uint_no_minus (u : Decimal.uint) :
  PyStr.has_char "-" (NilEmpty.string_of_uint u) = false.
Proof.
  induction u; cbn [NilEmpty.string_of_uint]; rewrite ?has_char_cons, ?IHu;
    reflexivity.
Qed.

Lemma Z_to_str_no_minus (n : Z) : PyStr.has_char "-" (PyFloat.Z_to_str n) = false.
Proof.
  unfold PyFloat.Z_to_str, NilZero.string_of_uint.
  destruct (N.to_uint (Z.to_N n)) eqn:E; try reflexivity;
    rewrite <- E; apply string_of_uint_no_minus.
Qed.

Lemma digit_char_no_minus (d : Z) :
  0 <= d <= 9 -> Ascii.eqb "-" (PyFloat.digit_char d) = false.
Proof.
  intros H.
  assert (E : d = 0 \/ d = 1 \/ d = 2 \/ d = 3 \/ d = 4 \/ d = 5 \/ d = 6
              \/ d = 7 \/ d = 8 \/ d = 9) by lia.
  repeat (destruct E as [->|E]; [reflexivity|]). subst d. reflexivity.
Qed.

Lemma fixed2_no_minus (n : Z) : PyStr.has_char "-" (PyFloat.fixed2 n) = false.
Proof.
  unfold PyFloat.fixed2, PyFloat.two_digits.
  rewrite !has_char_append, Z_to_str_no_minus. cbn [orb].
  rewrite !has_char_cons.
  pose proof (Z.mod_pos_bound n 100 ltac:(lia)) as Hm.
  rewrite (digit_char_no_minus ((n mod 100) / 10)).
  2:{ split; [apply Z.div_pos; lia |].
      apply Z.lt_succ_r, Z.div_lt_upper_bound; lia. }
  rewrite (digit_char_no_minus ((n mod 100) mod 10)).
  2:{ pose proof (Z.mod_pos_bound (n mod 100) 10 ltac:(lia)). lia. }
  reflexivity.
Qed.

(** X15. The total of a subcategory or of a category is written without a
    minus sign, whatever its value: a negative total, an infinite one and
    one that is not a number included. *)
Theorem subtotals_never_show_a_minus (x : PyFloat.float) :
  PyStr.has_char "-" (dollars x) = false.
Proof.
  unfold dollars. rewrite has_char_append. cbn [orb PyStr.has_char].
  destruct x as [s|s| |s m e]; try reflexivity.
  cbn [PyFloat.abs SFabs PyFloat.format_2f].
  rewrite has_char_append. apply fixed2_no_minus.
Qed.

(** * The summary and the report *)

Lemma display_subcategories_layout (subs : bucket) :
  forall acc lines total,
    display_subcategories subs acc = Ok (lines, total) ->
    lines = flat_map display_subcategory_lines subs
    /\ total = fold_left PyFloat.add
                 (map (fun sub => subcategory_value (snd sub)) subs) acc.
Proof.
  induction subs as [|[s ts] subs IH]; intros acc lines total H.
  - injection H as <- <-. split; reflexivity.
  - cbn [display_subcategories] in H.
    apply bind_Ok in H as (x & Hx & H).
    apply bind_Ok in H as ([more t'] & Hmore & H).
    injection H as <- <-.
    apply subcategory_sum_value in Hx. subst x.
    apply IH in Hmore as [-> ->]. split; reflexivity.
Qed.

Lemma display_category_layout (mc : string * bucket) (lines : list display_line) :
  display_category mc = Ok lines -> lines = display_category_lines mc.
Proof.
  destruct mc as [m subs]. unfold display_category. intros H.
  apply bind_Ok in H as ([ls total] & Hls & H). injection H as <-.
  apply display_subcategories_layout in Hls as [-> ->]. reflexivity.
Qed.

Lemma display_results_layout (c : categorized) (lines : list display_line) :
  display_results c = Ok lines -> lines = display_layout c.
Proof.
  unfold display_results, display_layout. intros H.
  apply bind_Ok in H as (per & Hper & H).
  apply bind_Ok in H as (x & Hx & H). injection H as <-.
  rewrite (overall_total_value _ _ Hx). f_equal. f_equal.
  apply mapM_result_Forall2 in Hper. clear Hx.
  induction Hper as [|mc ls c per Hmc _ IH]; [reflexivity|].
  cbn [concat flat_map]. rewrite IH, (display_category_layout _ _ Hmc).
  reflexivity.
Qed.

Lemma display_layout_elem (c : categorized) (x : display_line) :
  x ∈ display_layout c ->
  x = DBanner
  \/ x = DOverall (format_amount (VFloat (grand_total_value c)))
  \/ exists m subs, (m, subs) ∈ c
       /\ (x = DCategory m
           \/ x = DCategoryTotal m
                    (dollars (PyFloat.sum
                       (map (fun sub => subcategory_value (snd sub)) subs)))
           \/ exists s ts, (s, ts) ∈ subs
                /\ (x = DSubcategory s (dollars (subcategory_value ts))
                    \/ exists t, t ∈ ts
                         /\ x = DTransaction (e_date t) (e_account t)
                                  (e_description t) (format_amount (e_amount t)))).
Proof.
  unfold display_layout. intros H.
  apply elem_of_cons in H as [->|H]; [left; reflexivity|].
  apply elem_of_app in H as [H|H].
  2:{ apply list_elem_of_singleton in H as ->. right. left. reflexivity. }
  right. right. apply list_elem_of_In, in_flat_map in H as ([m subs] & Hm & H).
  exists m, subs. split; [apply list_elem_of_In, Hm|].
  unfold display_category_lines in H. cbn [fst snd] in H.
  apply list_elem_of_In, elem_of_cons in H as [->|H]; [left; reflexivity|].
  apply elem_of_app in H as [H|H].
  2:{ apply list_elem_of_singleton in H as ->. right. left. reflexivity. }
  right. right. apply list_elem_of_In, in_flat_map in H as ([s ts] & Hs & H).
  exists s, ts. split; [apply list_elem_of_In, Hs|].
  unfold display_subcategory_lines in H. cbn [fst snd] in H.
  apply list_elem_of_In, elem_of_cons in H as [->|H]; [left; reflexivity|].
  right. apply list_elem_of_fmap in H as (t & -> & Ht). exists t. auto.
Qed.

(** X16. The printed summary and the exported report agree.  Every total
    the summary prints for a subcategory or a category is the amount of a
    row of the report for that subcategory or category, and its last line
    shows the grand total of the last row of the report; the amount the
    summary prints for a transaction is in the signed form, [+$] or [-$]
    before the digits. *)
Theorem summary_agrees_with_report (c : categorized) (paths : list string)
    (lines : list display_line) (rows : list csv_row) :
  display_results c = Ok lines ->
  export_to_csv c paths = Ok rows ->
  (forall s total, DSubcategory s total ∈ lines ->
     exists m x, subcategory_row m s x ∈ rows
                 /\ c_amount (subcategory_row m s x) = VStr total)
  /\ (forall m total, DCategoryTotal m total ∈ lines ->
        exists x, category_total_row m x ∈ rows
                  /\ c_amount (category_total_row m x) = VStr total)
  /\ (exists x, last lines = Some (DOverall (VStr (signed_dollars x)))
                /\ last rows = Some (overall_row x))
  /\ (forall d a ds shown, DTransaction d a ds shown ∈ lines ->
        exists x, shown = VStr (signed_dollars x)).
Proof.
  intros Hd He.
  assert (Hr : forallb readable (all_entries c) = true)
    by (rewrite <- is_Ok_display_results, Hd; reflexivity).
  pose proof (display_results_layout c lines Hd) as ->.
  pose proof (export_to_csv_layout c paths rows He) as ->.
  split; [|split; [|split]].
  - intros s total H. apply display_layout_elem in H
      as [H|[H|(m & subs & Hm & [H|[H|(s' & ts & Hs & [H|(t & _ & H)])]])]];
      try discriminate.
    injection H as -> ->. exists m, (subcategory_value ts).
    split; [|reflexivity].
    apply (layout_subcategory_row c paths m subs s' ts Hm Hs).
  - intros m total H. apply display_layout_elem in H
      as [H|[H|(m' & subs & Hm & [H|[H|(s' & ts & Hs & [H|(t & _ & H)])]])]];
      try discriminate.
    injection H as -> ->. eexists. split; [|reflexivity].
    apply (layout_category_total_row c paths m' subs Hm).
  - exists (grand_total_value c). split; [|apply layout_last].
    unfold display_layout. rewrite app_comm_cons. apply last_snoc.
  - intros d a ds shown H. apply display_layout_elem in H
      as [H|[H|(m & subs & Hm & [H|[H|(s' & ts & Hs & [H|(t & Ht & H)])]])]];
      try discriminate.
    injection H as -> -> -> ->.
    assert (Hin : t ∈ all_entries c).
    { unfold all_entries. apply list_elem_of_In, in_flat_map.
      exists (m, subs). split; [apply list_elem_of_In, Hm|].
      apply in_flat_map. exists (s', ts).
      split; apply list_elem_of_In; assumption. }
    rewrite forallb_forall in Hr. specialize (Hr t (proj1 (list_elem_of_In _ _) Hin)).
    unfold readable in Hr. unfold format_amount.
    destruct (float_of (e_amount t)) as [x|]; [|discriminate].
    exists x. reflexivity.
Qed.

Lemma summary_agrees_with_report_witness :
  let c := Sample.categorized_of (Sample.by_description Sample.rules)
             [Sample.checking; Sample.card] in
  exists x, last (display_layout c) = Some (DOverall (VStr (signed_dollars x)))
            /\ last (layout c []) = Some (overall_row x).
Proof.
  intros c.
  refine (proj1 (proj2 (proj2 (summary_agrees_with_report c []
                                 (display_layout c) (layout c []) _ _))));
    vm_compute; reflexivity.
Defined.

(** * The choice of the files *)

Lemma main_runs (client : service) (env : environment) (paths : list string) :
  csv_files env <> [] ->
  selected_paths (accounts_dir env) (csv_files env) (typed env) = Some paths ->
  paths <> [] ->
  main client env
  = rows ← run client (map (open_file env) paths); Ok (Exported rows).
Proof.
  intros Hf Hs Hp. unfold main, run.
  destruct (csv_files env) as [|f fs] eqn:E; [contradiction|].
  rewrite Hs. destruct paths as [|p ps]; [contradiction|].
  rewrite map_map. cbn [file_path open_file].
  rewrite (map_id (p :: ps)).
  destruct (process_multiple_files client _) as [c|e]; [|reflexivity].
  cbn. destruct (display_results c); reflexivity.
Qed.

Lemma lower_char_a (c : ascii) :
  lower_char c = "a"%char -> c = "a"%char \/ c = "A"%char.
Proof.
  destruct c as [[] [] [] [] [] [] [] []]; vm_compute; intros H;
    try discriminate; auto.
Qed.

Lemma lower_char_l (c : ascii) :
  lower_char c = "l"%char -> c = "l"%char \/ c = "L"%char.
Proof.
  destruct c as [[] [] [] [] [] [] [] []]; vm_compute; intros H;
    try discriminate; auto.
Qed.

Lemma str_lower_all (s : string) :
  str_lower s = "all"
  <-> s ∈ ["all"; "alL"; "aLl"; "aLL"; "All"; "AlL"; "ALl"; "ALL"].
Proof.
  split.
  - destruct s as [|c1 [|c2 [|c3 [|c4 s]]]]; try discriminate.
    cbn [str_lower]. intros H. injection H as H1 H2 H3.
    apply lower_char_a in H1. apply lower_char_l in H2, H3.
    destruct H1 as [-> | ->], H2 as [-> | ->], H3 as [-> | ->];
      repeat first [left | right].
  - intros H. repeat (apply elem_of_cons in H as [->|H]; [reflexivity|]).
    inversion H.
Qed.

(** X17. The word [all], in small or capital letters and with nothing
    around it, selects every file of the listing whose name ends in [.csv]
    or [.CSV], in the order of the listing; they are read from the
    [accounts] directory and go through the pipeline. *)
Theorem all_selects_every_csv_file (client : service) (env : environment) :
  typed env ∈ ["all"; "alL"; "aLl"; "aLL"; "All"; "AlL"; "ALl"; "ALL"] ->
  csv_files env <> [] ->
  main client env
  = rows ← run client
             (map (fun f => open_file env (path_join (accounts_dir env) f))
                  (csv_files env));
    Ok (Exported rows).
Proof.
  intros Ht Hf. apply str_lower_all in Ht.
  rewrite (main_runs client env (map (path_join (accounts_dir env)) (csv_files env))).
  - rewrite map_map. reflexivity.
  - exact Hf.
  - unfold selected_paths. rewrite Ht. reflexivity.
  - intros E. apply map_eq_nil in E. contradiction.
Qed.

(** X18. When the line typed is not the word [all] and one of its fields,
    between commas, is not an integer, the whole selection is refused, the
    numbers before and after that field included: nothing is read and the
    service is not asked. *)
Theorem bad_field_refuses_selection (client : service) (env : environment) :
  csv_files env <> [] ->
  str_lower (typed env) <> "all" ->
  Exists (fun field => is_Ok (int_of_string (PyStr.strip field)) = false)
    (PyStr.split "," (typed env)) ->
  main client env = Ok InvalidSelection.
Proof.
  intros Hf Ht Hex. unfold main, selected_paths.
  destruct (csv_files env) as [|f fs]; [contradiction|].
  destruct (String.eqb_spec (str_lower (typed env)) "all") as [E|_];
    [contradiction|].
  assert (Hr : exists e, parse_indices (typed env) = Raise e).
  { unfold parse_indices. apply mapM_result_Raise.
    eapply Exists_impl; [exact Hex|]. cbn. intros field H.
    destruct (int_of_string (PyStr.strip field)); [discriminate | reflexivity]. }
  destruct Hr as [e ->]. reflexivity.
Qed.

Lemma omap_cons {A B} (f : A -> option B) (x : A) (l : list A) :
  omap f (x :: l) = match f x with
                    | Some y => y :: omap f l
                    | None => omap f l
                    end.
Proof. reflexivity. Qed.

(** X19. Numbers select the files at their places, counted from one, in
    the order typed and as often as typed; a number that is zero, negative
    or greater than the count of files is skipped, it never counts from the
    end of the list.  Every path selected is that of a listed file whose
    name ends in [.csv] or [.CSV], in the [accounts] directory. *)
Theorem numbers_select_listed_files (env : environment) (indices : list Z) :
  str_lower (typed env) <> "all" ->
  parse_indices (typed env) = Ok indices ->
  let chosen := omap (fun i => if i <? 0 then None
                               else csv_files env !! Z.to_nat i) indices in
  selected_paths (accounts_dir env) (csv_files env) (typed env)
  = Some (map (path_join (accounts_dir env)) chosen)
  /\ Forall (fun f => f ∈ listing env
                      /\ (endswith f ".CSV" || endswith f ".csv") = true) chosen.
Proof.
  intros Ht Hi chosen. split.
  - unfold selected_paths.
    destruct (String.eqb_spec (str_lower (typed env)) "all") as [E|_];
      [contradiction|].
    rewrite Hi. f_equal. unfold chosen. clear.
    induction indices as [|i indices IH]; [reflexivity|].
    cbn [files_at]. rewrite omap_cons.
    destruct (Z.ltb_spec i 0) as [Hneg|Hpos]; cbn [orb]; [exact IH|].
    destruct (Z.leb_spec (Z.of_nat (length (csv_files env))) i) as [Hbig|Hin].
    + rewrite (proj2 (lookup_ge_None (csv_files env) (Z.to_nat i))) by lia.
      exact IH.
    + destruct (csv_files env !! Z.to_nat i); cbn [map]; rewrite IH; reflexivity.
  - unfold chosen. apply Forall_forall. intros f Hf.
    apply list_elem_of_omap in Hf as (i & _ & Hf).
    destruct (i <? 0); [discriminate|].
    apply list_elem_of_lookup_2 in Hf. unfold csv_files in Hf.
    apply list_elem_of_In, filter_In in Hf as [Hl He].
    split; [apply list_elem_of_In, Hl | exact He].
Qed.

Lemma all_selects_every_csv_file_witness :
  exists rows,
    main (Sample.by_description Sample.rules) (SampleRun.at_prompt "ALL")
    = Ok (Exported rows).
Proof.
  rewrite (all_selects_every_csv_file (Sample.by_description Sample.rules)
             (SampleRun.at_prompt "ALL")).
  - eexists. vm_compute. reflexivity.
  - do 7 right. left.
  - discriminate.
Defined.

Lemma bad_field_refuses_selection_witness :
  main (Sample.by_description Sample.rules) (SampleRun.at_prompt "1, two, 2")
  = Ok InvalidSelection.
Proof.
  apply (bad_field_refuses_selection (Sample.by_description Sample.rules)
           (SampleRun.at_prompt "1, two, 2")).
  - discriminate.
  - discriminate.
  - right. left. reflexivity.
Defined.

Lemma numbers_select_listed_files_witness :
  selected_paths (accounts_dir (SampleRun.at_prompt "2, 0, 3, 2, -1"))
    (csv_files (SampleRun.at_prompt "2, 0, 3, 2, -1")) "2, 0, 3, 2, -1"
  = Some ["/home/user/budget/accounts/Visa_2024.csv";
          "/home/user/budget/accounts/Visa_2024.csv"].
Proof.
  refine (proj1 (numbers_select_listed_files
                   (SampleRun.at_prompt "2, 0, 3, 2, -1")
                   [1; -1; 2; 1; -2] _ _)).
  - discriminate.
  - reflexivity.
Defined.

(** * The account of a listed file *)

Lemma split_single (c : ascii) (f : string) :
  PyStr.has_char c f = false -> PyStr.split c f = [f].
Proof.
  induction f as [|d f IH]; [reflexivity|].
  rewrite has_char_cons. intros H. apply orb_false_elim in H as [Hd Hf].
  cbn [PyStr.split]. rewrite Hd, (IH Hf). reflexivity.
Qed.

Lemma split_app (c : ascii) (a f : string) :
  PyStr.split c (a +:+ String c f) = PyStr.split c a ++ PyStr.split c f.
Proof.
  induction a as [|d a IH].
  - change ("" +:+ String c f) with (String c f).
    cbn [PyStr.split app]. rewrite Ascii.eqb_refl. reflexivity.
  - change (String d a +:+ String c f) with (String d (a +:+ String c f)).
    cbn [PyStr.split]. rewrite IH. destruct (Ascii.eqb c d); [reflexivity|].
    pose proof (split_nonempty c a) as Hne.
    destruct (PyStr.split c a); [contradiction | reflexivity].
Qed.

Lemma basename_append (a f : string) :
  PyStr.has_char "/" f = false -> PyStr.basename (a +:+ String "/" f) = f.
Proof.
  intros Hf. unfold PyStr.basename.
  rewrite split_app, (split_single _ _ Hf). apply last_last.
Qed.

Lemma endswith_slash (a : string) :
  endswith a "/" = true -> exists a', a = a' +:+ "/".
Proof.
  induction a as [|d a IH]; [discriminate|].
  cbn [endswith]. intros H. apply orb_prop in H as [H|H].
  - apply String.eqb_eq in H. exists "". exact H.
  - destruct (IH H) as [a' ->]. exists (String d a'). reflexivity.
Qed.

Lemma append_assoc (a b c : string) : (a +:+ b) +:+ c = a +:+ (b +:+ c).
Proof.
  induction a as [|d a IH]; [reflexivity|].
  change ((String d a +:+ b) +:+ c) with (String d ((a +:+ b) +:+ c)).
  rewrite IH. reflexivity.
Qed.

Lemma basename_path_join (dir f : string) :
  PyStr.has_char "/" f = false -> PyStr.basename (path_join dir f) = f.
Proof.
  intros Hf. unfold path_join.
  assert (E : PyStr.basename
                (if String.eqb dir "" || endswith dir "/" then dir +:+ f
                 else dir +:+ "/" +:+ f) = f).
  { destruct (String.eqb_spec dir "") as [->|Hd]; cbn [orb].
    - change ("" +:+ f) with f. unfold PyStr.basename.
      rewrite (split_single _ _ Hf). reflexivity.
    - destruct (endswith dir "/") eqn:Es.
      + destruct (endswith_slash dir Es) as [a' ->].
        rewrite append_assoc. apply (basename_append a' f Hf).
      + apply (basename_append dir f Hf). }
  destruct f as [|d f']; [exact E|].
  destruct d as [[] [] [] [] [] [] [] []]; try exact E.
  discriminate.
Qed.

(** X20. A transaction of a file that [main] reads has for account the
    name of the file in the listing up to its first underscore: the
    directory that [main] puts before the name plays no part. *)
Theorem account_of_listed_file (env : environment) (f : string)
    (t : gmap string pyval) :
  PyStr.has_char "/" f = false ->
  t ∈ read_transactions (open_file env (path_join (accounts_dir env) f)) ->
  t !! "Account" = Some (VStr (hd "" (PyStr.split "_" f))).
Proof.
  intros Hf Ht. apply read_transactions_account in Ht. rewrite Ht.
  cbn [file_path open_file]. unfold account_name.
  rewrite (basename_path_join _ f Hf). reflexivity.
Qed.

Lemma account_of_listed_file_witness :
  let t := debit_transaction "Chase1234"
             (Sample.debit_row "01/09/2024" "PAYROLL" "1200.00" "ACH_CREDIT"
                "1500.00") in
  t !! "Account" = Some (VStr "Chase1234").
Proof.
  intros t.
  refine (account_of_listed_file (SampleRun.at_prompt "all")
            "Chase1234_Activity.CSV" t _ _).
  - reflexivity.
  - left.
Defined.

(** * Numbers written and read back *)

Lemma take_digits_uint (u : Decimal.uint) :
  forall acc n,
    PyFloat.take_digits acc n (NilEmpty.string_of_uint u)
    = (uint_value u acc, n + Z.of_nat (Decimal.nb_digits u), "").
Proof.
  induction u; intros acc n;
    cbn [NilEmpty.string_of_uint Decimal.nb_digits uint_value];
    [cbn; repeat f_equal; lia | ..];
    cbn [PyFloat.take_digits];
    match goal with
    | |- context [PyStr.is_digit ?c] =>
        change (PyStr.is_digit c) with true; cbv iota;
        let v := eval vm_compute in (PyStr.digit_val c) in
        change (PyStr.digit_val c) with v
    end;
    rewrite IHu; f_equal; f_equal; lia.
Qed.

Lemma uint_value_pos (u : Decimal.uint) :
  forall acc : positive, uint_value u (Z.pos acc) = Z.pos (Pos.of_uint_acc u acc).
Proof.
  induction u; intros acc; cbn [uint_value Pos.of_uint_acc];
    [reflexivity | ..]; rewrite <- IHu; f_equal; lia.
Qed.

Lemma uint_value_0 (u : Decimal.uint) : uint_value u 0 = Z.of_N (Pos.of_uint u).
Proof.
  induction u; cbn [uint_value Pos.of_uint]; [reflexivity | exact IHu | ..];
    apply uint_value_pos.
Qed.

Lemma lstrip_uint (u : Decimal.uint) :
  PyStr.lstrip (NilEmpty.string_of_uint u) = NilEmpty.string_of_uint u.
Proof. destruct u; reflexivity. Qed.

Lemma lstrip_blank_uint (u : Decimal.uint) :
  PyFloat.lstrip_blank (NilEmpty.string_of_uint u) = NilEmpty.string_of_uint u.
Proof. destruct u; reflexivity. Qed.

Lemma rstrip_blank_uint (u : Decimal.uint) :
  PyFloat.rstrip_blank (NilEmpty.string_of_uint u) = NilEmpty.string_of_uint u.
Proof.
  induction u; cbn [NilEmpty.string_of_uint PyFloat.rstrip_blank];
    [reflexivity | ..];
    rewrite IHu; destruct (NilEmpty.string_of_uint u); reflexivity.
Qed.

Lemma rstrip_uint (u : Decimal.uint) :
  PyStr.rstrip (NilEmpty.string_of_uint u) = NilEmpty.string_of_uint u.
Proof.
  induction u; cbn [NilEmpty.string_of_uint PyStr.rstrip]; [reflexivity | ..];
    rewrite IHu; destruct (NilEmpty.string_of_uint u); reflexivity.
Qed.

Lemma drop_underscores_uint (u : Decimal.uint) :
  forall prev, PyFloat.drop_underscores prev (NilEmpty.string_of_uint u)
               = Some (NilEmpty.string_of_uint u)
               \/ (u = Decimal.Nil /\ prev = "_"%char).
Proof.
  induction u; intros prev;
    cbn [NilEmpty.string_of_uint PyFloat.drop_underscores].
  - destruct (Ascii.eqb_spec prev "_"); [right; auto | left; reflexivity].
  - left. change (Ascii.eqb "0" "_") with false. cbv iota.
    change (PyStr.is_digit "0") with true. rewrite andb_false_r.
    destruct (IHu "0"%char) as [->|[_ H]]; [reflexivity | discriminate].
  - left. change (Ascii.eqb "1" "_") with false. cbv iota.
    change (PyStr.is_digit "1") with true. rewrite andb_false_r.
    destruct (IHu "1"%char) as [->|[_ H]]; [reflexivity | discriminate].
  - left. change (Ascii.eqb "2" "_") with false. cbv iota.
    change (PyStr.is_digit "2") with true. rewrite andb_false_r.
    destruct (IHu "2"%char) as [->|[_ H]]; [reflexivity | discriminate].
  - left. change (Ascii.eqb "3" "_") with false. cbv iota.
    change (PyStr.is_digit "3") with true. rewrite andb_false_r.
    destruct (IHu "3"%char) as [->|[_ H]]; [reflexivity | discriminate].
  - left. change (Ascii.eqb "4" "_") with false. cbv iota.
    change (PyStr.is_digit "4") with true. rewrite andb_false_r.
    destruct (IHu "4"%char) as [->|[_ H]]; [reflexivity | discriminate].
  - left. change (Ascii.eqb "5" "_") with false. cbv iota.
    change (PyStr.is_digit "5") with true. rewrite andb_false_r.
    destruct (IHu "5"%char) as [->|[_ H]]; [reflexivity | discriminate].
  - left. change (Ascii.eqb "6" "_") with false. cbv iota.
    change (PyStr.is_digit "6") with true. rewrite andb_false_r.
    destruct (IHu "6"%char) as [->|[_ H]]; [reflexivity | discriminate].
  - left. change (Ascii.eqb "7" "_") with false. cbv iota.
    change (PyStr.is_digit "7") with true. rewrite andb_false_r.
    destruct (IHu "7"%char) as [->|[_ H]]; [reflexivity | discriminate].
  - left. change (Ascii.eqb "8" "_") with false. cbv iota.
    change (PyStr.is_digit "8") with true. rewrite andb_false_r.
    destruct (IHu "8"%char) as [->|[_ H]]; [reflexivity | discriminate].
  - left. change (Ascii.eqb "9" "_") with false. cbv iota.
    change (PyStr.is_digit "9") with true. rewrite andb_false_r.
    destruct (IHu "9"%char) as [->|[_ H]]; [reflexivity | discriminate].
Qed.

Lemma take_sign_uint (u : Decimal.uint) :
  PyFloat.take_sign (NilEmpty.string_of_uint u)
  = (false, NilEmpty.string_of_uint u).
Proof. destruct u; reflexivity. Qed.

Lemma length_uint (u : Decimal.uint) :
  String.length (NilEmpty.string_of_uint u) = Decimal.nb_digits u.
Proof.
  induction u; cbn [NilEmpty.string_of_uint Decimal.nb_digits String.length];
    congruence.
Qed.

Lemma has_char_uint (c : ascii) (u : Decimal.uint) :
  PyStr.is_digit c = false ->
  PyStr.has_char c (NilEmpty.string_of_uint u) = false.
Proof.
  intros Hc. induction u; cbn [NilEmpty.string_of_uint]; [reflexivity | ..];
    rewrite has_char_cons, IHu, orb_false_r;
    match goal with
    | |- Ascii.eqb c ?d = false =>
        destruct (Ascii.eqb_spec c d) as [->|]; [discriminate Hc | reflexivity]
    end.
Qed.

Lemma int_of_string_uint (u : Decimal.uint) :
  u <> Decimal.Nil ->
  (Decimal.nb_digits u <= 4300)%nat ->
  int_of_string (NilEmpty.string_of_uint u) = Ok (Z.of_N (N.of_uint u)).
Proof.
  intros Hu Hn. unfold int_of_string, PyFloat.strip_blank.
  rewrite lstrip_blank_uint, rstrip_blank_uint.
  destruct (drop_underscores_uint u "000"%char) as [->|[H _]]; [|contradiction].
  rewrite take_sign_uint, take_digits_uint, uint_value_0.
  assert (H0 : (0 + Z.of_nat (Decimal.nb_digits u) =? 0) = false).
  { apply Z.eqb_neq. destruct u; cbn [Decimal.nb_digits]; try lia.
    contradiction. }
  assert (H1 : (int_max_str_digits <? 0 + Z.of_nat (Decimal.nb_digits u)) = false).
  { apply Z.ltb_ge. unfold int_max_str_digits. lia. }
  rewrite H0, H1. reflexivity.
Qed.

Lemma int_of_string_Z_to_str (n : Z) :
  0 <= n ->
  (String.length (PyFloat.Z_to_str n) <= 4300)%nat ->
  int_of_string (PyFloat.Z_to_str n) = Ok n.
Proof.
  intros Hn Hlen. unfold PyFloat.Z_to_str, NilZero.string_of_uint in *.
  pose proof (DecimalN.Unsigned.of_to (Z.to_N n)) as Hrt.
  destruct (N.to_uint (Z.to_N n)) as [| | | | | | | | | |] eqn:E;
    try (rewrite <- E in *; rewrite length_uint in Hlen;
         rewrite int_of_string_uint;
         [rewrite Hrt, Z2N.id by exact Hn; reflexivity
         | rewrite E; discriminate | exact Hlen]).
  cbn in Hrt. rewrite <- (Z2N.id n Hn), <- Hrt. reflexivity.
Qed.

Lemma Z_to_str_first (n : Z) :
  exists c r, PyFloat.Z_to_str n = String c r /\ PyStr.is_digit c = true
              /\ PyStr.has_char "," (PyFloat.Z_to_str n) = false.
Proof.
  unfold PyFloat.Z_to_str, NilZero.string_of_uint.
  destruct (N.to_uint (Z.to_N n)) eqn:E;
    cbn [NilEmpty.string_of_uint];
    (eexists _, _; split; [reflexivity|]; split; [reflexivity|]);
    rewrite has_char_cons, ?has_char_uint by reflexivity; reflexivity.
Qed.

(** X21. A number of the menu, typed back as it is shown, selects the file
    beside which it is shown: the file at place [k] of the list, counted
    from zero, is shown with the number [k + 1] and that number selects it
    and nothing else.  The number is one that [int] reads, of at most 4300
    digits. *)
Theorem menu_number_selects_its_file (dir : string) (files : list string)
    (k : nat) (f : string) :
  files !! k = Some f ->
  (String.length (PyFloat.Z_to_str (Z.of_nat k + 1)) <= 4300)%nat ->
  selected_paths dir files (PyFloat.Z_to_str (Z.of_nat k + 1))
  = Some [path_join dir f].
Proof.
  intros Hf Hlen. set (s := PyFloat.Z_to_str (Z.of_nat k + 1)) in *.
  destruct (Z_to_str_first (Z.of_nat k + 1)) as (c & r & Hs & Hc & Hcomma).
  fold s in Hs, Hcomma.
  unfold selected_paths.
  destruct (String.eqb_spec (str_lower s) "all") as [E|_].
  { exfalso. apply str_lower_all in E. rewrite Hs in E.
    repeat (apply elem_of_cons in E as [E|E];
            [injection E as -> _; discriminate Hc|]).
    inversion E. }
  unfold parse_indices. rewrite (split_single _ _ Hcomma). cbn [mapM_result].
  assert (Hstrip : PyStr.strip s = s).
  { unfold s, PyFloat.Z_to_str, NilZero.string_of_uint, PyStr.strip.
    destruct (N.to_uint (Z.to_N (Z.of_nat k + 1))) eqn:E; try reflexivity;
      rewrite <- E, lstrip_uint, rstrip_uint; reflexivity. }
  rewrite Hstrip. unfold s. rewrite int_of_string_Z_to_str by (lia || exact Hlen).
  cbn. replace (Z.of_nat k + 1 - 1) with (Z.of_nat k) by lia.
  pose proof (lookup_lt_Some _ _ _ Hf) as Hlt.
  destruct (Z.ltb_spec (Z.of_nat k) 0); [lia|].
  destruct (Z.leb_spec (Z.of_nat (length files)) (Z.of_nat k)); [lia|].
  cbn [orb]. rewrite Nat2Z.id, Hf. reflexivity.
Qed.

Lemma menu_number_selects_its_file_witness :
  selected_paths "/home/user/budget/accounts"
    ["Chase1234_Activity.CSV"; "Visa_2024.csv"] "2"
  = Some ["/home/user/budget/accounts/Visa_2024.csv"].
Proof.
  refine (menu_number_selects_its_file "/home/user/budget/accounts"
            ["Chase1234_Activity.CSV"; "Visa_2024.csv"] 1 "Visa_2024.csv" _ _).
  - reflexivity.
  - vm_compute. lia.
Defined.

(** * The formula helper *)

Lemma input_loop_accepted (keys : list FormatNumbers.keyboard) :
  forall acc numbers,
    Forall FormatNumbers.accepted acc ->
    FormatNumbers.input_loop keys acc = FormatNumbers.Numbers numbers ->
    Forall FormatNumbers.accepted numbers.
Proof.
  induction keys as [|[raw|] keys IH]; intros acc numbers Hacc H;
    cbn [FormatNumbers.input_loop] in H; try discriminate.
  cbv zeta in H.
  destruct (String.eqb_spec (PyStr.strip raw) "") as [E|E].
  - injection H as <-. exact Hacc.
  - destruct (PyFloat.of_string (PyStr.strip raw)) as [x|e] eqn:Ef.
    + apply (IH (acc ++ [PyStr.strip raw])); [|exact H].
      apply Forall_app. split; [exact Hacc|]. constructor; [|constructor].
      repeat split; [apply strip_idem | exact E | rewrite Ef; reflexivity].
    + destruct e; try discriminate. eapply IH; eauto.
Qed.

Lemma abs_not_negative (x : PyFloat.float) :
  SFltb (PyFloat.abs x) PyFloat.zero = false.
Proof. destruct x as [[]|[]| |[] m e]; reflexivity. Qed.

Lemma abs_numbers_accepted (numbers : list string) :
  Forall FormatNumbers.accepted numbers ->
  exists xs, FormatNumbers.abs_numbers numbers = Ok xs
             /\ length xs = length numbers
             /\ Forall (fun x => SFltb x PyFloat.zero = false) xs.
Proof.
  unfold FormatNumbers.abs_numbers.
  induction 1 as [|num numbers (Hs & Hne & Hok) _ (xs & IH & Hlen & Hpos)].
  - exists []. repeat split. constructor.
  - cbn [List.filter]. rewrite Hs.
    destruct (String.eqb_spec num "") as [E|_]; [contradiction|].
    cbn [negb mapM_result].
    destruct (PyFloat.of_string num) as [x|e]; [|discriminate].
    rewrite IH. exists (PyFloat.abs x :: xs). cbn. repeat split.
    + now rewrite Hlen.
    + constructor; [apply abs_not_negative | exact Hpos].
Qed.

(** X22. Every line the entry loop of [main] keeps is converted by
    [format_numbers_to_excel]: the conversion of line 23 raises nothing,
    skips none of the lines kept, and yields no negative number. *)
Theorem entered_numbers_convert (keys : list FormatNumbers.keyboard)
    (numbers : list string) :
  FormatNumbers.input_loop keys [] = FormatNumbers.Numbers numbers ->
  exists xs, FormatNumbers.abs_numbers numbers = Ok xs
             /\ length xs = length numbers
             /\ Forall (fun x => SFltb x PyFloat.zero = false) xs.
Proof.
  intros H. apply abs_numbers_accepted.
  eapply input_loop_accepted; [|exact H]. constructor.
Qed.

Lemma entered_numbers_convert_witness :
  exists xs,
    FormatNumbers.abs_numbers ["-44.9"; "-49.38"] = Ok xs
    /\ length xs = length ["-44.9"; "-49.38"]
    /\ Forall (fun x => SFltb x PyFloat.zero = false) xs.
Proof.
  refine (entered_numbers_convert
            [FormatNumbers.Typed "-44.9"; FormatNumbers.Typed " -49.38 ";
             FormatNumbers.Typed "12 dollars"; FormatNumbers.Typed "";
             FormatNumbers.Typed "7"]
            ["-44.9"; "-49.38"] _).
  vm_compute. reflexivity.
Defined.
